(** * Profile and document consistency of the skillMatch backend

    A shallow embedding of [src/controllers/user.controller.ts]: the
    completion scorer, the resume and profile handlers, the relational
    store they talk to through [pool.query] / [client.query], and the
    upload directory they touch through [fs].

    Further modules embed the other handlers' code: the statements that
    [skillsController.ts] and [apllicationController.ts] build for their
    listings, the three handlers of the latter that write to
    [job_applications], and the guards [protect] and [authorize].

    JavaScript numbers are modelled by rationals ([Q]) where the source
    computes with fractions (the education weight [2.5], [file.size / 1024])
    and by [Z] where it only stores or compares integers. *)

From Stdlib Require Import ZArith QArith Qround Qminmax.
From Stdlib Require Import List String Ascii Bool Lia Morphisms.
From Stdlib Require Import DecimalString Lqa.
Import ListNotations.

Local Open Scope string_scope.
Local Open Scope Z_scope.
Local Open Scope list_scope.

(** ** JavaScript values and row objects *)

Module JS.

(** The values that travel between the request body, the driver and the
    handlers. *)
Inductive jsval : Type :=
| JUndefined
| JNull
| JBool (b : bool)
| JNum (n : Z)
| JStr (s : string).

(** [if (v)] : ToBoolean. *)
Definition truthy (v : jsval) : bool :=
  match v with
  | JUndefined | JNull => false
  | JBool b => b
  | JNum n => negb (n =? 0)
  | JStr s => negb (s =? "")%string
  end.

(** [a ?? b] *)
Definition nullish (v : jsval) : bool :=
  match v with
  | JUndefined | JNull => true
  | _ => false
  end.

Definition coalesce (a b : jsval) : jsval := if nullish a then b else a.

(** [a === b] *)
Definition strict_eq (a b : jsval) : bool :=
  match a, b with
  | JUndefined, JUndefined | JNull, JNull => true
  | JBool x, JBool y => Bool.eqb x y
  | JNum x, JNum y => x =? y
  | JStr x, JStr y => (x =? y)%string
  | _, _ => false
  end.

(** A row object as the driver returns it, or a request body: column
    names in order, each with its value. *)
Definition row : Type := list (string * jsval).

(** [o[k]]; a missing property reads as [undefined]. *)
Fixpoint get (o : row) (k : string) : jsval :=
  match o with
  | [] => JUndefined
  | (k', v) :: o' => if (k' =? k)%string then v else get o' k
  end.

(** Numeric reading of a count column. *)
Definition to_number (v : jsval) : Q :=
  match v with
  | JNum n => inject_Z n
  | JBool true => 1%Q
  | _ => 0%Q
  end.

(** [Math.round]: nearest integer, halves towards plus infinity. *)
Definition math_round (x : Q) : Z := Qfloor (x + (1 # 2)).

(** [Math.max(a, Math.min(b, z))] on integers. *)
Definition clamp (lo hi z : Z) : Z := Z.max lo (Z.min hi z).

End JS.
Import JS.

(** ** The completion scorer (user.controller.ts, lines 1084-1141) *)

Module Scorer.

Local Open Scope Q_scope.

(** The [weights] object literal. *)
Definition weights_basicInfo : list (string * Q) :=
  [ ("job_title", 5); ("location", 5); ("years_of_experience", 5);
    ("experience_level", 5); ("primary_industry", 5) ].
Definition weights_summaries : list (string * Q) :=
  [ ("profile_summary", 10); ("professional_summary", 10) ].
Definition weights_links : list (string * Q) :=
  [ ("website_url", 3); ("linkedin_url", 4); ("github_url", 3) ].
Definition weights_profileImage : Q := 5.
Definition weights_experience : Q := 15.
Definition weights_education : Q := 10.
Definition weights_skills : Q := 15.
Definition weights_resume : Q := 10.

(** [if (c) acc += w] *)
Definition bump (acc : Q) (c : bool) (w : Q) : Q :=
  if c then acc + w else acc.

(** [Object.keys(ws).forEach(key => { if (profile[key]) acc += ws[key] })] *)
Definition add_keys (profile : row) (ws : list (string * Q)) (acc : Q) : Q :=
  fold_left (fun a kw => bump a (truthy (get profile (fst kw))) (snd kw)) ws acc.

(** [counts.c > 0] *)
Definition positive (v : jsval) : bool :=
  match Qcompare 0 (to_number v) with Lt => true | _ => false end.

(** The running total [completionPercentage] just before rounding. *)
Definition completionPercentage (profile counts : row) : Q :=
  let c := 0 in
  let c := add_keys profile weights_basicInfo c in
  let c := add_keys profile weights_summaries c in
  let linkScore := add_keys profile weights_links 0 in
  let c := c + Qmin linkScore 10 in
  let c := bump c (truthy (get profile "profile_image_url")) weights_profileImage in
  let c := bump c (positive (get counts "experience_count"))
             (Qmin weights_experience
                (5 + to_number (get counts "experience_count") * 2)) in
  let c := bump c (positive (get counts "education_count"))
             (Qmin weights_education
                (5 + to_number (get counts "education_count") * (25 # 10))) in
  let c := bump c (positive (get counts "skill_count"))
             (Qmin weights_skills
                (3 + to_number (get counts "skill_count") * 1)) in
  let c := bump c (positive (get counts "resume_count")) weights_resume in
  c.

(** [finalPercentage] *)
Definition finalPercentage (profile counts : row) : Z :=
  Z.max 0 (Z.min 100 (math_round (completionPercentage profile counts))).

(** The one-row result of the counting query.  The driver hands the
    counts over as decimal strings, which [>] and [*] convert to numbers
    before they compare and multiply; they are numbers here. *)
Definition counts_row (experience education skill resume : nat) : row :=
  [ ("experience_count", JNum (Z.of_nat experience));
    ("education_count", JNum (Z.of_nat education));
    ("skill_count", JNum (Z.of_nat skill));
    ("resume_count", JNum (Z.of_nat resume)) ].

(** *** The closed formula the specification gives

    [filled] decides when a field counts as non-empty; the formula is
    otherwise the one of the specification, category by category. *)

Definition pts (c : bool) (w : Q) : Q := if c then w else 0.

Definition count_pts (n : nat) (cap base step : Q) : Q :=
  match n with
  | O => 0
  | S _ => Qmin cap (base + step * inject_Z (Z.of_nat n))
  end.

Definition category_sum (filled : jsval -> bool) (p : row)
           (experience education skill resume : nat) : Q :=
    (pts (filled (get p "job_title")) 5
     + pts (filled (get p "location")) 5
     + pts (filled (get p "years_of_experience")) 5
     + pts (filled (get p "experience_level")) 5
     + pts (filled (get p "primary_industry")) 5)
  + (pts (filled (get p "profile_summary")) 10
     + pts (filled (get p "professional_summary")) 10)
  + Qmin 10 (pts (filled (get p "website_url")) 3
             + pts (filled (get p "linkedin_url")) 4
             + pts (filled (get p "github_url")) 3)
  + pts (filled (get p "profile_image_url")) 5
  + count_pts experience 15 5 2
  + count_pts education 10 5 (25 # 10)
  + count_pts skill 15 3 1
  + pts (negb (Nat.eqb resume 0)) 10.

Definition spec_score (filled : jsval -> bool) (p : row)
           (experience education skill resume : nat) : Z :=
  clamp 0 100 (math_round (category_sum filled p experience education skill resume)).

(** A field is non-empty when it holds a value other than the empty
    text; a stored number, zero included, is a value. *)
Definition non_empty (v : jsval) : bool :=
  match v with
  | JUndefined | JNull => false
  | JStr s => negb (s =? "")%string
  | JBool _ | JNum _ => true
  end.

End Scorer.

(** ** The relational store

    Tables hold what the statements of the controller read and write.
    Statements are the SQL texts of the controller, one constructor per
    text; they are executed with the array of bind values the call site
    passes, so a call that passes fewer values than the text has
    placeholders is rejected here as the server rejects it. *)

Module Store.

Record user_row := {
  u_id : Z; u_first_name : jsval; u_last_name : jsval; u_email : jsval;
  u_user_type : jsval }.

Record profile_row := {
  up_user_id : Z;
  job_title : jsval; location : jsval;
  profile_summary : jsval; professional_summary : jsval;
  years_of_experience : jsval; experience_level : jsval;
  primary_industry : jsval;
  website_url : jsval; linkedin_url : jsval; github_url : jsval;
  profile_image_url : jsval;
  profile_completion : jsval }.

Record document_row := {
  d_id : Z; d_user_id : Z; document_type : string; file_name : string;
  storage_url : string; file_size_kb : Z; is_default_resume : bool }.

Record user_skill_row := {
  us_id : Z; us_user_id : Z; us_skill_id : Z; proficiency_level : jsval }.

Record skill_row := { s_id : Z; s_name : jsval; s_category : jsval }.

(** [user_experiences] and [user_educations] rows: the key columns and
    the remaining columns by name. *)
Record entry_row := { e_id : Z; e_user_id : Z; e_cols : row }.

Inductive entry_table := Experiences | Educations.

Record tables := {
  users : list user_row;
  user_profiles : list profile_row;
  user_documents : list document_row;
  user_skills : list user_skill_row;
  skills : list skill_row;
  user_experiences : list entry_row;
  user_educations : list entry_row;
  seq_documents : Z;
  seq_user_skills : Z;
  seq_experiences : Z;
  seq_educations : Z }.

(** The statements, named after what their text does. *)
Inductive sql :=
| Begin | Commit | Rollback
| SelectProfileImage       (* SELECT profile_image_url FROM user_profiles WHERE user_id = $1 *)
| UpdateUserNames          (* UPDATE users SET first_name = COALESCE($1, ..), last_name = COALESCE($2, ..) WHERE id = $3 *)
| UpdateProfileFields      (* UPDATE user_profiles SET job_title = COALESCE($1, ..), .., profile_image_url = $11 WHERE user_id = $12 *)
| SelectUserWithProfile    (* SELECT u.., up.. FROM users u LEFT JOIN user_profiles up .. WHERE u.id = $1 *)
| InsertDocument           (* INSERT INTO user_documents (..) VALUES ($1, .., $6) RETURNING * *)
| ClearOtherDefaults       (* UPDATE user_documents SET is_default_resume = FALSE WHERE user_id = $1 AND id != $2 AND document_type = 'resume' *)
| SelectResume             (* SELECT id, storage_url FROM user_documents WHERE id = $1 AND user_id = $2 AND document_type = 'resume' *)
| DeleteDocument           (* DELETE FROM user_documents WHERE id = $1 AND user_id = $2 *)
| SelectSkill              (* SELECT id FROM skills WHERE id = $1 *)
| SelectUserSkill          (* SELECT id FROM user_skills WHERE user_id = $1 AND skill_id = $2 *)
| InsertUserSkill          (* INSERT INTO user_skills (user_id, skill_id, proficiency_level) VALUES ($1, $2, $3) RETURNING id *)
| SelectUserSkillJoined    (* SELECT us.id, s.id as skill_id, s.name, .. WHERE us.id = $1 *)
| DeleteUserSkill          (* DELETE FROM user_skills WHERE user_id = $1 AND skill_id = $2 *)
| InsertEntry (t : entry_table)   (* INSERT INTO user_experiences/user_educations (..) VALUES ($1, .., $10) RETURNING * *)
| SelectEntry (t : entry_table)   (* SELECT id, end_date, is_current FROM .. WHERE id = $1 AND user_id = $2 *)
| UpdateEntry (t : entry_table)   (* UPDATE .. SET .. WHERE id = $10 AND user_id = $11 RETURNING * *)
| SelectEntryId (t : entry_table) (* SELECT id FROM .. WHERE id = $1 AND user_id = $2 *)
| DeleteEntry (t : entry_table)   (* DELETE FROM .. WHERE id = $1 AND user_id = $2 *)
| SelectCounts             (* the four COUNT( * ) sub-selects, WHERE user_id = $1 *)
| SelectProfileForScore    (* SELECT job_title, .., profile_image_url FROM user_profiles WHERE user_id = $1 *)
| UpdateCompletion.        (* UPDATE user_profiles SET profile_completion = $1 WHERE user_id = $2 *)

(** The highest [$n] of each text. *)
Definition placeholders (s : sql) : nat :=
  match s with
  | Begin | Commit | Rollback => 0
  | SelectProfileImage => 1
  | UpdateUserNames => 3
  | UpdateProfileFields => 12
  | SelectUserWithProfile => 1
  | InsertDocument => 6
  | ClearOtherDefaults => 2
  | SelectResume => 2
  | DeleteDocument => 2
  | SelectSkill => 1
  | SelectUserSkill => 2
  | InsertUserSkill => 3
  | SelectUserSkillJoined => 1
  | DeleteUserSkill => 2
  | InsertEntry _ => 10
  | SelectEntry _ => 2
  | SelectEntryId _ => 2
  | UpdateEntry _ => 11
  | DeleteEntry _ => 2
  | SelectCounts => 1
  | SelectProfileForScore => 1
  | UpdateCompletion => 2
  end%nat.

(** What [query] resolves to. *)
Record qresult := { rows : list row; rowCount : nat }.

Definition selected (rs : list row) : qresult :=
  {| rows := rs; rowCount := List.length rs |}.

(** [$i] of the bind array. *)
Definition param (ps : list jsval) (i : nat) : jsval := nth (pred i) ps JUndefined.

(** The driver sends [undefined] as NULL. *)
Definition sql_value (v : jsval) : jsval :=
  match v with JUndefined => JNull | _ => v end.

Definition as_int (v : jsval) : option Z :=
  match v with JNum n => Some n | _ => None end.
Definition as_text (v : jsval) : option string :=
  match v with JStr s => Some s | _ => None end.
Definition as_bool (v : jsval) : option bool :=
  match v with JBool b => Some b | _ => None end.

(** [COALESCE($i, column)] *)
Definition sql_coalesce (p column : jsval) : jsval :=
  match sql_value p with JNull => column | v => v end.

(** *** Bind values of a boolean column

    The driver sends every bind value as text: a boolean as [true] or
    [false], a number in decimal.  The server reads the text for the
    column's type; for a boolean column it drops surrounding white
    space and accepts, in any case, a non-empty prefix of [true],
    [false], [yes] or [no], and [on], [of], [off], [1], [0]; any other
    text is an error. *)

Definition is_space (c : ascii) : bool :=
  let n := nat_of_ascii c in
  Nat.eqb n 32 || (Nat.leb 9 n && Nat.leb n 13).

Definition lower (c : ascii) : ascii :=
  let n := nat_of_ascii c in
  if Nat.leb 65 n && Nat.leb n 90 then ascii_of_nat (n + 32) else c.

Fixpoint only_spaces (s : string) : bool :=
  match s with
  | EmptyString => true
  | String c s' => is_space c && only_spaces s'
  end.

Fixpoint drop_leading (s : string) : string :=
  match s with
  | EmptyString => EmptyString
  | String c s' => if is_space c then drop_leading s' else s
  end.

Fixpoint drop_trailing (s : string) : string :=
  match s with
  | EmptyString => EmptyString
  | String c s' => if only_spaces s then EmptyString else String c (drop_trailing s')
  end.

(** [s] is, case apart, a prefix of [word]. *)
Fixpoint prefix_ci (s word : string) : bool :=
  match s, word with
  | EmptyString, _ => true
  | String c s', String d word' => Ascii.eqb (lower c) d && prefix_ci s' word'
  | String _ _, EmptyString => false
  end.

(** [s] is, case apart, [word]. *)
Definition same_ci (s word : string) : bool :=
  prefix_ci s word && Nat.eqb (String.length s) (String.length word).

Definition parse_bool (text : string) : option bool :=
  let s := drop_trailing (drop_leading text) in
  match s with
  | EmptyString => None
  | String c _ =>
      let c := lower c in
      if Ascii.eqb c "t" then (if prefix_ci s "true" then Some true else None)
      else if Ascii.eqb c "f" then (if prefix_ci s "false" then Some false else None)
      else if Ascii.eqb c "y" then (if prefix_ci s "yes" then Some true else None)
      else if Ascii.eqb c "n" then (if prefix_ci s "no" then Some false else None)
      else if Ascii.eqb c "o" then
        (if same_ci s "on" then Some true
         else if same_ci s "of" || same_ci s "off" then Some false
         else None)
      else if Ascii.eqb c "1" then (if same_ci s "1" then Some true else None)
      else if Ascii.eqb c "0" then (if same_ci s "0" then Some false else None)
      else None
  end.

(** What a boolean column holds after a bind value is assigned to it;
    [None] when the server cannot read the value. *)
Definition as_boolean (v : jsval) : option jsval :=
  match v with
  | JUndefined | JNull => Some JNull
  | JBool b => Some (JBool b)
  | JNum n => if n =? 1 then Some (JBool true)
              else if n =? 0 then Some (JBool false) else None
  | JStr s => option_map JBool (parse_bool s)
  end.

(** [is_current] is the boolean column of the entry tables. *)
Definition boolean_column (k : string) : bool := (k =? "is_current")%string.

(** The server can read [v] for column [k]. *)
Definition readable (k : string) (v : jsval) : bool :=
  if boolean_column k
  then match as_boolean v with Some _ => true | None => false end
  else true.

(** What column [k] holds after a readable [v] is assigned to it. *)
Definition stored (k : string) (v : jsval) : jsval :=
  if boolean_column k
  then match as_boolean v with Some b => b | None => JNull end
  else sql_value v.

Definition all_readable (ks : list string) (vs : list jsval) : bool :=
  forallb (fun kv => readable (fst kv) (snd kv)) (combine ks vs).

Definition store_all (ks : list string) (vs : list jsval) : row :=
  map (fun kv => (fst kv, stored (fst kv) (snd kv))) (combine ks vs).

Definition is_resume (d : document_row) : bool :=
  (document_type d =? "resume")%string.

Definition document_object (d : document_row) : row :=
  [ ("id", JNum (d_id d)); ("user_id", JNum (d_user_id d));
    ("document_type", JStr (document_type d));
    ("file_name", JStr (file_name d));
    ("storage_url", JStr (storage_url d));
    ("file_size_kb", JNum (file_size_kb d));
    ("is_default_resume", JBool (is_default_resume d)) ].

Definition score_columns (p : profile_row) : row :=
  [ ("job_title", job_title p); ("location", location p);
    ("profile_summary", profile_summary p);
    ("professional_summary", professional_summary p);
    ("years_of_experience", years_of_experience p);
    ("experience_level", experience_level p);
    ("primary_industry", primary_industry p);
    ("website_url", website_url p); ("linkedin_url", linkedin_url p);
    ("github_url", github_url p);
    ("profile_image_url", profile_image_url p) ].

Definition null_profile (uid : Z) : profile_row :=
  {| up_user_id := uid; job_title := JNull; location := JNull;
     profile_summary := JNull; professional_summary := JNull;
     years_of_experience := JNull; experience_level := JNull;
     primary_industry := JNull; website_url := JNull;
     linkedin_url := JNull; github_url := JNull;
     profile_image_url := JNull; profile_completion := JNull |}.

Definition joined_object (u : user_row) (p : profile_row) : row :=
  [ ("id", JNum (u_id u)); ("first_name", u_first_name u);
    ("last_name", u_last_name u); ("email", u_email u);
    ("user_type", u_user_type u) ]
  ++ score_columns p ++ [ ("profile_completion", profile_completion p) ].

Definition entry_object (e : entry_row) : row :=
  ("id", JNum (e_id e)) :: ("user_id", JNum (e_user_id e)) :: e_cols e.

(** Column lists of the two entry tables, in the order of the INSERT's
    VALUES after [user_id]. *)
Definition insert_columns (t : entry_table) : list string :=
  match t with
  | Experiences =>
      [ "company_name"; "job_title"; "location"; "start_date"; "end_date";
        "is_current"; "description"; "responsibilities"; "achievements" ]
  | Educations =>
      [ "institution_name"; "degree"; "field_of_study"; "location";
        "start_date"; "end_date"; "is_current"; "description";
        "achievements" ]
  end.

(** The SET list of the UPDATE: column of [$1 .. $9] and whether it is
    wrapped in COALESCE. *)
Definition update_columns (t : entry_table) : list (string * bool) :=
  match t with
  | Experiences =>
      [ ("company_name", true); ("job_title", true); ("location", true);
        ("start_date", true); ("end_date", false); ("is_current", false);
        ("description", true); ("responsibilities", true);
        ("achievements", true) ]
  | Educations =>
      [ ("institution_name", true); ("degree", true);
        ("field_of_study", true); ("location", true); ("start_date", true);
        ("end_date", false); ("is_current", false); ("description", true);
        ("achievements", true) ]
  end.

Fixpoint set_col (o : row) (k : string) (v : jsval) : row :=
  match o with
  | [] => [(k, v)]
  | (k', v') :: o' =>
      if (k' =? k)%string then (k, v) :: o' else (k', v') :: set_col o' k v
  end.

Fixpoint apply_set (cs : list (string * bool)) (ps : list jsval) (o : row) : row :=
  match cs, ps with
  | (k, wrapped) :: cs', p :: ps' =>
      let v := if wrapped then sql_coalesce p (sql_value (get o k)) else stored k p in
      apply_set cs' ps' (set_col o k v)
  | _, _ => o
  end.

Definition entries (t : entry_table) (db : tables) : list entry_row :=
  match t with
  | Experiences => user_experiences db
  | Educations => user_educations db
  end.

Definition with_profiles (db : tables) (ps : list profile_row) : tables :=
  {| users := users db; user_profiles := ps;
     user_documents := user_documents db; user_skills := user_skills db;
     skills := skills db; user_experiences := user_experiences db;
     user_educations := user_educations db;
     seq_documents := seq_documents db;
     seq_user_skills := seq_user_skills db;
     seq_experiences := seq_experiences db;
     seq_educations := seq_educations db |}.

Definition with_users (db : tables) (us : list user_row) : tables :=
  {| users := us; user_profiles := user_profiles db;
     user_documents := user_documents db; user_skills := user_skills db;
     skills := skills db; user_experiences := user_experiences db;
     user_educations := user_educations db;
     seq_documents := seq_documents db;
     seq_user_skills := seq_user_skills db;
     seq_experiences := seq_experiences db;
     seq_educations := seq_educations db |}.

Definition with_documents (db : tables) (ds : list document_row) (next : Z) : tables :=
  {| users := users db; user_profiles := user_profiles db;
     user_documents := ds; user_skills := user_skills db;
     skills := skills db; user_experiences := user_experiences db;
     user_educations := user_educations db;
     seq_documents := next;
     seq_user_skills := seq_user_skills db;
     seq_experiences := seq_experiences db;
     seq_educations := seq_educations db |}.

Definition with_user_skills (db : tables) (ss : list user_skill_row) (next : Z) : tables :=
  {| users := users db; user_profiles := user_profiles db;
     user_documents := user_documents db; user_skills := ss;
     skills := skills db; user_experiences := user_experiences db;
     user_educations := user_educations db;
     seq_documents := seq_documents db;
     seq_user_skills := next;
     seq_experiences := seq_experiences db;
     seq_educations := seq_educations db |}.

Definition with_entries (t : entry_table) (db : tables) (es : list entry_row) (next : Z) : tables :=
  match t with
  | Experiences =>
      {| users := users db; user_profiles := user_profiles db;
         user_documents := user_documents db; user_skills := user_skills db;
         skills := skills db; user_experiences := es;
         user_educations := user_educations db;
         seq_documents := seq_documents db;
         seq_user_skills := seq_user_skills db;
         seq_experiences := next;
         seq_educations := seq_educations db |}
  | Educations =>
      {| users := users db; user_profiles := user_profiles db;
         user_documents := user_documents db; user_skills := user_skills db;
         skills := skills db; user_experiences := user_experiences db;
         user_educations := es;
         seq_documents := seq_documents db;
         seq_user_skills := seq_user_skills db;
         seq_experiences := seq_experiences db;
         seq_educations := next |}
  end.

Definition seq_entries (t : entry_table) (db : tables) : Z :=
  match t with
  | Experiences => seq_experiences db
  | Educations => seq_educations db
  end.

(** *** Executing one statement

    [exec s ps db] is [None] when the server rejects the statement: the
    bind array has not exactly as many values as the text has
    placeholders, a key column is compared with a value that is not a
    number, or a boolean column is given a text that is no boolean. *)

Definition obind {A B : Type} (o : option A) (k : A -> option B) : option B :=
  match o with Some a => k a | None => None end.

Notation "x <-? o ; k" := (obind o (fun x => k))
  (at level 61, o at next level, right associativity).

Definition count_of {A : Type} (f : A -> bool) (l : list A) : nat :=
  List.length (filter f l).

Definition owned_by (uid : Z) (d : document_row) : bool := d_user_id d =? uid.

Definition set_names (ps : list jsval) (u : user_row) : user_row :=
  {| u_id := u_id u;
     u_first_name := sql_coalesce (param ps 1) (u_first_name u);
     u_last_name := sql_coalesce (param ps 2) (u_last_name u);
     u_email := u_email u; u_user_type := u_user_type u |}.

Definition set_profile_fields (ps : list jsval) (p : profile_row) : profile_row :=
  {| up_user_id := up_user_id p;
     job_title := sql_coalesce (param ps 1) (job_title p);
     location := sql_coalesce (param ps 2) (location p);
     profile_summary := sql_coalesce (param ps 3) (profile_summary p);
     professional_summary := sql_coalesce (param ps 4) (professional_summary p);
     years_of_experience := sql_coalesce (param ps 5) (years_of_experience p);
     experience_level := sql_coalesce (param ps 6) (experience_level p);
     primary_industry := sql_coalesce (param ps 7) (primary_industry p);
     website_url := sql_coalesce (param ps 8) (website_url p);
     linkedin_url := sql_coalesce (param ps 9) (linkedin_url p);
     github_url := sql_coalesce (param ps 10) (github_url p);
     profile_image_url := sql_value (param ps 11);
     profile_completion := profile_completion p |}.

Definition set_completion (v : jsval) (p : profile_row) : profile_row :=
  {| up_user_id := up_user_id p;
     job_title := job_title p; location := location p;
     profile_summary := profile_summary p;
     professional_summary := professional_summary p;
     years_of_experience := years_of_experience p;
     experience_level := experience_level p;
     primary_industry := primary_industry p;
     website_url := website_url p; linkedin_url := linkedin_url p;
     github_url := github_url p;
     profile_image_url := profile_image_url p;
     profile_completion := v |}.

Definition clear_default (d : document_row) : document_row :=
  {| d_id := d_id d; d_user_id := d_user_id d;
     document_type := document_type d; file_name := file_name d;
     storage_url := storage_url d; file_size_kb := file_size_kb d;
     is_default_resume := false |}.

Definition on_rows {A : Type} (sel : A -> bool) (f : A -> A) (l : list A) : list A :=
  map (fun a => if sel a then f a else a) l.

Definition keep_rows {A : Type} (sel : A -> bool) (l : list A) : list A :=
  filter (fun a => negb (sel a)) l.

Definition updated {A : Type} (sel : A -> bool) (l : list A) : qresult :=
  {| rows := []; rowCount := count_of sel l |}.

Definition counts_of (uid : Z) (db : tables) : row :=
  Scorer.counts_row
    (count_of (fun e => e_user_id e =? uid) (user_experiences db))
    (count_of (fun e => e_user_id e =? uid) (user_educations db))
    (count_of (fun s => us_user_id s =? uid) (user_skills db))
    (count_of (fun d => owned_by uid d && is_resume d) (user_documents db)).

Definition left_join (uid : Z) (db : tables) : list row :=
  flat_map
    (fun u =>
       match filter (fun p => up_user_id p =? u_id u) (user_profiles db) with
       | [] => [joined_object u (null_profile (u_id u))]
       | ps => map (joined_object u) ps
       end)
    (filter (fun u => u_id u =? uid) (users db)).

Definition skill_join (usid : Z) (db : tables) : list row :=
  flat_map
    (fun us =>
       map (fun s =>
              [ ("id", JNum (us_id us)); ("skill_id", JNum (s_id s));
                ("name", s_name s); ("category", s_category s);
                ("proficiency_level", proficiency_level us) ])
           (filter (fun s => s_id s =? us_skill_id us) (skills db)))
    (filter (fun us => us_id us =? usid) (user_skills db)).

Definition exec (s : sql) (ps : list jsval) (db : tables) : option (qresult * tables) :=
  if negb (Nat.eqb (List.length ps) (placeholders s)) then None else
  match s with
  | Begin | Commit | Rollback => Some (selected [], db)
  | SelectProfileImage =>
      uid <-? as_int (param ps 1);
      Some (selected (map (fun p => [("profile_image_url", profile_image_url p)])
                          (filter (fun p => up_user_id p =? uid) (user_profiles db))),
            db)
  | UpdateUserNames =>
      uid <-? as_int (param ps 3);
      let sel u := u_id u =? uid in
      Some (updated sel (users db),
            with_users db (on_rows sel (set_names ps) (users db)))
  | UpdateProfileFields =>
      uid <-? as_int (param ps 12);
      let sel p := up_user_id p =? uid in
      Some (updated sel (user_profiles db),
            with_profiles db (on_rows sel (set_profile_fields ps) (user_profiles db)))
  | SelectUserWithProfile =>
      uid <-? as_int (param ps 1);
      Some (selected (left_join uid db), db)
  | InsertDocument =>
      uid <-? as_int (param ps 1);
      ty <-? as_text (param ps 2);
      name <-? as_text (param ps 3);
      url <-? as_text (param ps 4);
      size <-? as_int (param ps 5);
      dflt <-? as_bool (param ps 6);
      let d := {| d_id := seq_documents db; d_user_id := uid;
                  document_type := ty; file_name := name;
                  storage_url := url; file_size_kb := size;
                  is_default_resume := dflt |} in
      Some ({| rows := [document_object d]; rowCount := 1 |},
            with_documents db (user_documents db ++ [d]) (seq_documents db + 1))
  | ClearOtherDefaults =>
      uid <-? as_int (param ps 1);
      id <-? as_int (param ps 2);
      let sel d := owned_by uid d && negb (d_id d =? id) && is_resume d in
      Some (updated sel (user_documents db),
            with_documents db (on_rows sel clear_default (user_documents db))
                           (seq_documents db))
  | SelectResume =>
      id <-? as_int (param ps 1);
      uid <-? as_int (param ps 2);
      let sel d := (d_id d =? id) && owned_by uid d && is_resume d in
      Some (selected (map (fun d => [ ("id", JNum (d_id d));
                                      ("storage_url", JStr (storage_url d)) ])
                          (filter sel (user_documents db))),
            db)
  | DeleteDocument =>
      id <-? as_int (param ps 1);
      uid <-? as_int (param ps 2);
      let sel d := (d_id d =? id) && owned_by uid d in
      Some (updated sel (user_documents db),
            with_documents db (keep_rows sel (user_documents db)) (seq_documents db))
  | SelectSkill =>
      id <-? as_int (param ps 1);
      Some (selected (map (fun s => [("id", JNum (s_id s))])
                          (filter (fun s => s_id s =? id) (skills db))),
            db)
  | SelectUserSkill =>
      uid <-? as_int (param ps 1);
      sid <-? as_int (param ps 2);
      let sel us := (us_user_id us =? uid) && (us_skill_id us =? sid) in
      Some (selected (map (fun us => [("id", JNum (us_id us))])
                          (filter sel (user_skills db))),
            db)
  | InsertUserSkill =>
      uid <-? as_int (param ps 1);
      sid <-? as_int (param ps 2);
      let us := {| us_id := seq_user_skills db; us_user_id := uid;
                   us_skill_id := sid;
                   proficiency_level := sql_value (param ps 3) |} in
      Some ({| rows := [[("id", JNum (us_id us))]]; rowCount := 1 |},
            with_user_skills db (user_skills db ++ [us]) (seq_user_skills db + 1))
  | SelectUserSkillJoined =>
      usid <-? as_int (param ps 1);
      Some (selected (skill_join usid db), db)
  | DeleteUserSkill =>
      uid <-? as_int (param ps 1);
      sid <-? as_int (param ps 2);
      let sel us := (us_user_id us =? uid) && (us_skill_id us =? sid) in
      Some (updated sel (user_skills db),
            with_user_skills db (keep_rows sel (user_skills db)) (seq_user_skills db))
  | InsertEntry t =>
      uid <-? as_int (param ps 1);
      if negb (all_readable (insert_columns t) (tl ps)) then None else
      let e := {| e_id := seq_entries t db; e_user_id := uid;
                  e_cols := store_all (insert_columns t) (tl ps) |} in
      Some ({| rows := [entry_object e]; rowCount := 1 |},
            with_entries t db (entries t db ++ [e]) (seq_entries t db + 1))
  | SelectEntry t =>
      id <-? as_int (param ps 1);
      uid <-? as_int (param ps 2);
      let sel e := (e_id e =? id) && (e_user_id e =? uid) in
      Some (selected (map (fun e => [ ("id", JNum (e_id e));
                                      ("end_date", sql_value (get (e_cols e) "end_date"));
                                      ("is_current", sql_value (get (e_cols e) "is_current")) ])
                          (filter sel (entries t db))),
            db)
  | SelectEntryId t =>
      id <-? as_int (param ps 1);
      uid <-? as_int (param ps 2);
      let sel e := (e_id e =? id) && (e_user_id e =? uid) in
      Some (selected (map (fun e => [("id", JNum (e_id e))])
                          (filter sel (entries t db))),
            db)
  | UpdateEntry t =>
      id <-? as_int (param ps 10);
      uid <-? as_int (param ps 11);
      if negb (all_readable (map fst (update_columns t)) ps) then None else
      let sel e := (e_id e =? id) && (e_user_id e =? uid) in
      let upd e := {| e_id := e_id e; e_user_id := e_user_id e;
                      e_cols := apply_set (update_columns t) ps (e_cols e) |} in
      let es := on_rows sel upd (entries t db) in
      Some (selected (map entry_object (filter sel es)),
            with_entries t db es (seq_entries t db))
  | DeleteEntry t =>
      id <-? as_int (param ps 1);
      uid <-? as_int (param ps 2);
      let sel e := (e_id e =? id) && (e_user_id e =? uid) in
      Some (updated sel (entries t db),
            with_entries t db (keep_rows sel (entries t db)) (seq_entries t db))
  | SelectCounts =>
      uid <-? as_int (param ps 1);
      Some (selected [counts_of uid db], db)
  | SelectProfileForScore =>
      uid <-? as_int (param ps 1);
      Some (selected (map score_columns
                          (filter (fun p => up_user_id p =? uid) (user_profiles db))),
            db)
  | UpdateCompletion =>
      uid <-? as_int (param ps 2);
      let sel p := up_user_id p =? uid in
      Some (updated sel (user_profiles db),
            with_profiles db (on_rows sel (set_completion (sql_value (param ps 1)))
                                      (user_profiles db)))
  end.

End Store.
Import Store.

(** ** Connections, transactions, the upload directory

    One request runs at a time.  [committed] is what every connection
    sees; the request's client connection has a working copy while its
    transaction is open.  A statement that fails inside a transaction
    leaves the transaction aborted: later statements on it are rejected
    and COMMIT ends it without applying anything.  Everything the
    handlers do to the outside is appended to [log]. *)

Module Effects.

Inductive runner := Pool | Client.

Inductive error := DbError | TypeError | FsError.

Inductive event :=
| EvQuery (r : runner) (in_tx : bool) (s : sql) (ps : list jsval) (ok : bool)
| EvUnlink (path : string) (ok : bool).

Record txn := { working : tables; aborted : bool }.

Record world := {
  committed : tables;
  tx : option txn;
  files : list string;
  log : list event;
  tick : nat }.

(** What the handlers cannot decide: which statement or file removal
    fails on its own (lost connection, constraint, permissions), and the
    two built-ins [parseInt] and [Date.parse] (only whether the result is
    NaN matters for the latter). *)
Record env := {
  fault : nat -> sql -> bool;
  unlink_fault : nat -> string -> bool;
  parseInt : jsval -> option Z;
  date_is_nan : jsval -> bool }.

Inductive outcome (A : Type) :=
| Ok (a : A)
| Throw (e : error).
Arguments Ok {A} a.
Arguments Throw {A} e.

Definition M (A : Type) : Type := world -> outcome A * world.

Definition ret {A : Type} (a : A) : M A := fun w => (Ok a, w).

Definition throw {A : Type} (e : error) : M A := fun w => (Throw e, w).

Definition bind {A B : Type} (m : M A) (k : A -> M B) : M B :=
  fun w =>
    match m w with
    | (Ok a, w') => k a w'
    | (Throw e, w') => (Throw e, w')
    end.

(** [try { m } catch (error) { h error }] *)
Definition try_catch {A : Type} (m : M A) (h : error -> M A) : M A :=
  fun w =>
    match m w with
    | (Ok a, w') => (Ok a, w')
    | (Throw e, w') => h e w'
    end.

(** [try { m } finally { f }] *)
Definition finally {A : Type} (m : M A) (f : M unit) : M A :=
  fun w =>
    match m w with
    | (o, w') =>
        match f w' with
        | (Ok _, w'') => (o, w'')
        | (Throw e, w'') => (Throw e, w'')
        end
    end.

Definition in_tx (r : runner) (w : world) : bool :=
  match r, tx w with
  | Client, Some _ => true
  | _, _ => false
  end.

Definition abort (t : txn) : txn := {| working := working t; aborted := true |}.

(** The effect of a statement the server accepts: result, committed
    tables, transaction of the client. *)
Definition step (r : runner) (s : sql) (ps : list jsval) (w : world)
  : option (qresult * tables * option txn) :=
  if negb (Nat.eqb (List.length ps) (placeholders s)) then None else
  match r, tx w with
  | Client, Some t =>
      match s with
      | Begin => Some (selected [], committed w, Some t)
      | Commit =>
          Some (selected [], (if aborted t then committed w else working t), None)
      | Rollback => Some (selected [], committed w, None)
      | _ =>
          if aborted t then None
          else match exec s ps (working t) with
               | Some (res, db') =>
                   Some (res, committed w, Some {| working := db'; aborted := false |})
               | None => None
               end
      end
  | Client, None =>
      match s with
      | Begin =>
          Some (selected [], committed w,
                Some {| working := committed w; aborted := false |})
      | Commit | Rollback => Some (selected [], committed w, None)
      | _ => match exec s ps (committed w) with
             | Some (res, db') => Some (res, db', None)
             | None => None
             end
      end
  | Pool, _ =>
      match exec s ps (committed w) with
      | Some (res, db') => Some (res, db', tx w)
      | None => None
      end
  end.

(** Two names of the same file. *)
Definition same_path (p q : string) : bool := String.eqb p q.

Section WithEnv.

Variable E : env.

(** [await r.query(text, values)] *)
Definition query (r : runner) (s : sql) (ps : list jsval) : M qresult :=
  fun w =>
    match (if fault E (tick w) s then None else step r s ps w) with
    | Some (res, db', tx') =>
        (Ok res,
         {| committed := db'; tx := tx'; files := files w;
            log := log w ++ [EvQuery r (in_tx r w) s ps true];
            tick := S (tick w) |})
    | None =>
        (Throw DbError,
         {| committed := committed w;
            tx := match r with
                  | Client => option_map abort (tx w)
                  | Pool => tx w
                  end;
            files := files w;
            log := log w ++ [EvQuery r (in_tx r w) s ps false];
            tick := S (tick w) |})
    end.

(** [client.release()]: the connection goes back to the pool; a
    transaction still open on it is lost.  [pool.connect()] is taken to
    succeed: a request that gets no connection runs no statement. *)
Definition release : M unit :=
  fun w =>
    (Ok tt,
     {| committed := committed w; tx := None; files := files w;
        log := log w; tick := tick w |}).

Definition existsSync (p : string) : M bool :=
  fun w => (Ok (existsb (same_path p) (files w)), w).

Definition unlinkSync (p : string) : M unit :=
  fun w =>
    if unlink_fault E (tick w) p || negb (existsb (same_path p) (files w))
    then (Throw FsError,
          {| committed := committed w; tx := tx w; files := files w;
             log := log w ++ [EvUnlink p false]; tick := S (tick w) |})
    else (Ok tt,
          {| committed := committed w; tx := tx w;
             files := filter (fun q => negb (same_path p q)) (files w);
             log := log w ++ [EvUnlink p true]; tick := S (tick w) |}).

(** [try { if (fs.existsSync(p)) fs.unlinkSync(p) } catch (e) { log }] *)
Definition unlink_quietly (p : string) : M unit :=
  try_catch
    (bind (existsSync p) (fun there => if there then unlinkSync p else ret tt))
    (fun _ => ret tt).

End WithEnv.

End Effects.
Import Effects.

(** ** Paths

    Files are named by their path below the project root, which is where
    [path.join(__dirname, '../../', ..)] points. *)

Module Paths.

Definition is_slash (c : ascii) : bool := Ascii.eqb c "/"%char.

Fixpoint all_slashes (s : string) : bool :=
  match s with
  | EmptyString => true
  | String c s' => is_slash c && all_slashes s'
  end.


(** [path.basename]: the last segment, trailing separators ignored. *)
Fixpoint basename_from (seg s : string) : string :=
  match s with
  | EmptyString => seg
  | String c s' =>
      if is_slash c
      then if all_slashes s' then seg else basename_from EmptyString s'
      else basename_from (seg ++ String c EmptyString)%string s'
  end.

Definition basename (s : string) : string := basename_from EmptyString s.

Fixpoint strip_slashes (s : string) : string :=
  match s with
  | String c s' => if is_slash c then strip_slashes s' else s
  | EmptyString => s
  end.

(** [path.join(__dirname, '../../uploads', name)] *)
Definition in_uploads (name : string) : string := ("uploads/" ++ name)%string.

(** [path.join(__dirname, '../../', url)] *)
Definition under_root (url : string) : string := strip_slashes url.

End Paths.
Import Paths.

(** ** The handlers of user.controller.ts *)

Module Controller.

(** [req.file] as multer leaves it. *)
Record upload := { filename : string; originalname : string; size : Z }.

(** What a handler reads of the request: [req.user?.id], [req.body],
    the [:id] / [:skillId] URL parameter, [req.file]. *)
Record request := {
  user : option Z;
  body : row;
  url_param : jsval;
  file : option upload }.

Inductive reply :=
| Json (status : nat) (data : list row)
| Next (e : error).

(** [if (!userId)] *)
Definition authenticated (req : request) : option Z :=
  match user req with
  | Some n => if n =? 0 then None else Some n
  | None => None
  end.

Definition is_undefined (v : jsval) : bool :=
  match v with JUndefined => true | _ => false end.
Definition is_null (v : jsval) : bool :=
  match v with JNull => true | _ => false end.
Definition is_true (v : jsval) : bool :=
  match v with JBool true => true | _ => false end.
Definition is_false (v : jsval) : bool :=
  match v with JBool false => true | _ => false end.

(** [rows[0]] wrapped for the reply. *)
Definition first_row (rs : list row) : list row :=
  match rs with r :: _ => [r] | [] => [] end.

Notation "x <- m ;; k" := (bind m (fun x => k))
  (at level 61, m at next level, right associativity).
Notation "m ;;; k" := (bind m (fun _ => k))
  (at level 61, right associativity).

Section WithEnv.

Variable E : env.

(** Lines 1052-1159. *)
Definition updateProfileCompletion (userId : Z) (dbClient : option runner) : M unit :=
  let queryRunner := match dbClient with Some c => c | None => Pool end in
  try_catch
    (countResult <- query E queryRunner SelectCounts [JNum userId] ;;
     profileResult <- query E queryRunner SelectProfileForScore [JNum userId] ;;
     match rows profileResult with
     | [] => ret tt
     | profile :: _ =>
         match rows countResult with
         | [] => throw TypeError
         | counts :: _ =>
             let finalPercentage := Scorer.finalPercentage profile counts in
             query E queryRunner UpdateCompletion [JNum finalPercentage; JNum userId] ;;;
             ret tt
         end
     end)
    (fun error =>
       match dbClient with
       | None => throw error
       | Some _ => ret tt
       end).

(** Lines 151-190 of [updateProfile]: what follows the profile UPDATE
    inside the transaction.  The old image file is removed first, then
    the score is recomputed on the client, then comes COMMIT. *)
Definition afterProfileUpdate (userId : Z) (newProfileImageUrl oldProfileImageUrl : jsval)
  : M reply :=
  (if truthy newProfileImageUrl && truthy oldProfileImageUrl
      && negb (strict_eq newProfileImageUrl oldProfileImageUrl)
   then match oldProfileImageUrl with
        | JStr old => unlink_quietly E (in_uploads (basename old))
        | _ => throw TypeError
        end
   else ret tt) ;;;
  updateProfileCompletion userId (Some Client) ;;;
  query E Client Commit [] ;;;
  updatedProfile <- query E Pool SelectUserWithProfile [JNum userId] ;;
  ret (Json 200 (first_row (rows updatedProfile))).

(** Lines 196-211 of [updateProfile]: the catch block of the
    transaction, for the value [newProfileImageUrl] has when the error
    reaches it. *)
Definition undoProfileUpdate {A : Type} (newProfileImageUrl : jsval) (error : error)
  : M A :=
  query E Client Rollback [] ;;;
  (if truthy newProfileImageUrl
   then match newProfileImageUrl with
        | JStr new => unlink_quietly E (in_uploads (basename new))
        | _ => throw TypeError
        end
   else ret tt) ;;;
  throw error.

(** Lines 55-219.  [newProfileImageUrl] is null until the SELECT of the
    current image has been answered and the URL of the new file from
    then on; the one catch block of the source is therefore written
    around the two stretches, each with the value the variable has
    there. *)
Definition updateProfile (req : request) : M reply :=
  try_catch
    (match authenticated req with
     | None => ret (Json 401 [])
     | Some userId =>
         let b := body req in
         finally
           (urls <-
              try_catch
                (query E Client Begin [] ;;;
                 match file req with
                 | Some f =>
                     currentProfileResult <-
                       query E Client SelectProfileImage [JNum userId] ;;
                     ret (JStr ("/uploads/" ++ filename f),
                          match rows currentProfileResult with
                          | r :: _ => get r "profile_image_url"
                          | [] => JNull
                          end)
                 | None => ret (JNull, JNull)
                 end)
                (undoProfileUpdate JNull) ;;
            let newProfileImageUrl := fst urls in
            let oldProfileImageUrl := snd urls in
            try_catch
              ((if truthy (get b "first_name") || truthy (get b "last_name")
                then query E Client UpdateUserNames
                       [get b "first_name"; get b "last_name"; JNum userId] ;;;
                     ret tt
                else ret tt) ;;;
               let finalImageUrl := coalesce newProfileImageUrl oldProfileImageUrl in
               query E Client UpdateProfileFields
                 [ get b "job_title"; get b "location";
                   get b "profile_summary"; get b "professional_summary";
                   get b "years_of_experience"; get b "experience_level";
                   get b "primary_industry"; get b "website_url";
                   get b "linkedin_url"; get b "github_url";
                   finalImageUrl ] ;;;
               afterProfileUpdate userId newProfileImageUrl oldProfileImageUrl)
              (undoProfileUpdate newProfileImageUrl))
           release
     end)
    (fun error => ret (Next error)).

(** Lines 249-333. *)
Definition uploadResume (req : request) : M reply :=
  try_catch
    (match authenticated req with
     | None => ret (Json 401 [])
     | Some userId =>
         match file req with
         | None => ret (Json 400 [])
         | Some f =>
             finally
               (try_catch
                  (query E Client Begin [] ;;;
                   let storageUrl := ("/uploads/" ++ filename f)%string in
                   result <-
                     query E Client InsertDocument
                       [ JNum userId; JStr "resume"; JStr (originalname f);
                         JStr storageUrl;
                         JNum (math_round (inject_Z (size f) / 1024));
                         JBool true ] ;;
                   match rows result with
                   | [] => throw TypeError
                   | newResume :: _ =>
                       query E Client ClearOtherDefaults
                         [JNum userId; get newResume "id"] ;;;
                       query E Client Commit [] ;;;
                       updateProfileCompletion userId None ;;;
                       ret (Json 201 [newResume])
                   end)
                  (fun error =>
                     query E Client Rollback [] ;;;
                     unlink_quietly E (in_uploads (filename f)) ;;;
                     throw error))
               release
         end
     end)
    (fun error => ret (Next error)).

(** Lines 336-404. *)
Definition deleteResume (req : request) : M reply :=
  try_catch
    (match authenticated req with
     | None => ret (Json 401 [])
     | Some userId =>
         match parseInt E (url_param req) with
         | None => ret (Json 400 [])
         | Some resumeId =>
             fileResult <- query E Pool SelectResume [JNum resumeId; JNum userId] ;;
             match rows fileResult with
             | [] => ret (Json 404 [])
             | fileRecord :: _ =>
                 deleteResult <-
                   query E Pool DeleteDocument [JNum resumeId; JNum userId] ;;
                 if Nat.eqb (rowCount deleteResult) 0
                 then ret (Json 404 [])
                 else
                   match get fileRecord "storage_url" with
                   | JStr url => unlink_quietly E (under_root url)
                   | _ => throw TypeError
                   end ;;;
                   updateProfileCompletion userId None ;;;
                   ret (Json 200 [])
             end
         end
     end)
    (fun error => ret (Next error)).

(** Lines 436-508. *)
Definition addSkill (req : request) : M reply :=
  try_catch
    (match authenticated req with
     | None => ret (Json 401 [])
     | Some userId =>
         let skillId := get (body req) "skillId" in
         let proficiencyLevel := get (body req) "proficiencyLevel" in
         if negb (truthy skillId) then ret (Json 400 [])
         else
           match parseInt E skillId with
           | None => ret (Json 400 [])
           | Some parsedSkillId =>
               skillResult <- query E Pool SelectSkill [JNum parsedSkillId] ;;
               match rows skillResult with
               | [] => ret (Json 404 [])
               | _ :: _ =>
                   existingSkill <-
                     query E Pool SelectUserSkill [JNum userId; JNum parsedSkillId] ;;
                   match rows existingSkill with
                   | _ :: _ => ret (Json 400 [])
                   | [] =>
                       result <-
                         query E Pool InsertUserSkill
                           [ JNum userId; JNum parsedSkillId;
                             coalesce proficiencyLevel JNull ] ;;
                       match rows result with
                       | [] => throw TypeError
                       | inserted :: _ =>
                           addedSkill <-
                             query E Pool SelectUserSkillJoined [get inserted "id"] ;;
                           updateProfileCompletion userId None ;;;
                           ret (Json 201 (first_row (rows addedSkill)))
                       end
                   end
               end
           end
     end)
    (fun error => ret (Next error)).

(** Lines 511-558. *)
Definition removeSkill (req : request) : M reply :=
  try_catch
    (match authenticated req with
     | None => ret (Json 401 [])
     | Some userId =>
         match parseInt E (url_param req) with
         | None => ret (Json 400 [])
         | Some skillId =>
             result <- query E Pool SelectUserSkill [JNum userId; JNum skillId] ;;
             match rows result with
             | [] => ret (Json 404 [])
             | _ :: _ =>
                 deleteResult <-
                   query E Pool DeleteUserSkill [JNum userId; JNum skillId] ;;
                 if Nat.eqb (rowCount deleteResult) 0
                 then ret (Json 404 [])
                 else
                   updateProfileCompletion userId None ;;;
                   ret (Json 200 [])
             end
         end
     end)
    (fun error => ret (Next error)).

(** The names of the two required text fields of an entry, after
    which [start_date] is required too. *)
Definition required_fields (t : entry_table) : string * string :=
  match t with
  | Experiences => ("company_name", "job_title")
  | Educations => ("institution_name", "degree")
  end.

(** The values of the INSERT after [user_id]: as sent, except that
    optional fields are [?? null] and the two computed ones are
    substituted. *)
Definition insert_values (t : entry_table) (b : row)
           (finalEndDate finalIsCurrent : jsval) : list jsval :=
  let opt k := coalesce (get b k) JNull in
  match t with
  | Experiences =>
      [ get b "company_name"; get b "job_title"; opt "location";
        get b "start_date"; finalEndDate; finalIsCurrent;
        opt "description"; opt "responsibilities"; opt "achievements" ]
  | Educations =>
      [ get b "institution_name"; get b "degree"; opt "field_of_study";
        opt "location"; get b "start_date"; finalEndDate; finalIsCurrent;
        opt "description"; opt "achievements" ]
  end.

(** Lines 587-655 ([addExperience]) and 835-900 ([addEducation]). *)
Definition addEntry (t : entry_table) (req : request) : M reply :=
  try_catch
    (match authenticated req with
     | None => ret (Json 401 [])
     | Some userId =>
         let b := body req in
         let start_date := get b "start_date" in
         let end_date := get b "end_date" in
         let is_current := get b "is_current" in
         if negb (truthy (get b (fst (required_fields t))))
            || negb (truthy (get b (snd (required_fields t))))
            || negb (truthy start_date)
         then ret (Json 400 [])
         else if is_false is_current && negb (truthy end_date)
         then ret (Json 400 [])
         else if date_is_nan E start_date
         then ret (Json 400 [])
         else if truthy end_date && date_is_nan E end_date
         then ret (Json 400 [])
         else
           let finalIsCurrent := coalesce is_current (JBool false) in
           let finalEndDate := if truthy finalIsCurrent then JNull else end_date in
           result <-
             query E Pool (InsertEntry t)
               (JNum userId :: insert_values t b finalEndDate finalIsCurrent) ;;
           updateProfileCompletion userId None ;;;
           ret (Json 201 (first_row (rows result)))
     end)
    (fun error => ret (Next error)).

(** The values [$1 .. $9] of the UPDATE. *)
Definition update_values (t : entry_table) (b : row)
           (finalEndDate finalIsCurrent : jsval) : list jsval :=
  match t with
  | Experiences =>
      [ get b "company_name"; get b "job_title"; get b "location";
        get b "start_date"; finalEndDate; finalIsCurrent;
        get b "description"; get b "responsibilities"; get b "achievements" ]
  | Educations =>
      [ get b "institution_name"; get b "degree"; get b "field_of_study";
        get b "location"; get b "start_date"; finalEndDate; finalIsCurrent;
        get b "description"; get b "achievements" ]
  end.

(** Lines 658-757 ([updateExperience]) and 903-999 ([updateEducation]). *)
Definition updateEntry (t : entry_table) (req : request) : M reply :=
  try_catch
    (match authenticated req with
     | None => ret (Json 401 [])
     | Some userId =>
         match parseInt E (url_param req) with
         | None => ret (Json 400 [])
         | Some entryId =>
             let b := body req in
             let start_date := get b "start_date" in
             let end_date := get b "end_date" in
             let is_current := get b "is_current" in
             checkResult <- query E Pool (SelectEntry t) [JNum entryId; JNum userId] ;;
             match rows checkResult with
             | [] => ret (Json 404 [])
             | current :: _ =>
                 let finalIsCurrent :=
                   if negb (is_undefined is_current) then is_current
                   else get current "is_current" in
                 let currentEndDate := get current "end_date" in
                 let decided : option jsval :=
                   if is_true finalIsCurrent then Some JNull
                   else if negb (is_undefined end_date)
                   then if date_is_nan E end_date then None else Some end_date
                   else if is_false finalIsCurrent && is_null currentEndDate
                   then None
                   else Some currentEndDate in
                 match decided with
                 | None => ret (Json 400 [])
                 | Some finalEndDate =>
                     if truthy start_date && date_is_nan E start_date
                     then ret (Json 400 [])
                     else
                       result <-
                         query E Pool (UpdateEntry t)
                           (update_values t b finalEndDate finalIsCurrent
                              ++ [JNum entryId; JNum userId]) ;;
                       updateProfileCompletion userId None ;;;
                       ret (Json 200 (first_row (rows result)))
                 end
             end
         end
     end)
    (fun error => ret (Next error)).

(** Lines 760-806 ([deleteExperience]) and 1002-1048 ([deleteEducation]). *)
Definition deleteEntry (t : entry_table) (req : request) : M reply :=
  try_catch
    (match authenticated req with
     | None => ret (Json 401 [])
     | Some userId =>
         match parseInt E (url_param req) with
         | None => ret (Json 400 [])
         | Some entryId =>
             checkResult <- query E Pool (SelectEntryId t) [JNum entryId; JNum userId] ;;
             match rows checkResult with
             | [] => ret (Json 404 [])
             | _ :: _ =>
                 deleteResult <-
                   query E Pool (DeleteEntry t) [JNum entryId; JNum userId] ;;
                 if Nat.eqb (rowCount deleteResult) 0
                 then ret (Json 404 [])
                 else
                   updateProfileCompletion userId None ;;;
                   ret (Json 200 [])
             end
         end
     end)
    (fun error => ret (Next error)).

Definition addExperience : request -> M reply := addEntry Experiences.
Definition updateExperience : request -> M reply := updateEntry Experiences.
Definition deleteExperience : request -> M reply := deleteEntry Experiences.
Definition addEducation : request -> M reply := addEntry Educations.
Definition updateEducation : request -> M reply := updateEntry Educations.
Definition deleteEducation : request -> M reply := deleteEntry Educations.

(** The mutating routes of user.routes.ts. *)
Inductive route :=
| PutProfile
| PostResume | DeleteResume
| PostSkill | DeleteSkill
| PostExperience | PutExperience | DeleteExperience
| PostEducation | PutEducation | DeleteEducation.

Definition handle (r : route) (req : request) : M reply :=
  match r with
  | PutProfile => updateProfile req
  | PostResume => uploadResume req
  | DeleteResume => deleteResume req
  | PostSkill => addSkill req
  | DeleteSkill => removeSkill req
  | PostExperience => addExperience req
  | PutExperience => updateExperience req
  | DeleteExperience => deleteExperience req
  | PostEducation => addEducation req
  | PutEducation => updateEducation req
  | DeleteEducation => deleteEducation req
  end.

(** Requests served one after the other, each ended before the next
    begins.  Requests whose steps alternate are in [Overlap] below. *)
Fixpoint serve (rs : list (route * request)) (w : world) : world :=
  match rs with
  | [] => w
  | (r, req) :: rest => serve rest (snd (handle r req w))
  end.

End WithEnv.

End Controller.
Import Controller.

(** ** Vocabulary of the properties *)

Module Vocabulary.

Import Scorer.

(** The ten text columns the scorer reads; [years_of_experience] is the
    numeric one. *)
Definition text_fields : list string :=
  [ "job_title"; "location"; "experience_level"; "primary_industry";
    "profile_summary"; "professional_summary";
    "website_url"; "linkedin_url"; "github_url"; "profile_image_url" ].

Definition populated_text (v : jsval) : Prop :=
  exists s, v = JStr s /\ s <> EmptyString.

Definition populated_number (v : jsval) : Prop := exists n, v = JNum n.

(** Every field the scorer reads holds a value. *)
Definition all_fields_populated (p : row) : Prop :=
  (forall k, In k text_fields -> populated_text (get p k))
  /\ populated_number (get p "years_of_experience").

(** No field the scorer reads holds a value. *)
Definition all_fields_empty (p : row) : Prop :=
  forall k, In k ("years_of_experience" :: text_fields) ->
            non_empty (get p k) = false.

(** The events a request added to the log. *)
Definition since (w w' : world) : list event :=
  skipn (List.length (log w)) (log w').

(** The resume rows of [uid] flagged as default. *)
Definition is_default_of (uid : Z) (d : document_row) : bool :=
  owned_by uid d && is_resume d && is_default_resume d.

Definition default_resumes (uid : Z) (db : tables) : nat :=
  count_of (is_default_of uid) (user_documents db).

(** Document ids come from the sequence: every stored id is below the
    next value. *)
Definition ids_fresh (db : tables) : Prop :=
  Forall (fun d => d_id d < seq_documents db) (user_documents db).

(** The invariant on the stored documents and their sequence. *)
Definition tidy (u : Z) (db : tables) : Prop :=
  ids_fresh db /\ (default_resumes u db <= 1)%nat.

(** The stored score of [uid] is the scorer's output on the stored
    profile and the stored counts. *)
Definition score_current (uid : Z) (db : tables) : Prop :=
  match filter (fun p => up_user_id p =? uid) (user_profiles db) with
  | [] => True
  | p0 :: _ =>
      forall p, In p (user_profiles db) -> up_user_id p = uid ->
                profile_completion p
                = JNum (finalPercentage (score_columns p0) (counts_of uid db))
  end.

(** The tables after a recomputation that meets no failure: every
    profile row of [uid] gets the score of the first one. *)
Definition rescored (uid : Z) (db : tables) : tables :=
  match filter (fun p => up_user_id p =? uid) (user_profiles db) with
  | [] => db
  | p0 :: _ =>
      with_profiles db
        (on_rows (fun p => up_user_id p =? uid)
                 (set_completion
                    (JNum (finalPercentage (score_columns p0) (counts_of uid db))))
                 (user_profiles db))
  end.

(** The statements of such a recomputation outside a transaction. *)
Definition score_events (uid : Z) (db : tables) : list event :=
  [ EvQuery Pool false SelectCounts [JNum uid] true;
    EvQuery Pool false SelectProfileForScore [JNum uid] true ]
  ++ match filter (fun p => up_user_id p =? uid) (user_profiles db) with
     | [] => []
     | p0 :: _ =>
         [ EvQuery Pool false UpdateCompletion
             [ JNum (finalPercentage (score_columns p0) (counts_of uid db));
               JNum uid ] true ]
     end.

(** The statements of the transaction of [uploadResume], in order. *)
Definition upload_events (uid : Z) (f : upload) (id : Z) : list event :=
  [ EvQuery Client false Begin [] true;
    EvQuery Client true InsertDocument
      [ JNum uid; JStr "resume"; JStr (originalname f);
        JStr ("/uploads/" ++ filename f);
        JNum (math_round (inject_Z (size f) / 1024)); JBool true ] true;
    EvQuery Client true ClearOtherDefaults [JNum uid; JNum id] true;
    EvQuery Client true Commit [] true ].

(** The two routes that change the resumes of a user. *)
Definition resume_route (r : route) : Prop := r = PostResume \/ r = DeleteResume.

(** The counting query ran on the client connection while its
    transaction was open. *)
Definition counts_read_in_transaction (evs : list event) : Prop :=
  forall r it ps ok, In (EvQuery r it SelectCounts ps ok) evs ->
                     r = Client /\ it = true.

(** The counting query ran on the pool, outside any transaction. *)
Definition counts_read_on_pool (evs : list event) : Prop :=
  forall r it ps ok, In (EvQuery r it SelectCounts ps ok) evs ->
                     r = Pool /\ it = false.

(** A COMMIT was accepted on an open transaction. *)
Definition committed_in (evs : list event) : Prop :=
  In (EvQuery Client true Commit [] true) evs.

(** The row [uploadResume] inserts when the sequence is at [id]. *)
Definition new_resume (uid : Z) (f : upload) (id : Z) : document_row :=
  {| d_id := id; d_user_id := uid; document_type := "resume";
     file_name := originalname f;
     storage_url := ("/uploads/" ++ filename f)%string;
     file_size_kb := math_round (inject_Z (size f) / 1024);
     is_default_resume := true |}.

(** The rows the second statement of [uploadResume] clears. *)
Definition other_resumes (uid id : Z) (d : document_row) : bool :=
  owned_by uid d && negb (d_id d =? id) && is_resume d.

(** Where [updateProfile] looks for the image it has just received. *)
Definition new_image_path (req : request) : option string :=
  match file req with
  | Some f => Some (in_uploads (basename ("/uploads/" ++ filename f)))
  | None => None
  end.

(** The SELECT of the stored image URL was answered: from then on
    [updateProfile] holds the URL of the new image. *)
Definition image_selected (evs : list event) : Prop :=
  exists ps, In (EvQuery Client true SelectProfileImage ps true) evs.


(** ROLLBACK and file removal do not fail on their own. *)
Definition cleanup_reliable (E : env) : Prop :=
  (forall n, fault E n Rollback = false)
  /\ (forall n p, unlink_fault E n p = false).

(** No statement is made to fail on its way (a lost connection, a
    timeout); a file removal may fail, and the server may still refuse a
    statement for what it says. *)
Definition no_statement_fault (E : env) : Prop :=
  forall n s, fault E n s = false.

(** No statement and no file removal fails on its own. *)
Definition quiet (E : env) : Prop :=
  (forall n s, fault E n s = false) /\ (forall n p, unlink_fault E n p = false).

End Vocabulary.
Import Vocabulary.

(** ** Sample data *)

Module Sample.

Definition calm : env :=
  {| fault := fun _ _ => false;
     unlink_fault := fun _ _ => false;
     parseInt := fun v => match v with JNum n => Some n | _ => None end;
     date_is_nan := fun _ => false |}.

(** The [n]-th statement of the run fails. *)
Definition failing_at (n : nat) : env :=
  {| fault := fun k _ => Nat.eqb k n;
     unlink_fault := fun _ _ => false;
     parseInt := fun v => match v with JNum n => Some n | _ => None end;
     date_is_nan := fun _ => false |}.

(** The connection is lost before the [n]-th statement: it and every
    later statement fail. *)
Definition failing_from (n : nat) : env :=
  {| fault := fun k _ => Nat.leb n k;
     unlink_fault := fun _ _ => false;
     parseInt := fun v => match v with JNum n => Some n | _ => None end;
     date_is_nan := fun _ => false |}.



Definition ada : user_row :=
  {| u_id := 7; u_first_name := JStr "Ada"; u_last_name := JStr "L";
     u_email := JStr "ada@example.org"; u_user_type := JStr "job_seeker" |}.

Definition ada_profile : profile_row :=
  {| up_user_id := 7; job_title := JNull; location := JNull;
     profile_summary := JNull; professional_summary := JNull;
     years_of_experience := JNull; experience_level := JNull;
     primary_industry := JNull; website_url := JNull;
     linkedin_url := JNull; github_url := JNull;
     profile_image_url := JStr "/uploads/old.png";
     profile_completion := JNum 5 |}.

Definition db0 : tables :=
  {| users := [ada]; user_profiles := [ada_profile]; user_documents := [];
     user_skills := []; skills := []; user_experiences := [];
     user_educations := []; seq_documents := 1; seq_user_skills := 1;
     seq_experiences := 1; seq_educations := 1 |}.

Definition w0 : world :=
  {| committed := db0; tx := None;
     files := ["uploads/old.png"; "uploads/r1.pdf"; "uploads/r2.pdf";
               "uploads/new.png"];
     log := []; tick := 0 |}.

Definition r1 : upload :=
  {| filename := "r1.pdf"; originalname := "cv.pdf"; size := 2048 |}.
Definition r2 : upload :=
  {| filename := "r2.pdf"; originalname := "cv2.pdf"; size := 1535 |}.

Definition with_file (f : upload) : request :=
  {| user := Some 7; body := []; url_param := JUndefined; file := Some f |}.

Definition with_body (b : row) : request :=
  {| user := Some 7; body := b; url_param := JUndefined; file := None |}.

Definition with_param (v : jsval) : request :=
  {| user := Some 7; body := []; url_param := v; file := None |}.

(** Two uploads, then the removal of the first resume. *)
Definition session : list (route * request) :=
  [ (PostResume, with_file r1); (PostResume, with_file r2);
    (DeleteResume, with_param (JNum 1)) ].

(** A profile whose only stored field is a zero years-of-experience. *)
Definition graduate : row := [ ("years_of_experience", JNum 0) ].

(** A profile with every field filled in, by someone with no year of
    experience yet. *)
Definition complete_graduate : row :=
  [ ("job_title", JStr "Engineer"); ("location", JStr "Nairobi");
    ("profile_summary", JStr "s"); ("professional_summary", JStr "p");
    ("years_of_experience", JNum 0); ("experience_level", JStr "Entry");
    ("primary_industry", JStr "Software"); ("website_url", JStr "w");
    ("linkedin_url", JStr "l"); ("github_url", JStr "g");
    ("profile_image_url", JStr "/uploads/me.png") ].

Definition complete_senior : row :=
  [ ("job_title", JStr "Engineer"); ("location", JStr "Nairobi");
    ("profile_summary", JStr "s"); ("professional_summary", JStr "p");
    ("years_of_experience", JNum 9); ("experience_level", JStr "Senior");
    ("primary_industry", JStr "Software"); ("website_url", JStr "w");
    ("linkedin_url", JStr "l"); ("github_url", JStr "g");
    ("profile_image_url", JStr "/uploads/me.png") ].

(** The bind array of the profile UPDATE with its twelfth value. *)
Definition twelve_values : list jsval :=
  [ JStr "Developer"; JUndefined; JUndefined; JUndefined; JUndefined;
    JUndefined; JUndefined; JUndefined; JUndefined; JUndefined;
    JStr "/uploads/old.png"; JNum 7 ].

(** A transaction that changes profile fields, recomputes the score on
    its client and commits. *)
Definition transaction_with_recomputation (E : env) : M qresult :=
  bind (query E Client Begin []) (fun _ =>
  bind (query E Client UpdateProfileFields twelve_values) (fun _ =>
  bind (updateProfileCompletion E 7 (Some Client)) (fun _ =>
  query E Client Commit []))).




(** A client in the middle of a transaction. *)
Definition w_open : world :=
  {| committed := db0;
     tx := Some {| working := db0; aborted := false |};
     files := files w0; log := []; tick := 0 |}.

End Sample.

(** ** Requests that overlap

    The server does not serve one request at a time: at every [await]
    another request can take its turn, on a client connection of its
    own.  A handler is written here as the steps it takes, so that the
    steps of two requests can alternate; [run] plays the steps of one
    request without interruption and gives back the handler of
    [Controller].

    Transactions are read committed, the default of the server: a
    statement sees the rows committed when it starts and the rows its
    own transaction has written; COMMIT applies the rows a transaction
    has written to the committed tables; sequences are advanced at
    once, whether the transaction commits or not.  A statement that
    would write a row another open transaction has written waits for
    that transaction: here it cannot be scheduled before the other has
    ended. *)

Module Overlap.

Inductive steps (A : Type) : Type :=
| Done (o : outcome A)
| Query (r : runner) (s : sql) (ps : list jsval) (k : outcome qresult -> steps A)
| Release (k : steps A)
| ExistsSync (p : string) (k : bool -> steps A)
| UnlinkSync (p : string) (k : outcome unit -> steps A).
Arguments Done {A} o.
Arguments Query {A} r s ps k.
Arguments Release {A} k.
Arguments ExistsSync {A} p k.
Arguments UnlinkSync {A} p k.

Definition ret {A : Type} (a : A) : steps A := Done (Ok a).

Definition throw {A : Type} (e : error) : steps A := Done (Throw e).

Fixpoint bind {A B : Type} (m : steps A) (f : A -> steps B) : steps B :=
  match m with
  | Done (Ok a) => f a
  | Done (Throw e) => Done (Throw e)
  | Query r s ps k => Query r s ps (fun o => bind (k o) f)
  | Release k => Release (bind k f)
  | ExistsSync p k => ExistsSync p (fun b => bind (k b) f)
  | UnlinkSync p k => UnlinkSync p (fun o => bind (k o) f)
  end.

(** [try { m } catch (error) { h error }] *)
Fixpoint try_catch {A : Type} (m : steps A) (h : error -> steps A) : steps A :=
  match m with
  | Done (Ok a) => Done (Ok a)
  | Done (Throw e) => h e
  | Query r s ps k => Query r s ps (fun o => try_catch (k o) h)
  | Release k => Release (try_catch k h)
  | ExistsSync p k => ExistsSync p (fun b => try_catch (k b) h)
  | UnlinkSync p k => UnlinkSync p (fun o => try_catch (k o) h)
  end.

(** [try { m } finally { f }] *)
Fixpoint finally {A : Type} (m : steps A) (f : steps unit) : steps A :=
  match m with
  | Done o => bind f (fun _ => Done o)
  | Query r s ps k => Query r s ps (fun o => finally (k o) f)
  | Release k => Release (finally k f)
  | ExistsSync p k => ExistsSync p (fun b => finally (k b) f)
  | UnlinkSync p k => UnlinkSync p (fun o => finally (k o) f)
  end.

Definition query (r : runner) (s : sql) (ps : list jsval) : steps qresult :=
  Query r s ps (fun o => Done o).

Definition release : steps unit := Release (Done (Ok tt)).

Definition existsSync (p : string) : steps bool := ExistsSync p (fun b => Done (Ok b)).

Definition unlinkSync (p : string) : steps unit := UnlinkSync p (fun o => Done o).

(** [try { if (fs.existsSync(p)) fs.unlinkSync(p) } catch (e) { log }] *)
Definition unlink_quietly (p : string) : steps unit :=
  try_catch
    (bind (existsSync p) (fun there => if there then unlinkSync p else ret tt))
    (fun _ => ret tt).

Notation "x <~ m ;; k" := (bind m (fun x => k))
  (at level 61, m at next level, right associativity).
Notation "m ;;~ k" := (bind m (fun _ => k))
  (at level 61, right associativity).

(** Lines 1052-1159, step by step. *)
Definition updateProfileCompletion (userId : Z) (dbClient : option runner) : steps unit :=
  let queryRunner := match dbClient with Some c => c | None => Pool end in
  try_catch
    (countResult <~ query queryRunner SelectCounts [JNum userId] ;;
     profileResult <~ query queryRunner SelectProfileForScore [JNum userId] ;;
     match rows profileResult with
     | [] => ret tt
     | profile :: _ =>
         match rows countResult with
         | [] => throw TypeError
         | counts :: _ =>
             let finalPercentage := Scorer.finalPercentage profile counts in
             query queryRunner UpdateCompletion [JNum finalPercentage; JNum userId] ;;~
             ret tt
         end
     end)
    (fun error =>
       match dbClient with
       | None => throw error
       | Some _ => ret tt
       end).

(** Lines 249-333, step by step. *)
Definition uploadResume (req : request) : steps reply :=
  try_catch
    (match authenticated req with
     | None => ret (Json 401 [])
     | Some userId =>
         match file req with
         | None => ret (Json 400 [])
         | Some f =>
             finally
               (try_catch
                  (query Client Begin [] ;;~
                   let storageUrl := ("/uploads/" ++ filename f)%string in
                   result <~
                     query Client InsertDocument
                       [ JNum userId; JStr "resume"; JStr (originalname f);
                         JStr storageUrl;
                         JNum (math_round (inject_Z (size f) / 1024));
                         JBool true ] ;;
                   match rows result with
                   | [] => throw TypeError
                   | newResume :: _ =>
                       query Client ClearOtherDefaults
                         [JNum userId; get newResume "id"] ;;~
                       query Client Commit [] ;;~
                       updateProfileCompletion userId None ;;~
                       ret (Json 201 [newResume])
                   end)
                  (fun error =>
                     query Client Rollback [] ;;~
                     unlink_quietly (in_uploads (filename f)) ;;~
                     throw error))
               release
         end
     end)
    (fun error => ret (Next error)).

(** Lines 336-404, step by step. *)
Definition deleteResume (E : env) (req : request) : steps reply :=
  try_catch
    (match authenticated req with
     | None => ret (Json 401 [])
     | Some userId =>
         match parseInt E (url_param req) with
         | None => ret (Json 400 [])
         | Some resumeId =>
             fileResult <~ query Pool SelectResume [JNum resumeId; JNum userId] ;;
             match rows fileResult with
             | [] => ret (Json 404 [])
             | fileRecord :: _ =>
                 deleteResult <~
                   query Pool DeleteDocument [JNum resumeId; JNum userId] ;;
                 if Nat.eqb (rowCount deleteResult) 0
                 then ret (Json 404 [])
                 else
                   match get fileRecord "storage_url" with
                   | JStr url => unlink_quietly (under_root url)
                   | _ => throw TypeError
                   end ;;~
                   updateProfileCompletion userId None ;;~
                   ret (Json 200 [])
             end
         end
     end)
    (fun error => ret (Next error)).

(** The steps of one request, played without interruption. *)
Fixpoint run (E : env) {A : Type} (m : steps A) (w : world) : outcome A * world :=
  match m with
  | Done o => (o, w)
  | Query r s ps k =>
      match Effects.query E r s ps w with
      | (o, w1) => run E (k o) w1
      end
  | Release k =>
      match Effects.release w with
      | (_, w1) => run E k w1
      end
  | ExistsSync p k => run E (k (existsb (same_path p) (files w))) w
  | UnlinkSync p k =>
      match Effects.unlinkSync E p w with
      | (o, w1) => run E (k o) w1
      end
  end.

(** The steps [m], played without interruption, are the computation
    [c]. *)
Definition plays (E : env) {A : Type} (m : steps A) (c : M A) : Prop :=
  forall w, run E m w = c w.

(** *** Rows written and not yet committed *)

(** Equality of row objects. *)
Fixpoint same_object (a b : row) : bool :=
  match a, b with
  | [], [] => true
  | (k, v) :: a', (k', v') :: b' =>
      (k =? k')%string && strict_eq v v' && same_object a' b'
  | _, _ => false
  end.

Section Rows.

Context {A : Type}.
(** The key of a row, and the row as an object with all its columns. *)
Variable key : A -> Z.
Variable object : A -> row.

Definition same_row (a b : A) : bool :=
  (key a =? key b) && same_object (object a) (object b).

(** The rows of [after] that are not rows of [before], and the keys of
    [before] that [after] has no more. *)
Definition written (before after : list A) : list A :=
  filter (fun a => negb (existsb (same_row a) before)) after.

Definition removed (before after : list A) : list Z :=
  filter (fun k => negb (existsb (fun a => key a =? k) after)) (map key before).

(** A table with such rows written to it. *)
Definition put (news : list A) (gone : list Z) (l : list A) : list A :=
  let kept := filter (fun a => negb (existsb (Z.eqb (key a)) gone)) l in
  map (fun a => match find (fun b => key b =? key a) news with
                | Some b => b
                | None => a
                end) kept
  ++ filter (fun b => negb (existsb (fun a => key a =? key b) kept)) news.

End Rows.

Definition user_object (u : user_row) : row :=
  [ ("id", JNum (u_id u)); ("first_name", u_first_name u);
    ("last_name", u_last_name u); ("email", u_email u);
    ("user_type", u_user_type u) ].

Definition profile_object (p : profile_row) : row :=
  ("user_id", JNum (up_user_id p)) :: score_columns p
  ++ [ ("profile_completion", profile_completion p) ].

Definition user_skill_object (s : user_skill_row) : row :=
  [ ("id", JNum (us_id s)); ("user_id", JNum (us_user_id s));
    ("skill_id", JNum (us_skill_id s));
    ("proficiency_level", proficiency_level s) ].

Definition skill_object (s : skill_row) : row :=
  [ ("id", JNum (s_id s)); ("name", s_name s); ("category", s_category s) ].

(** What a transaction has written: per table, the new versions of rows
    and the keys of deleted rows. *)
Record changes := {
  c_users : list user_row * list Z;
  c_profiles : list profile_row * list Z;
  c_documents : list document_row * list Z;
  c_user_skills : list user_skill_row * list Z;
  c_skills : list skill_row * list Z;
  c_experiences : list entry_row * list Z;
  c_educations : list entry_row * list Z }.

Definition no_changes : changes :=
  {| c_users := ([], []); c_profiles := ([], []); c_documents := ([], []);
     c_user_skills := ([], []); c_skills := ([], []);
     c_experiences := ([], []); c_educations := ([], []) |}.

Definition between {A : Type} (key : A -> Z) (object : A -> row)
           (before after : list A) : list A * list Z :=
  (written key object before after, removed key before after).

(** The rows in which [after] differs from [before]. *)
Definition diff (before after : tables) : changes :=
  {| c_users := between u_id user_object (users before) (users after);
     c_profiles :=
       between up_user_id profile_object (user_profiles before) (user_profiles after);
     c_documents :=
       between d_id document_object (user_documents before) (user_documents after);
     c_user_skills :=
       between us_id user_skill_object (user_skills before) (user_skills after);
     c_skills := between s_id skill_object (skills before) (skills after);
     c_experiences :=
       between e_id entry_object (user_experiences before) (user_experiences after);
     c_educations :=
       between e_id entry_object (user_educations before) (user_educations after) |}.

(** The tables with the changes applied; the sequences are those of
    [db]. *)
Definition patch (c : changes) (db : tables) : tables :=
  {| users := put u_id (fst (c_users c)) (snd (c_users c)) (users db);
     user_profiles :=
       put up_user_id (fst (c_profiles c)) (snd (c_profiles c)) (user_profiles db);
     user_documents :=
       put d_id (fst (c_documents c)) (snd (c_documents c)) (user_documents db);
     user_skills :=
       put us_id (fst (c_user_skills c)) (snd (c_user_skills c)) (user_skills db);
     skills := put s_id (fst (c_skills c)) (snd (c_skills c)) (skills db);
     user_experiences :=
       put e_id (fst (c_experiences c)) (snd (c_experiences c)) (user_experiences db);
     user_educations :=
       put e_id (fst (c_educations c)) (snd (c_educations c)) (user_educations db);
     seq_documents := seq_documents db;
     seq_user_skills := seq_user_skills db;
     seq_experiences := seq_experiences db;
     seq_educations := seq_educations db |}.

(** [db] with the sequences where [view] has them. *)
Definition with_sequences (db view : tables) : tables :=
  {| users := users db; user_profiles := user_profiles db;
     user_documents := user_documents db; user_skills := user_skills db;
     skills := skills db; user_experiences := user_experiences db;
     user_educations := user_educations db;
     seq_documents := seq_documents view;
     seq_user_skills := seq_user_skills view;
     seq_experiences := seq_experiences view;
     seq_educations := seq_educations view |}.

(** The rows a transaction has written, as table number and key. *)
Definition keys_of {A : Type} (n : nat) (key : A -> Z) (c : list A * list Z)
  : list (nat * Z) :=
  map (fun a => (n, key a)) (fst c) ++ map (fun k => (n, k)) (snd c).

Definition touched (c : changes) : list (nat * Z) :=
  keys_of 1 u_id (c_users c) ++ keys_of 2 up_user_id (c_profiles c)
  ++ keys_of 3 d_id (c_documents c) ++ keys_of 4 us_id (c_user_skills c)
  ++ keys_of 5 s_id (c_skills c) ++ keys_of 6 e_id (c_experiences c)
  ++ keys_of 7 e_id (c_educations c).

(** Some row of [c] is a row another open transaction has written. *)
Definition waits (c : changes) (theirs : list changes) : bool :=
  existsb
    (fun k => existsb
                (fun d => existsb (fun k' => Nat.eqb (fst k) (fst k') && (snd k =? snd k'))
                                  (touched d))
                theirs)
    (touched c).

(** *** Requests taking turns *)

(** The transaction open on a client: what it has written, and whether
    a statement has failed in it. *)
Record pending := { writes : changes; failed : bool }.

(** A request under way: the steps it has still to take and its client
    connection. *)
Record task := { rest : steps reply; client : option pending }.

(** [common] is what all requests share: the committed tables, the
    files, the log and the count of operations; its [tx] is not used. *)
Record system := { common : world; tasks : list task }.

Definition logged (w : world) (db : tables) (ev : event) : world :=
  {| committed := db; tx := None; files := files w;
     log := log w ++ [ev]; tick := S (tick w) |}.

Definition open_on (r : runner) (mine : option pending) : bool :=
  match r, mine with
  | Client, Some _ => true
  | _, _ => false
  end.

Section WithEnv.

Variable E : env.

(** One statement of a request whose client is in state [mine], while
    the other requests' open transactions have written [theirs]:
    the outcome, what is shared afterwards, and the client afterwards;
    [None] when the statement has to wait. *)
Definition attempt (r : runner) (s : sql) (ps : list jsval)
           (mine : option pending) (theirs : list changes) (w : world)
  : option (outcome qresult * world * option pending) :=
  let refused :=
    Some (Throw DbError,
          logged w (committed w) (EvQuery r (open_on r mine) s ps false),
          match r with
          | Client =>
              option_map (fun t => {| writes := writes t; failed := true |}) mine
          | Pool => mine
          end) in
  let accepted (res : qresult) (db : tables) (after : option pending) :=
    Some (Ok res, logged w db (EvQuery r (open_on r mine) s ps true), after) in
  let at_once :=
    match exec s ps (committed w) with
    | None => refused
    | Some (res, db) =>
        if waits (diff (committed w) db)
                 (theirs ++ match mine with Some t => [writes t] | None => [] end)
        then None
        else accepted res db mine
    end in
  if fault E (tick w) s || negb (Nat.eqb (List.length ps) (placeholders s))
  then refused
  else
    match r, mine with
    | Client, Some t =>
        match s with
        | Begin => accepted (selected []) (committed w) mine
        | Commit =>
            accepted (selected [])
                     (if failed t then committed w else patch (writes t) (committed w))
                     None
        | Rollback => accepted (selected []) (committed w) None
        | _ =>
            if failed t then refused
            else
              match exec s ps (patch (writes t) (committed w)) with
              | None => refused
              | Some (res, view) =>
                  let mine' := diff (committed w) view in
                  if waits mine' theirs then None
                  else accepted res (with_sequences (committed w) view)
                                (Some {| writes := mine'; failed := false |})
              end
        end
    | Client, None =>
        match s with
        | Begin =>
            accepted (selected []) (committed w)
                     (Some {| writes := no_changes; failed := false |})
        | Commit | Rollback => accepted (selected []) (committed w) None
        | _ => at_once
        end
    | Pool, _ => at_once
    end.

Definition others (i : nat) (ts : list task) : list changes :=
  flat_map (fun jt => if Nat.eqb (fst jt) i then []
                      else match client (snd jt) with
                           | Some t => [writes t]
                           | None => []
                           end)
           (combine (seq 0 (List.length ts)) ts).

Fixpoint replace {A : Type} (i : nat) (a : A) (l : list A) : list A :=
  match l, i with
  | [], _ => []
  | _ :: l', O => a :: l'
  | b :: l', S i' => b :: replace i' a l'
  end.

(** Request [i] takes its next step; [None] when it has none to take or
    has to wait. *)
Definition turn (i : nat) (sys : system) : option system :=
  match nth_error (tasks sys) i with
  | None => None
  | Some t =>
      let w := common sys in
      match rest t with
      | Done _ => None
      | Query r s ps k =>
          match attempt r s ps (client t) (others i (tasks sys)) w with
          | None => None
          | Some (o, w1, mine) =>
              Some {| common := w1;
                      tasks := replace i {| rest := k o; client := mine |} (tasks sys) |}
          end
      | Release k =>
          Some {| common := w;
                  tasks := replace i {| rest := k; client := None |} (tasks sys) |}
      | ExistsSync p k =>
          Some {| common := w;
                  tasks := replace i {| rest := k (existsb (same_path p) (files w));
                                        client := client t |} (tasks sys) |}
      | UnlinkSync p k =>
          match Effects.unlinkSync E p w with
          | (o, w1) =>
              Some {| common := w1;
                      tasks := replace i {| rest := k o; client := client t |}
                                       (tasks sys) |}
          end
      end
  end.

(** The requests take their turns in the order of [schedule]. *)
Fixpoint play (schedule : list nat) (sys : system) : option system :=
  match schedule with
  | [] => Some sys
  | i :: schedule' =>
      match turn i sys with
      | Some sys' => play schedule' sys'
      | None => None
      end
  end.

End WithEnv.

(** The requests as they arrive. *)
Definition arrive (w : world) (rs : list (steps reply)) : system :=
  {| common := w; tasks := map (fun m => {| rest := m; client := None |}) rs |}.

(** The reply of each request that has taken all its steps. *)
Definition replies (sys : system) : list (option (outcome reply)) :=
  map (fun t => match rest t with Done o => Some o | _ => None end) (tasks sys).

(** Two uploads of the same user arrive together.  [in_turn] lets the
    first take its eight steps before the second starts; [alternating]
    lets both insert their row before either clears the other rows. *)
Definition two_uploads : system :=
  arrive Sample.w0 [ uploadResume (Sample.with_file Sample.r1);
                     uploadResume (Sample.with_file Sample.r2) ].

Definition in_turn : list nat :=
  [0; 0; 0; 0; 0; 0; 0; 0; 1; 1; 1; 1; 1; 1; 1; 1]%nat.

Definition alternating : list nat :=
  [0; 0; 1; 1; 0; 1; 0; 1; 0; 0; 0; 0; 1; 1; 1; 1]%nat.

(** What is committed once the requests have taken their steps. *)
Definition outcome_of (schedule : list nat) (sys : system) : option tables :=
  option_map (fun s => committed (common s)) (play Sample.calm schedule sys).

(** A user with one resume deletes it and uploads another at the same
    time.  [score_overtaken] lets the deletion read its counts, then the
    upload take all its steps, and the deletion write its score last. *)
Definition one_resume : world :=
  serve Sample.calm [(PostResume, Sample.with_file Sample.r1)] Sample.w0.

Definition delete_and_upload : system :=
  arrive one_resume [ deleteResume Sample.calm (Sample.with_param (JNum 1));
                      uploadResume (Sample.with_file Sample.r2) ].

Definition score_overtaken : list nat :=
  [0; 0; 0; 0; 0; 0; 1; 1; 1; 1; 1; 1; 1; 1; 0]%nat.

End Overlap.

(** ** What one request can do to the tables *)

Module Changes.

(** The flag and the end date [addExperience] / [addEducation] store. *)
Definition final_is_current (b : row) : jsval :=
  coalesce (get b "is_current") (JBool false).

Definition final_end_date (b : row) : jsval :=
  if truthy (final_is_current b) then JNull else get b "end_date".

(** The row the INSERT of an entry adds when the sequence is at [id]. *)
Definition new_entry (t : entry_table) (uid : Z) (b : row) (id : Z) : entry_row :=
  {| e_id := id; e_user_id := uid;
     e_cols := store_all (insert_columns t)
                 (insert_values t b (final_end_date b) (final_is_current b)) |}.

(** A row after the UPDATE of an entry with these bind values. *)
Definition edited_entry (t : entry_table) (b : row) (finalEndDate finalIsCurrent : jsval)
           (id uid : Z) (e : entry_row) : entry_row :=
  {| e_id := e_id e; e_user_id := e_user_id e;
     e_cols := apply_set (update_columns t)
                 (update_values t b finalEndDate finalIsCurrent
                    ++ [JNum id; JNum uid])
                 (e_cols e) |}.

Definition own_entry (id uid : Z) (e : entry_row) : bool :=
  (e_id e =? id) && (e_user_id e =? uid).

Definition own_document (id uid : Z) (d : document_row) : bool :=
  (d_id d =? id) && owned_by uid d.

Definition has_skill (uid sid : Z) (us : user_skill_row) : bool :=
  (us_user_id us =? uid) && (us_skill_id us =? sid).

(** The row [addSkill] inserts. *)
Definition new_user_skill (uid sid : Z) (level : jsval) (id : Z) : user_skill_row :=
  {| us_id := id; us_user_id := uid; us_skill_id := sid;
     proficiency_level := level |}.

(** The server reads [v] as TRUE. *)
Definition reads_as_true (v : jsval) : bool :=
  match as_boolean v with
  | Some (JBool true) => true
  | _ => false
  end.

(** [v] is not a text or a number that the server reads as TRUE: when it
    is read as TRUE, it is the boolean [true]. *)
Definition plain_flag (v : jsval) : Prop :=
  reads_as_true v = true -> v = JBool true.

(** The routes of [updateExperience] and [updateEducation]. *)
Definition updates_entry (r : route) : Prop :=
  r = PutExperience \/ r = PutEducation.

(** The statements a handler gets accepted for user [uid] on route [r]
    with request body [b], as one step on the tables.  The flag an
    update binds is the one of the body, or the stored one of a row of
    the table. *)
Inductive mutation (uid : Z) (r : route) (b : row) (db : tables) : tables -> Prop :=
| NoChange : mutation uid r b db db
| ResumeAdded (f : upload) :
    mutation uid r b db
      (with_documents db
         (on_rows (other_resumes uid (seq_documents db)) clear_default
                  (user_documents db)
          ++ [new_resume uid f (seq_documents db)])
         (seq_documents db + 1))
| ResumeRemoved (id : Z) :
    mutation uid r b db
      (with_documents db (keep_rows (own_document id uid) (user_documents db))
                      (seq_documents db))
| SkillAdded (sid : Z) (level : jsval) :
    filter (has_skill uid sid) (user_skills db) = [] ->
    filter (fun s => s_id s =? sid) (skills db) <> [] ->
    mutation uid r b db
      (with_user_skills db
         (user_skills db ++ [new_user_skill uid sid level (seq_user_skills db)])
         (seq_user_skills db + 1))
| SkillRemoved (sid : Z) :
    mutation uid r b db
      (with_user_skills db (keep_rows (has_skill uid sid) (user_skills db))
                        (seq_user_skills db))
| EntryAdded (t : entry_table) :
    mutation uid r b db
      (with_entries t db (entries t db ++ [new_entry t uid b (seq_entries t db)])
                    (seq_entries t db + 1))
| EntryEdited (t : entry_table) (finalEndDate finalIsCurrent : jsval) (id : Z) :
    updates_entry r ->
    (finalIsCurrent = JBool true -> finalEndDate = JNull) ->
    (finalIsCurrent = get b "is_current"
     \/ exists e, In e (entries t db)
                  /\ finalIsCurrent = sql_value (get (e_cols e) "is_current")) ->
    mutation uid r b db
      (with_entries t db
         (on_rows (own_entry id uid)
                  (edited_entry t b finalEndDate finalIsCurrent id uid)
                  (entries t db))
         (seq_entries t db))
| EntryRemoved (t : entry_table) (id : Z) :
    mutation uid r b db
      (with_entries t db (keep_rows (own_entry id uid) (entries t db))
                    (seq_entries t db)).

(** The rows of user [v], table by table. *)
Definition owned (v : Z) (db : tables) :=
  (filter (fun u => u_id u =? v) (users db),
   filter (fun p => up_user_id p =? v) (user_profiles db),
   filter (fun d => d_user_id d =? v) (user_documents db),
   filter (fun s => us_user_id s =? v) (user_skills db),
   filter (fun e => e_user_id e =? v) (user_experiences db),
   filter (fun e => e_user_id e =? v) (user_educations db)).

(** No user has the same skill twice. *)
Definition skills_unique (db : tables) : Prop :=
  NoDup (map (fun us => (us_user_id us, us_skill_id us)) (user_skills db)).

(** Every skill of a user is a skill of the catalogue. *)
Definition skills_known (db : tables) : Prop :=
  Forall (fun us => existsb (fun s => s_id s =? us_skill_id us) (skills db) = true)
         (user_skills db).

(** An entry flagged as current has no end date. *)
Definition current_is_open (e : entry_row) : Prop :=
  get (e_cols e) "is_current" = JBool true -> get (e_cols e) "end_date" = JNull.

(** The flag of an entry is a boolean or NULL, as its column is. *)
Definition flag_is_boolean (e : entry_row) : Prop :=
  match get (e_cols e) "is_current" with
  | JBool _ | JNull => True
  | _ => False
  end.

Definition entry_sound (e : entry_row) : Prop :=
  flag_is_boolean e /\ current_is_open e.

Definition entries_sound (db : tables) : Prop :=
  Forall entry_sound (user_experiences db)
  /\ Forall entry_sound (user_educations db).

(** The tables with the completion column blanked. *)
Definition besides_score (db : tables) : tables :=
  with_profiles db (map (set_completion JNull) (user_profiles db)).

(** The entry of a SET list that writes column [k], with its bind value. *)
Definition assigned (cs : list (string * bool)) (ps : list jsval) (k : string) :=
  find (fun cp => (fst (fst cp) =? k)%string) (combine cs ps).

(** A reply that refuses the request. *)
Definition refusal (rep : reply) : Prop :=
  exists s d, rep = Json s d /\ s <> 200%nat /\ s <> 201%nat.

End Changes.
Import Changes.

(** ** Texts: numbers, separators, placeholders *)

Module Text.

(** [String(n)] for a natural number, as a template literal prints it. *)
Definition decimal (n : nat) : string := NilEmpty.string_of_uint (Nat.to_uint n).

(** [String(v)] *)
Definition text_of (v : jsval) : string :=
  match v with
  | JUndefined => "undefined"
  | JNull => "null"
  | JBool true => "true"
  | JBool false => "false"
  | JNum n => NilZero.string_of_int (Z.to_int n)
  | JStr s => s
  end.

(** [s.split(sep)] for a separator of one character. *)
Fixpoint split_from (sep : ascii) (seg s : string) : list string :=
  match s with
  | EmptyString => [seg]
  | String c s' =>
      if Ascii.eqb c sep then seg :: split_from sep EmptyString s'
      else split_from sep (seg ++ String c EmptyString) s'
  end.

Definition split (sep : ascii) (s : string) : list string :=
  split_from sep EmptyString s.

(** No occurrence of [sep] in [s]. *)
Fixpoint lacks (sep : ascii) (s : string) : bool :=
  match s with
  | EmptyString => true
  | String c s' => negb (Ascii.eqb c sep) && lacks sep s'
  end.

(** [parts.join(sep)] *)
Fixpoint join (sep : string) (parts : list string) : string :=
  match parts with
  | [] => EmptyString
  | [p] => p
  | p :: rest => p ++ sep ++ join sep rest
  end.

(** The placeholders [$n] of a statement text, in the order in which
    they occur. *)
Inductive reading := Idle | Dollar | Number (n : nat).

Definition digit_of (c : ascii) : option nat :=
  let n := nat_of_ascii c in
  if Nat.leb 48 n && Nat.leb n 57 then Some (n - 48)%nat else None.

Definition after (c : ascii) : reading :=
  if Ascii.eqb c "$"%char then Dollar else Idle.

Fixpoint placeholders_from (st : reading) (s : string) : list nat :=
  match s with
  | EmptyString => match st with Number n => [n] | _ => [] end
  | String c s' =>
      match st, digit_of c with
      | Dollar, Some d => placeholders_from (Number d) s'
      | Number n, Some d => placeholders_from (Number (10 * n + d)) s'
      | Number n, None => n :: placeholders_from (after c) s'
      | _, _ => placeholders_from (after c) s'
      end
  end.

Definition placeholders_in (text : string) : list nat :=
  placeholders_from Idle text.

(** A bind array fits a text when the text names [$1 .. $n] for an
    array of [n] values. *)
Definition fits (text : string) (values : list jsval) : Prop :=
  placeholders_in text = seq 1 (List.length values).

End Text.

(** ** The catalogue of skills (skillsController.ts) *)

Module Catalogue.

Import Text.
Local Open Scope string_scope.

(** Lines 8-31 of [getAllSkills]: the statement and its bind array,
    from the [category] and [search] parameters of the query string. *)
Definition getAllSkills_statement (category search : jsval) : string * list jsval :=
  let query := "SELECT * FROM skills" in
  let queryParams : list jsval := [] in
  let paramCount := 1%nat in
  let '(query, queryParams) :=
    if truthy category || truthy search then
      let query := query ++ " WHERE" in
      let '(query, queryParams, paramCount) :=
        if truthy category
        then (query ++ " category = $" ++ decimal paramCount,
              (queryParams ++ [category])%list, S paramCount)
        else (query, queryParams, paramCount) in
      if truthy search
      then ((if truthy category then query ++ " AND" else query)
              ++ " name ILIKE $" ++ decimal paramCount,
            (queryParams ++ [JStr ("%" ++ text_of search ++ "%")%string])%list)
      else (query, queryParams)
    else (query, queryParams) in
  (query ++ " ORDER BY category, name", queryParams).

End Catalogue.

(** ** Paged listings of applications (apllicationController.ts)

    [getMyApplications] and [getJobApplications] build their two
    statements, the page of rows and the count, with the same code
    around different texts. *)

Module Paging.

Import Text.
Local Open Scope string_scope.

(** The texts of the template literals, up to where [whereClause] is
    spliced in. *)
Definition my_applications_text : string :=
  "
      SELECT ja.id, ja.job_id, ja.application_date, ja.status, ja.updated_at,
             j.title as job_title, j.location, j.job_type, j.is_remote,
             c.name as company_name, c.logo_url as company_logo
      FROM job_applications ja
      JOIN jobs j ON ja.job_id = j.id
      JOIN companies c ON j.company_id = c.id
      ".

Definition my_count_text : string :=
  "
      SELECT COUNT(*)
      FROM job_applications ja
      JOIN jobs j ON ja.job_id = j.id
      JOIN companies c ON j.company_id = c.id
      ".

Definition job_applications_text : string :=
  "
      SELECT ja.id, ja.user_id, ja.application_date, ja.status, ja.updated_at, ja.cover_letter, ja.contact_email, ja.contact_phone,
             u.first_name, u.last_name, u.email,
             p.job_title as applicant_job_title, p.years_of_experience,
             d.storage_url as resume_url -- Corrected column name
      FROM job_applications ja
      JOIN users u ON ja.user_id = u.id
      LEFT JOIN user_profiles p ON u.id = p.user_id
      LEFT JOIN user_documents d ON ja.resume_id = d.id -- Join based on resume_id
      ".

Definition job_count_text : string :=
  "
      SELECT COUNT(*)
      FROM job_applications ja
      JOIN users u ON ja.user_id = u.id
      LEFT JOIN user_profiles p ON u.id = p.user_id
      LEFT JOIN user_documents d ON ja.resume_id = d.id
      ".

(** What follows [whereClause] in the two templates. *)
Definition order_and_limit (paramCount : nat) : string :=
  "
      ORDER BY ja.application_date DESC
      LIMIT $" ++ decimal paramCount
  ++ " OFFSET $" ++ decimal (paramCount + 1) ++ "
    ".

Definition count_end : string :=
  "
    ".

(** [x = d] in a destructuring pattern: the default stands in for
    [undefined] only. *)
Definition or_default (v d : jsval) : jsval :=
  match v with JUndefined => d | _ => v end.

(** [typeof v === 'string'] *)
Definition is_string (v : jsval) : bool :=
  match v with JStr _ => true | _ => false end.

(** [(pageNum - 1) * limitNum], the OFFSET of a page. *)
Definition offset_of (pageNum limitNum : Z) : Z := ((pageNum - 1) * limitNum)%Z.

Record statements := {
  applicationsQuery : string;
  queryParams : list jsval;
  countQuery : string;
  countParams : list jsval;
  pageNum : Z;
  limitNum : Z }.

Section Statements.

(** [parseInt(v, 10)]; [None] is NaN. *)
Variable parseInt : jsval -> option Z.

(** The code both handlers share: [condition] is the first entry of
    [queryConditions], [key] the first bind value; [None] is the reply
    400 for invalid pagination parameters. *)
Definition paged (select_text count_text condition : string) (key : jsval)
           (query : row) : option statements :=
  let status := get query "status" in
  let page := or_default (get query "page") (JNum 1) in
  let limit := or_default (get query "limit") (JNum 10) in
  let queryParams := [key] in
  let queryConditions := [condition] in
  let paramCount := 2%nat in
  let '(queryConditions, queryParams, paramCount) :=
    if truthy status && is_string status
    then ((queryConditions ++ [("ja.status = $" ++ decimal paramCount)%string])%list,
          (queryParams ++ [status])%list, S paramCount)
    else (queryConditions, queryParams, paramCount) in
  match parseInt page, parseInt limit with
  | Some pageNum, Some limitNum =>
      if (pageNum <? 1)%Z || (limitNum <? 1)%Z then None
      else
        let offset := offset_of pageNum limitNum in
        let queryParams :=
          ((queryParams ++ [JNum limitNum]) ++ [JNum offset])%list in
        let whereClause := "WHERE " ++ join " AND " queryConditions in
        Some {| applicationsQuery :=
                  select_text ++ whereClause ++ order_and_limit paramCount;
                queryParams := queryParams;
                countQuery := count_text ++ whereClause ++ count_end;
                countParams :=
                  firstn (List.length queryParams - 2) queryParams;
                pageNum := pageNum;
                limitNum := limitNum |}
  | _, _ => None
  end.

(** Lines 183-231 of [getMyApplications]. *)
Definition getMyApplications_statements (userId : Z) (query : row) : option statements :=
  paged my_applications_text my_count_text "ja.user_id = $1" (JNum userId) query.

(** Lines 283-332 of [getJobApplications]. *)
Definition getJobApplications_statements (jobId : Z) (query : row) : option statements :=
  paged job_applications_text job_count_text "ja.job_id = $1" (JNum jobId) query.

End Statements.

(** [Math.ceil(totalCount / limitNum)], the [pages] of the reply. *)
Definition pages (totalCount limitNum : Z) : Z :=
  Qceiling (inject_Z totalCount / inject_Z limitNum).

End Paging.

(** ** The guards in front of the handlers ([protect] and [authorize], server.ts) *)

Module Guards.

Import Text.

(** What [jwt.verify] decodes. *)
Record decoded := { id : Z; user_type : string }.

Inductive verdict :=
| Proceed (u : option decoded)     (* next(), with req.user as it is then *)
| Deny (status : nat).

Section Protect.

(** [jwt.verify(token, secret)]; [None] when it throws. *)
Variable verify : string -> option decoded.

(** Lines 188-213: [protect], from the Authorization header. *)
Definition protect (authorization : option string) : verdict :=
  let token :=
    match authorization with
    | Some h =>
        if negb (h =? "")%string && String.prefix "Bearer" h
        then nth_error (split " "%char h) 1
        else None
    | None => None
    end in
  match token with
  | None => Deny 401
  | Some t =>
      if (t =? "")%string then Deny 401
      else match verify t with
           | Some u => Proceed (Some u)
           | None => Deny 401
           end
  end.

End Protect.

(** Lines 215-233: [authorize(...roles)], on the [req.user] that
    [protect] has left. *)
Definition authorize (roles : list string) (user : option decoded) : verdict :=
  match user with
  | None => Deny 401
  | Some u =>
      if existsb (String.eqb (user_type u)) roles then Proceed user
      else Deny 403
  end.

(** A chain of guards: each one runs if the one before proceeded. *)
Definition and_then (v : verdict) (g : option decoded -> verdict) : verdict :=
  match v with
  | Proceed u => g u
  | Deny s => Deny s
  end.

(** skillRoutes.ts, line 16: [protect, authorize(...)] in front of the
    handler. *)
Definition guarded (verify : string -> option decoded) (roles : list string)
           (authorization : option string) : verdict :=
  and_then (protect verify authorization) (authorize roles).

End Guards.

(** ** Job applications (apllicationController.ts)

    The three handlers that write to [job_applications].  They talk to
    the pool only, statement by statement, with no transaction.  The
    schema is not part of the sources: the column defaults of an
    inserted row and the server's reading of a bind value as an integer
    are parameters, and any statement may be refused. *)

Module Applications.

Record job_row := { j_id : Z; posted_by : jsval }.

Record application_row := {
  a_id : Z; a_user_id : Z; a_job_id : Z;
  a_status : jsval; a_feedback : jsval;
  (* cover_letter, resume_id, contact_email, contact_phone, custom_answers *)
  a_sent : list jsval }.

Record board := {
  jobs : list job_row;
  job_applications : list application_row;
  seq_applications : Z;
  documents : list document_row }.

Definition with_applications (b : board) (l : list application_row) (next : Z) : board :=
  {| jobs := jobs b; job_applications := l; seq_applications := next;
     documents := documents b |}.

Inductive statement :=
| SelectJob            (* SELECT id FROM jobs WHERE id = $1 *)
| SelectApplied        (* SELECT id FROM job_applications WHERE user_id = $1 AND job_id = $2 *)
| SelectResumeOf       (* SELECT id FROM user_documents WHERE id = $1 AND user_id = $2 AND document_type = $3 *)
| InsertApplication    (* INSERT INTO job_applications (user_id, job_id, ..) VALUES ($1, .., $7, NOW(), NOW()) RETURNING * *)
| SelectJobDetails     (* SELECT j.title, c.name .. FROM jobs j JOIN companies c .. WHERE j.id = $1 *)
| SelectWithPoster     (* SELECT ja.*, j.posted_by FROM job_applications ja JOIN jobs j ON ja.job_id = j.id WHERE ja.id = $1 *)
| UpdateStatus         (* UPDATE job_applications SET status = $1, feedback = $2, .. WHERE id = $3 RETURNING * *)
| SelectOwn            (* SELECT id FROM job_applications WHERE id = $1 AND user_id = $2 *)
| SetWithdrawn.        (* UPDATE job_applications SET status = 'withdrawn', .. WHERE id = $1 RETURNING * *)

Record setting := {
  (* the n-th statement sent is refused: a constraint, a type, the connection *)
  refused : nat -> statement -> bool;
  (* parseInt(v, 10); None is NaN *)
  parse : jsval -> option Z;
  (* the server's reading of a bind value compared with an integer column *)
  as_integer : jsval -> option Z;
  (* what the schema puts in the columns the INSERT does not name *)
  default_status : jsval;
  default_feedback : jsval }.

Record world := { state : board; clock : nat }.

(** What the handlers read of the request: [req.user], [req.params.id],
    [req.body]. *)
Record request := {
  user : option Guards.decoded;
  params_id : jsval;
  body : row }.

(** [res.status(code).json(..)] with the application rows it carries, or
    [next(error)]. *)
Inductive answer :=
| Status (code : nat) (data : list application_row)
| NextError.

(** [req.user?.id] with [if (!userId)] *)
Definition caller (req : request) : option Guards.decoded :=
  match user req with
  | Some u => if Guards.id u =? 0 then None else Some u
  | None => None
  end.

Definition applied (userId jobId : Z) (a : application_row) : bool :=
  (a_user_id a =? userId) && (a_job_id a =? jobId).

Definition own (applicationId userId : Z) (a : application_row) : bool :=
  (a_id a =? applicationId) && (a_user_id a =? userId).

Definition has_id (applicationId : Z) (a : application_row) : bool :=
  a_id a =? applicationId.

Definition resume_of (resumeId userId : Z) (d : document_row) : bool :=
  (d_id d =? resumeId) && (d_user_id d =? userId)
  && (document_type d =? "resume")%string.

(** The row the INSERT adds when the sequence is at [id]. *)
Definition new_application (S : setting) (userId jobId : Z) (b : row) (id : Z)
  : application_row :=
  {| a_id := id; a_user_id := userId; a_job_id := jobId;
     a_status := default_status S; a_feedback := default_feedback S;
     a_sent := [ coalesce (get b "cover_letter") JNull;
                 coalesce (get b "resume_id") JNull;
                 coalesce (get b "contact_email") JNull;
                 coalesce (get b "contact_phone") JNull;
                 coalesce (get b "custom_answers") JNull ] |}.

Definition set_status (status feedback : jsval) (a : application_row) : application_row :=
  {| a_id := a_id a; a_user_id := a_user_id a; a_job_id := a_job_id a;
     a_status := status; a_feedback := feedback; a_sent := a_sent a |}.

Definition set_withdrawn (a : application_row) : application_row :=
  {| a_id := a_id a; a_user_id := a_user_id a; a_job_id := a_job_id a;
     a_status := JStr "withdrawn"; a_feedback := a_feedback a;
     a_sent := a_sent a |}.

(** The rows of the join of [SelectWithPoster]: the application and the
    [posted_by] of its job. *)
Definition with_poster (applicationId : Z) (b : board)
  : list (application_row * jsval) :=
  flat_map (fun a => map (fun j => (a, posted_by j))
                         (filter (fun j => j_id j =? a_job_id a) (jobs b)))
           (filter (has_id applicationId) (job_applications b)).

Section WithSetting.

Variable S : setting.

(** A computation that may throw. *)
Definition Q (A : Type) : Type := world -> option A * world.

Definition ret {A : Type} (a : A) : Q A := fun w => (Some a, w).

Definition bind {A B : Type} (m : Q A) (k : A -> Q B) : Q B :=
  fun w => match m w with
           | (Some a, w1) => k a w1
           | (None, w1) => (None, w1)
           end.

(** [await pool.query(..)]: the statement is refused, or it runs. *)
Definition query {A : Type} (s : statement) (run : board -> option (A * board)) : Q A :=
  fun w =>
    if refused S (clock w) s
    then (None, {| state := state w; clock := Datatypes.S (clock w) |})
    else match run (state w) with
         | Some (a, b) => (Some a, {| state := b; clock := Datatypes.S (clock w) |})
         | None => (None, {| state := state w; clock := Datatypes.S (clock w) |})
         end.

Definition selecting {A : Type} (s : statement) (rows : board -> A) : Q A :=
  query s (fun b => Some (rows b, b)).

(** [try { .. } catch (error) { next(error) }] *)
Definition try_next (m : Q answer) (w : world) : answer * world :=
  match m w with
  | (Some a, w1) => (a, w1)
  | (None, w1) => (NextError, w1)
  end.

Notation "x <-- m ;; k" := (bind m (fun x => k))
  (at level 61, m at next level, right associativity).

(** Lines 86-173. *)
Definition submitApplication (req : request) : world -> answer * world :=
  try_next
    (match caller req with
     | None => ret (Status 401 [])
     | Some u =>
         if negb (Guards.user_type u =? "job_seeker")%string
         then ret (Status 403 [])
         else
           match parse S (params_id req) with
           | None => ret (Status 400 [])
           | Some jobId =>
               let userId := Guards.id u in
               let resume_id := get (body req) "resume_id" in
               let submit : Q answer :=
                 applicationResult <--
                   query InsertApplication
                     (fun b =>
                        let a := new_application S userId jobId (body req)
                                                 (seq_applications b) in
                        Some ([a],
                              with_applications b (job_applications b ++ [a])
                                                (seq_applications b + 1))) ;;
                 jobDetails <-- selecting SelectJobDetails (fun _ => tt) ;;
                 ret (Status 201 (firstn 1 applicationResult)) in
               jobResult <--
                 selecting SelectJob
                   (fun b => filter (fun j => j_id j =? jobId) (jobs b)) ;;
               match jobResult with
               | [] => ret (Status 404 [])
               | _ :: _ =>
                   checkResult <--
                     selecting SelectApplied
                       (fun b => filter (applied userId jobId) (job_applications b)) ;;
                   match checkResult with
                   | _ :: _ => ret (Status 400 [])
                   | [] =>
                       if truthy resume_id
                       then
                         resumeCheck <--
                           query SelectResumeOf
                             (fun b =>
                                match as_integer S resume_id with
                                | None => None
                                | Some resumeId =>
                                    Some (filter (resume_of resumeId userId)
                                                 (documents b), b)
                                end) ;;
                         match resumeCheck with
                         | [] => ret (Status 400 [])
                         | _ :: _ => submit
                         end
                       else submit
                   end
               end
           end
     end).

(** Lines 373-431. *)
Definition updateApplicationStatus (req : request) : world -> answer * world :=
  try_next
    (match caller req with
     | None => ret (Status 401 [])
     | Some u =>
         match parse S (params_id req) with
         | None => ret (Status 400 [])
         | Some applicationId =>
             let status := get (body req) "status" in
             let feedback := get (body req) "feedback" in
             if negb (truthy status) then ret (Status 400 [])
             else
               applicationCheck <--
                 selecting SelectWithPoster (with_poster applicationId) ;;
               match applicationCheck with
               | [] => ret (Status 404 [])
               | application :: _ =>
                   if negb (strict_eq (snd application) (JNum (Guards.id u)))
                      && negb (Guards.user_type u =? "admin")%string
                   then ret (Status 403 [])
                   else
                     result <--
                       query UpdateStatus
                         (fun b =>
                            let l := on_rows (has_id applicationId)
                                       (set_status status (coalesce feedback JNull))
                                       (job_applications b) in
                            Some (filter (has_id applicationId) l,
                                  with_applications b l (seq_applications b))) ;;
                     ret (Status 200 (firstn 1 result))
               end
         end
     end).

(** Lines 434-472. *)
Definition withdrawApplication (req : request) : world -> answer * world :=
  try_next
    (match caller req with
     | None => ret (Status 401 [])
     | Some u =>
         match parse S (params_id req) with
         | None => ret (Status 400 [])
         | Some applicationId =>
             applicationCheck <--
               selecting SelectOwn
                 (fun b => filter (own applicationId (Guards.id u))
                                  (job_applications b)) ;;
             match applicationCheck with
             | [] => ret (Status 404 [])
             | _ :: _ =>
                 result <--
                   query SetWithdrawn
                     (fun b =>
                        let l := on_rows (has_id applicationId) set_withdrawn
                                         (job_applications b) in
                        Some (filter (has_id applicationId) l,
                              with_applications b l (seq_applications b))) ;;
                 ret (Status 200 (firstn 1 result))
             end
         end
     end).

(** The three handlers by name, and a sequence of requests served one
    after the other. *)
Inductive action := Submit | SetStatus | Withdraw.

Definition perform (a : action) : request -> world -> answer * world :=
  match a with
  | Submit => submitApplication
  | SetStatus => updateApplicationStatus
  | Withdraw => withdrawApplication
  end.

Fixpoint serve (rs : list (action * request)) (w : world) : world :=
  match rs with
  | [] => w
  | (a, req) :: rs' => serve rs' (snd (perform a req w))
  end.

End WithSetting.

(** No user has two applications for one job. *)
Definition applied_once (b : board) : Prop :=
  NoDup (map (fun a => (a_user_id a, a_job_id a)) (job_applications b)).

(** The id is a key of [job_applications], handed out by the sequence. *)
Definition keyed (b : board) : Prop :=
  NoDup (map a_id (job_applications b))
  /\ Forall (fun a => a_id a < seq_applications b) (job_applications b).

(** Sample data: a job posted by user 9, and no application yet. *)
Definition smooth : setting :=
  {| refused := fun _ _ => false;
     parse := fun v => match v with JNum n => Some n | _ => None end;
     as_integer := fun v => match v with JNum n => Some n | _ => None end;
     default_status := JStr "pending"; default_feedback := JNull |}.

(** The lookup of the job's title and company is refused. *)
Definition details_down : setting :=
  {| refused := fun _ s => match s with SelectJobDetails => true | _ => false end;
     parse := parse smooth; as_integer := as_integer smooth;
     default_status := JStr "pending"; default_feedback := JNull |}.

Definition desk : world :=
  {| state := {| jobs := [ {| j_id := 5; posted_by := JNum 9 |} ];
                 job_applications := []; seq_applications := 1;
                 documents := [] |};
     clock := 0 |}.

Definition seeker : Guards.decoded :=
  {| Guards.id := 7; Guards.user_type := "job_seeker" |}.
Definition employer : Guards.decoded :=
  {| Guards.id := 9; Guards.user_type := "employer" |}.
Definition stranger : Guards.decoded :=
  {| Guards.id := 11; Guards.user_type := "employer" |}.

Definition sent_by (u : Guards.decoded) (id : Z) (b : row) : request :=
  {| user := Some u; params_id := JNum id; body := b |}.

(** The desk after the seeker has applied for job 5. *)
Definition applied_desk : world :=
  snd (submitApplication smooth (sent_by seeker 5 []) desk).

Definition first_application : application_row :=
  new_application smooth 7 5 [] 1.

(** Apply, apply again, a stranger and then the poster set the status,
    withdraw, apply once more. *)
Definition dealings : list (action * request) :=
  [ (Submit, sent_by seeker 5 [("cover_letter", JStr "Dear all")]);
    (Submit, sent_by seeker 5 []);
    (SetStatus, sent_by stranger 1 [("status", JStr "rejected")]);
    (SetStatus, sent_by employer 1 [("status", JStr "accepted")]);
    (Withdraw, sent_by seeker 1 []);
    (Submit, sent_by seeker 5 []) ].

End Applications.

(** ** More sample data *)

Module Scenario.

(** The counting query of the recomputation is refused. *)
Definition counts_refused : env :=
  {| fault := fun _ s => match s with SelectCounts => true | _ => false end;
     unlink_fault := fun _ _ => false;
     parseInt := fun v => match v with JNum n => Some n | _ => None end;
     date_is_nan := fun _ => false |}.

(** No statement fails, and the upload directory refuses removals. *)
Definition readonly_uploads : env :=
  {| fault := fun _ _ => false;
     unlink_fault := fun _ _ => true;
     parseInt := fun v => match v with JNum n => Some n | _ => None end;
     date_is_nan := fun _ => false |}.

Definition bob : user_row :=
  {| u_id := 8; u_first_name := JStr "Bob"; u_last_name := JStr "K";
     u_email := JStr "bob@example.org"; u_user_type := JStr "job_seeker" |}.

Definition bob_resume : document_row :=
  {| d_id := 1; d_user_id := 8; document_type := "resume";
     file_name := "bob.pdf"; storage_url := "/uploads/bob.pdf";
     file_size_kb := 12; is_default_resume := true |}.

Definition rocq : skill_row :=
  {| s_id := 3; s_name := JStr "Rocq"; s_category := JStr "Proof" |}.

Definition sql_skill : skill_row :=
  {| s_id := 4; s_name := JStr "SQL"; s_category := JStr "Data" |}.

Definition bob_job : entry_row :=
  {| e_id := 1; e_user_id := 8;
     e_cols := [ ("company_name", JStr "Acme"); ("job_title", JStr "Clerk");
                 ("location", JNull); ("start_date", JStr "2019-01-01");
                 ("end_date", JNull); ("is_current", JBool true);
                 ("description", JNull); ("responsibilities", JNull);
                 ("achievements", JNull) ] |}.

(** Two users, a catalogue of two skills; Bob has a resume, a skill and
    a current job. *)
Definition db2 : tables :=
  {| users := [Sample.ada; bob];
     user_profiles := [Sample.ada_profile; null_profile 8];
     user_documents := [bob_resume];
     user_skills := [ {| us_id := 1; us_user_id := 8; us_skill_id := 3;
                         proficiency_level := JNum 2 |} ];
     skills := [rocq; sql_skill];
     user_experiences := [bob_job];
     user_educations := [];
     seq_documents := 2; seq_user_skills := 2;
     seq_experiences := 2; seq_educations := 1 |}.

Definition w2 : world :=
  {| committed := db2; tx := None;
     files := ["uploads/bob.pdf"; "uploads/r1.pdf"; "uploads/r2.pdf"];
     log := []; tick := 0 |}.

Definition job_body : row :=
  [ ("company_name", JStr "Initech"); ("job_title", JStr "Engineer");
    ("start_date", JStr "2021-03-01"); ("end_date", JStr "2022-03-01");
    ("is_current", JBool true) ].

(** What Ada does in one sitting: a resume, two skills, one of them
    twice, a job, a change to Bob's job that is not hers to change, and
    the removal of a skill. *)
Definition sitting : list (route * request) :=
  [ (PostResume, Sample.with_file Sample.r1);
    (PostSkill, Sample.with_body [("skillId", JNum 3)]);
    (PostSkill, Sample.with_body [("skillId", JNum 4); ("proficiencyLevel", JNum 5)]);
    (PostSkill, Sample.with_body [("skillId", JNum 3)]);
    (PostExperience, Sample.with_body job_body);
    (PutExperience,
     {| user := Some 7; body := [("is_current", JBool false)];
        url_param := JNum 1; file := None |});
    (DeleteSkill, Sample.with_param (JNum 4));
    (DeleteResume, Sample.with_param (JNum 1)) ].

(** Bob renames his job and sends nothing else. *)
Definition bob_put : request :=
  {| user := Some 8; body := [("job_title", JStr "Lead")];
     url_param := JNum 1; file := None |}.

(** Bob reports the end of his job; his form sends the flag as text. *)
Definition bob_leaves : request :=
  {| user := Some 8;
     body := [("is_current", JStr "true"); ("end_date", JStr "2024-01-31")];
     url_param := JNum 1; file := None |}.

(** The third page of the pending applications. *)
Definition page3 : row := [("status", JStr "pending"); ("page", JNum 3)].

(** A verifier that knows one token. *)
Definition verify_one (token : string) : option Guards.decoded :=
  if (token =? "t0k3n")%string
  then Some {| Guards.id := 7; Guards.user_type := "job_seeker" |}
  else None.

End Scenario.

(** * Properties *)

(** ** The scorer *)

Module ScorerFacts.

Import Scorer.
Local Open Scope Q_scope.

Lemma bump_pts (a : Q) (c : bool) (w : Q) : bump a c w == a + pts c w.
Proof. destruct c; unfold bump, pts; ring. Qed.

Lemma positive_count (n : nat) :
  positive (JNum (Z.of_nat n)) = negb (Nat.eqb n 0).
Proof.
  destruct n as [|n]; [reflexivity|].
  unfold positive, to_number.
  assert (H : 0 < inject_Z (Z.of_nat (S n))).
  { rewrite <- (Zlt_Qlt 0). lia. }
  now rewrite (proj1 (Qlt_alt _ _) H).
Qed.

Lemma count_term (n : nat) (cap base step : Q) :
  bump 0 (positive (JNum (Z.of_nat n)))
       (Qmin cap (base + to_number (JNum (Z.of_nat n)) * step))
  == count_pts n cap base step.
Proof.
  rewrite positive_count.
  destruct n as [|n]; cbn [Nat.eqb negb bump count_pts to_number].
  - reflexivity.
  - rewrite Qplus_0_l. apply Q.min_compat; [reflexivity|ring].
Qed.

Lemma bump_split (a : Q) (c : bool) (w : Q) : bump a c w == a + bump 0 c w.
Proof. destruct c; unfold bump; ring. Qed.

(** The running total of the source is the category sum computed with
    JavaScript truthiness as the test for a filled field. *)
Lemma completionPercentage_sum (p : row) (e d s r : nat) :
  completionPercentage p (counts_row e d s r)
  == category_sum truthy p e d s r.
Proof.
  unfold completionPercentage, category_sum, add_keys, counts_row.
  unfold weights_basicInfo, weights_summaries, weights_links,
    weights_profileImage, weights_experience, weights_education,
    weights_skills, weights_resume.
  cbn [fold_left fst snd get String.eqb Ascii.eqb Bool.eqb].
  rewrite (bump_split _ (positive (JNum (Z.of_nat r)))).
  rewrite (bump_split _ (positive (JNum (Z.of_nat s)))).
  rewrite (bump_split _ (positive (JNum (Z.of_nat d)))).
  rewrite (bump_split _ (positive (JNum (Z.of_nat e)))).
  rewrite !count_term.
  rewrite positive_count.
  rewrite !bump_pts.
  rewrite (Q.min_comm _ 10).
  assert (L : 0 + pts (truthy (get p "website_url")) 3
              + pts (truthy (get p "linkedin_url")) 4
              + pts (truthy (get p "github_url")) 3
              == pts (truthy (get p "website_url")) 3
                 + pts (truthy (get p "linkedin_url")) 4
                 + pts (truthy (get p "github_url")) 3) by ring.
  rewrite L.
  ring.
Qed.

Lemma round_compat (x y : Q) : x == y -> math_round x = math_round y.
Proof.
  intros H. unfold math_round. apply Qfloor_comp. now rewrite H.
Qed.

Lemma count_pts_capped (n : nat) (cap base step : Q) :
  (1 <= n)%nat -> cap <= base + step * inject_Z (Z.of_nat n) ->
  count_pts n cap base step == cap.
Proof.
  intros Hn Hcap. destruct n as [|n]; [lia|].
  cbn [count_pts]. now apply Q.min_l.
Qed.

Lemma scaled_count_le (k : nat) (n : nat) (step : Q) :
  (k <= n)%nat -> 0 <= step ->
  step * inject_Z (Z.of_nat k) <= step * inject_Z (Z.of_nat n).
Proof.
  intros Hkn Hs.
  rewrite !(Qmult_comm step).
  apply Qmult_le_compat_r; [|exact Hs].
  rewrite <- Zle_Qle. lia.
Qed.

Lemma empty_is_falsy (v : jsval) : non_empty v = false -> truthy v = false.
Proof. destruct v; cbn; congruence. Qed.

Lemma populated_text_truthy (v : jsval) : populated_text v -> truthy v = true.
Proof.
  intros [s [-> Hs]]. cbn.
  destruct (String.eqb_spec s EmptyString); [contradiction|reflexivity].
Qed.

End ScorerFacts.

(** ** Claims about the scorer *)

Section ScorerClaims.

Import Scorer ScorerFacts.
Local Open Scope Q_scope.

(** C1 (as amended).  For every profile row and every tuple of counts, the
    score [updateProfileCompletion] computes is
    [clamp (round S) 0 100], where [S] is the sum of the categories of the
    specification, a field counting as filled when it is truthy: not
    null, not the empty text and not the number zero. *)
Theorem C1_score_is_clamped_rounded_sum (p : row) (e d s r : nat) :
  finalPercentage p (counts_row e d s r)
  = clamp 0 100 (math_round (category_sum truthy p e d s r)).
Proof.
  unfold finalPercentage, clamp.
  now rewrite (round_compat _ _ (completionPercentage_sum p e d s r)).
Qed.

(** C1 as stated fails: a stored zero in years of experience is a
    non-empty field, for which the formula gives 5 points and the code
    none. *)
Lemma C1_zero_years_scores_nothing :
  non_empty (get Sample.graduate "years_of_experience") = true
  /\ finalPercentage Sample.graduate (counts_row 0 0 0 0) = 0%Z
  /\ spec_score non_empty Sample.graduate 0 0 0 0 = 5%Z
  /\ finalPercentage Sample.graduate (counts_row 0 0 0 0)
     <> spec_score non_empty Sample.graduate 0 0 0 0.
Proof.
  split; [vm_compute; reflexivity|].
  split; [vm_compute; reflexivity|].
  split; [vm_compute; reflexivity|].
  vm_compute; discriminate.
Qed.

(** C7 (as amended).  A profile with every scored field empty and no
    experience, education, skill or resume scores 0.  A profile with
    every field populated, at least 5 experience entries, 3 education
    entries, 13 skills and a resume scores 100; the total before
    clamping is 110 when the years-of-experience value is not the number
    zero, and 105 when it is, since the scorer does not count a zero. *)
Theorem C7_boundary_scores (p : row) (e d s r : nat) :
  (all_fields_empty p -> finalPercentage p (counts_row 0 0 0 0) = 0%Z)
  /\ (all_fields_populated p ->
      (5 <= e)%nat -> (3 <= d)%nat -> (13 <= s)%nat -> (1 <= r)%nat ->
      finalPercentage p (counts_row e d s r) = 100%Z
      /\ completionPercentage p (counts_row e d s r)
         == (if truthy (get p "years_of_experience") then 110 else 105)).
Proof.
  split.
  - intros He.
    assert (F : forall k, In k ("years_of_experience" :: text_fields) ->
                          truthy (get p k) = false).
    { intros k Hk. apply empty_is_falsy, He, Hk. }
    unfold finalPercentage.
    rewrite (round_compat _ 0).
    + reflexivity.
    + rewrite completionPercentage_sum. unfold category_sum.
      rewrite (F "job_title"), (F "location"), (F "years_of_experience"),
        (F "experience_level"), (F "primary_industry"),
        (F "profile_summary"), (F "professional_summary"),
        (F "website_url"), (F "linkedin_url"), (F "github_url"),
        (F "profile_image_url")
        by (cbn; tauto).
      vm_compute. reflexivity.
  - intros [Ht Hy] He Hd Hs Hr.
    assert (T : forall k, In k text_fields -> truthy (get p k) = true).
    { intros k Hk. apply populated_text_truthy, Ht, Hk. }
    assert (S : completionPercentage p (counts_row e d s r)
                == (if truthy (get p "years_of_experience") then 110 else 105)).
    { rewrite completionPercentage_sum. unfold category_sum.
      rewrite (T "job_title"), (T "location"), (T "experience_level"),
        (T "primary_industry"), (T "profile_summary"),
        (T "professional_summary"), (T "website_url"), (T "linkedin_url"),
        (T "github_url"), (T "profile_image_url")
        by (cbn; tauto).
      rewrite (count_pts_capped e 15 5 2).
      2: lia.
      2: { apply Qle_trans with (5 + 2 * inject_Z (Z.of_nat 5)).
           - vm_compute. discriminate.
           - apply Qplus_le_r, scaled_count_le; [exact He|vm_compute; discriminate]. }
      rewrite (count_pts_capped d 10 5 (25 # 10)).
      2: lia.
      2: { apply Qle_trans with (5 + (25 # 10) * inject_Z (Z.of_nat 3)).
           - vm_compute. discriminate.
           - apply Qplus_le_r, scaled_count_le; [exact Hd|vm_compute; discriminate]. }
      rewrite (count_pts_capped s 15 3 1).
      2: lia.
      2: { apply Qle_trans with (3 + 1 * inject_Z (Z.of_nat 13)).
           - vm_compute. discriminate.
           - apply Qplus_le_r, scaled_count_le; [exact Hs|vm_compute; discriminate]. }
      destruct r as [|r]; [lia|]. cbn [Nat.eqb negb].
      destruct (truthy (get p "years_of_experience")); vm_compute; reflexivity. }
    split; [|exact S].
    unfold finalPercentage. rewrite (round_compat _ _ S).
    destruct (truthy (get p "years_of_experience")); vm_compute; reflexivity.
Qed.

(** The two boundaries of C7 on concrete profiles: nothing stored, and
    everything stored by someone with nine years of experience. *)
Lemma C7_boundary_scores_witness :
  finalPercentage [] (counts_row 0 0 0 0) = 0%Z
  /\ finalPercentage Sample.complete_senior (counts_row 5 3 13 1) = 100%Z
  /\ completionPercentage Sample.complete_senior (counts_row 5 3 13 1) == 110.
Proof.
  assert (Hp : all_fields_populated Sample.complete_senior).
  { split.
    - intros k Hk. cbn in Hk.
      repeat (destruct Hk as [<-|Hk];
              [cbn; eexists; split; [reflexivity|discriminate]|]).
      contradiction.
    - eexists; reflexivity. }
  assert (He : all_fields_empty []).
  { intros k _. reflexivity. }
  destruct (C7_boundary_scores [] 0 0 0 0) as [H0 _].
  destruct (C7_boundary_scores Sample.complete_senior 5 3 13 1) as [_ H1].
  split; [exact (H0 He)|].
  exact (H1 Hp (le_n 5) (le_n 3) (le_n 13) (le_n 1)).
Defined.

(** C7 as stated fails in its parenthesis: someone with every field
    filled in, zero years of experience, 5 experience entries, 3
    education entries, 13 skills and a resume has a total of 105 before
    clamping, not 110; the score is 100 all the same. *)
Lemma C7_zero_years_total_is_105 :
  all_fields_populated Sample.complete_graduate
  /\ get Sample.complete_graduate "years_of_experience" = JNum 0
  /\ completionPercentage Sample.complete_graduate (counts_row 5 3 13 1) == 105
  /\ ~ completionPercentage Sample.complete_graduate (counts_row 5 3 13 1) == 110
  /\ finalPercentage Sample.complete_graduate (counts_row 5 3 13 1) = 100%Z.
Proof.
  split.
  - split.
    + intros k Hk. cbn in Hk.
      repeat (destruct Hk as [<-|Hk];
              [cbn; eexists; split; [reflexivity|discriminate]|]).
      contradiction.
    + eexists; reflexivity.
  - split; [vm_compute; reflexivity|].
    split; [vm_compute; reflexivity|].
    split; [vm_compute; discriminate|vm_compute; reflexivity].
Qed.

End ScorerClaims.

(** ** Paths *)

Module PathFacts.

Lemma append_nil_r (s : string) : (s ++ "")%string = s.
Proof. induction s; cbn [String.append]; congruence. Qed.

Lemma append_assoc (a b c : string) : ((a ++ b) ++ c = a ++ (b ++ c))%string.
Proof. induction a; cbn [String.append]; congruence. Qed.




Lemma filter_other (p q : string) (l : list string) :
  q <> p -> (In q (filter (fun x => negb (same_path p x)) l) <-> In q l).
Proof.
  intros Hq. rewrite filter_In. split; [tauto|]. intros H; split; [exact H|].
  unfold same_path. destruct (String.eqb_spec p q); [congruence|reflexivity].
Qed.

Lemma filter_self (p : string) (l : list string) :
  ~ In p (filter (fun x => negb (same_path p x)) l).
Proof.
  rewrite filter_In. unfold same_path. rewrite String.eqb_refl. cbn.
  intros [_ H]; discriminate.
Qed.

Lemma existsb_absent (p : string) (l : list string) :
  existsb (same_path p) l = false -> ~ In p l.
Proof.
  intros H Hin. assert (X : existsb (same_path p) l = true).
  { apply existsb_exists. exists p. split; [exact Hin|apply String.eqb_refl]. }
  congruence.
Qed.

End PathFacts.
Import PathFacts.

(** ** Running the handlers symbolically *)

Arguments same_path : simpl never.
Arguments in_uploads : simpl never.
Arguments under_root : simpl never.
Arguments basename : simpl never.
Arguments String.append : simpl never.
Arguments math_round : simpl never.
Arguments Scorer.finalPercentage : simpl never.
Arguments counts_of : simpl never.
Arguments on_rows : simpl never.
Arguments keep_rows : simpl never.
Arguments count_of : simpl never.

Lemma skipn_exact {A : Type} (l l' : list A) :
  skipn (List.length l) (l ++ l') = l'.
Proof. induction l; cbn; auto. Qed.

Lemma since_app (w w' : world) (evs : list event) :
  log w' = log w ++ evs -> since w w' = evs.
Proof. intros H. unfold since. rewrite H. apply skipn_exact. Qed.

(** Unfold the monad, then decide one after the other what the
    environment and the stored rows leave open. *)
Ltac open_monad H :=
  cbv beta delta [try_catch finally bind ret throw release query
                  unlink_quietly existsSync unlinkSync] in H.

Ltac simp_world H :=
  cbn beta iota zeta delta
      [committed tx files log tick fst snd in_tx step working aborted abort
       option_map negb Nat.eqb List.length placeholders exec obind as_int
       as_text as_bool param nth pred rows rowCount selected updated map
       user file body url_param andb orb get String.eqb Ascii.eqb Bool.eqb
       document_object first_row sql_value insert_values update_values
       app] in H.

Ltac split_on H :=
  match type of H with
  | context [fault ?E ?n ?s] => destruct (fault E n s) eqn:?
  | context [unlink_fault ?E ?n ?p] => destruct (unlink_fault E n p) eqn:?
  | context [match tx ?w with _ => _ end] =>
      destruct (tx w) as [[? []]|] eqn:?
  | context [match filter ?f ?l with _ => _ end] => destruct (filter f l) eqn:?
  | context [match map ?g (filter ?f ?l) with _ => _ end] =>
      destruct (filter f l) eqn:?
  | context [existsb ?f ?l] => destruct (existsb f l) eqn:?
  | context [all_readable ?ks ?vs] => destruct (all_readable ks vs) eqn:?
  end.

Ltac crunch H :=
  open_monad H; simp_world H; repeat (split_on H; simp_world H).

(** Close a run: the final world is now explicit. *)
Ltac land H :=
  inversion H; subst; clear H;
  cbn [committed tx files log tick user_documents seq_documents
       user_profiles with_profiles with_documents];
  rewrite <- ?app_assoc; cbn [app].

Ltac in_log :=
  repeat match goal with
         | H : In _ (_ :: _) |- _ => destruct H as [H|H]
         | H : In _ [] |- _ => destruct H
         | H : False |- _ => destruct H
         | H : _ \/ _ |- _ => destruct H as [H|H]
         | H : @eq event _ _ |- _ =>
             first [discriminate H | inversion H; subst; try clear H]
         end.

Ltac use_tx H :=
  match type of H with
  | context [tx ?w] => match goal with Hx : tx w = _ |- _ => rewrite Hx in H end
  end.

Ltac step_run H :=
  simp_world H; repeat ((use_tx H || split_on H); simp_world H).

Ltac split_truthy H :=
  match type of H with
  | context [truthy ?v] => destruct (truthy v) eqn:?
  end.

Section Recomputation.

Variable E : env.

(** Whatever fails, the recomputation only issues statements on its
    runner, leaves the files and the documents alone, and opens no
    transaction. *)
Lemma score_shape (uid : Z) (c : option runner) (w : world) o w' :
  updateProfileCompletion E uid c w = (o, w') ->
  exists evs,
    log w' = log w ++ evs
    /\ Forall (fun ev => exists s ps ok,
                   ev = EvQuery (match c with Some r => r | None => Pool end)
                                (in_tx (match c with Some r => r | None => Pool end) w)
                                s ps ok) evs
    /\ files w' = files w
    /\ user_documents (committed w') = user_documents (committed w)
    /\ seq_documents (committed w') = seq_documents (committed w)
    /\ (tx w = None -> tx w' = None).
Proof.
  intros H. unfold updateProfileCompletion in H.
  destruct c as [[|]|]; crunch H; land H.
  all: eexists; split; [reflexivity|].
  all: unfold in_tx;
    repeat match goal with H : tx _ = _ |- _ => rewrite H end.
  all: repeat split; try congruence.
  all: repeat constructor; eauto.
Qed.

End Recomputation.

Lemma since_nil (w : world) : since w w = [].
Proof.
  unfold since. rewrite <- (app_nil_r (log w)) at 2. apply skipn_exact.
Qed.

Lemma queries_no_unlink (r : runner) (it : bool) (evs : list event) p ok :
  Forall (fun ev => exists s ps ok, ev = EvQuery r it s ps ok) evs ->
  ~ In (EvUnlink p ok) evs.
Proof.
  intros Hall Hin. rewrite Forall_forall in Hall.
  destruct (Hall _ Hin) as (s & ps & ok' & Heq). discriminate.
Qed.

Lemma on_rows_app_new (uid id : Z) (f : upload) (ds : list document_row) :
  on_rows (other_resumes uid id) clear_default (ds ++ [new_resume uid f id])
  = on_rows (other_resumes uid id) clear_default ds ++ [new_resume uid f id].
Proof.
  unfold on_rows. rewrite map_app. cbn [map]. f_equal.
  unfold other_resumes. cbn [d_id new_resume]. rewrite Z.eqb_refl.
  now rewrite andb_false_r.
Qed.

Lemma round_kb (s : Z) : math_round (inject_Z s / 1024) = (s + 512) / 1024.
Proof.
  rewrite (Zdiv_Qdiv (s + 512) 1024). unfold math_round.
  apply Qfloor_comp. rewrite inject_Z_plus.
  change (inject_Z 1024) with 1024%Q. change (inject_Z 512) with 512%Q.
  field.
Qed.

(** Stop at the recomputation and take what [score_shape] says of it. *)
Ltac split_score H :=
  match type of H with
  | context [updateProfileCompletion ?E ?u ?c ?w1] =>
      let o1 := fresh "o" in
      let w5 := fresh "w" in
      let Hs := fresh "Hs" in
      destruct (updateProfileCompletion E u c w1) as [o1 w5] eqn:Hs;
      destruct (score_shape E u c w1 o1 w5 Hs)
        as (?evs & ?Hlog & ?Hall & ?Hfiles & ?Hdocs & ?Hseq & ?Htx);
      cbn [log files committed tx user_documents seq_documents with_documents] in *;
      destruct o1
  end.

(** ** The profile update, whatever the environment does

    The bind array of the profile UPDATE has eleven values for twelve
    placeholders, so the statement is always rejected: the handler never
    reaches the removal of the old image, the recomputation or COMMIT. *)

Section ProfileUpdate.

Variable E : env.

Lemma updateProfile_run (req : request) (w : world) o w' :
  tx w = None ->
  updateProfile E req w = (o, w') ->
  committed w' = committed w
  /\ tx w' = None
  /\ (exists rep, o = Ok rep
                  /\ (authenticated req <> None -> exists e, rep = Next e))
  /\ (exists evs,
        log w' = log w ++ evs
        /\ (forall r it s ps ok, In (EvQuery r it s ps ok) evs ->
                                 s <> Commit /\ s <> SelectCounts)
        /\ (forall p ok, In (EvUnlink p ok) evs -> new_image_path req = Some p)
        /\ (cleanup_reliable E -> image_selected evs ->
            forall p, new_image_path req = Some p -> ~ In p (files w'))
        /\ (~ image_selected evs -> files w' = files w))
  /\ (forall q, new_image_path req <> Some q -> (In q (files w') <-> In q (files w))).
Proof.
  intros Htx H.
  unfold updateProfile, afterProfileUpdate, undoProfileUpdate, authenticated,
    new_image_path, cleanup_reliable, image_selected in *.
  destruct (user req) as [uid|]; [destruct (uid =? 0) eqn:Hz|].
  all: destruct (file req) as [f|].
  all: open_monad H; step_run H.
  all: repeat (split_truthy H; step_run H).
  all: land H.
  all: split; [reflexivity|]; split; [first [reflexivity|assumption]|].
  all: split; [eexists; split; [reflexivity|]; intros; eauto; congruence|].
  all: split; [|intros ? Hq; try reflexivity; apply filter_other; congruence].
  all: eexists; split; [symmetry; try apply app_nil_r; reflexivity|].
  all: split; [intros ? ? ? ? ? Hin; cbn [In] in Hin; in_log; split; discriminate|].
  all: split; [intros ? ? Hin; cbn [In] in Hin; in_log; reflexivity|].
  all: split; [|intros Hno; try reflexivity; exfalso; apply Hno; eexists;
                 cbn [In]; eauto 8].
  all: intros [HR HU] [ps Hsel] ? Hp; cbn [In] in Hsel; in_log.
  all: try (rewrite HR in *; discriminate).
  all: try (rewrite HU in *; discriminate).
  all: inversion Hp; subst; clear Hp.
  all: first [apply filter_self | apply existsb_absent; assumption].
Qed.

End ProfileUpdate.






(** C9, evaluated where it fails.  A profile update without an image
    computes a null image URL and sends it as the eleventh bind value,
    but the statement has twelve placeholders: it is rejected, the
    transaction is rolled back, and the stored image URL is unchanged. *)
Theorem C9_update_without_image_is_rolled_back :
  fst (updateProfile Sample.calm
         (Sample.with_body [("job_title", JStr "Developer")]) Sample.w0)
  = Ok (Next DbError)
  /\ committed (snd (updateProfile Sample.calm
                       (Sample.with_body [("job_title", JStr "Developer")]) Sample.w0))
     = Sample.db0
  /\ map profile_image_url (user_profiles Sample.db0) = [JStr "/uploads/old.png"]
  /\ log (snd (updateProfile Sample.calm
                 (Sample.with_body [("job_title", JStr "Developer")]) Sample.w0))
     = [ EvQuery Client false Begin [] true;
         EvQuery Client true UpdateProfileFields
           [ JStr "Developer"; JUndefined; JUndefined; JUndefined; JUndefined;
             JUndefined; JUndefined; JUndefined; JUndefined; JUndefined; JNull ]
           false;
         EvQuery Client true Rollback [] true ]
  /\ placeholders UpdateProfileFields = 12%nat.
Proof. repeat split; vm_compute; reflexivity. Qed.

(** ** Recomputation on a transaction client *)

Section ClientRecomputation.

(** C10 (as amended).  When [updateProfileCompletion] is given a
    transaction client, it never re-throws and issues no ROLLBACK or
    COMMIT; if one of its statements fails, every table, the completion
    score included, keeps its previous value, in the committed state and
    in the working copy of the transaction, and an open transaction is
    left aborted. *)
Theorem C10_recomputation_error_is_swallowed
        (E : env) (uid : Z) (w : world) o w' :
  updateProfileCompletion E uid (Some Client) w = (o, w') ->
  o = Ok tt
  /\ (forall r it s ps ok, In (EvQuery r it s ps ok) (since w w') ->
                           s <> Rollback /\ s <> Commit)
  /\ ((exists r it s ps, In (EvQuery r it s ps false) (since w w')) ->
      committed w' = committed w
      /\ option_map working (tx w') = option_map working (tx w)
      /\ (tx w <> None -> option_map aborted (tx w') = Some true)).
Proof.
  intros H. unfold updateProfileCompletion in H.
  destruct (tx w) as [[wk [|]]|] eqn:Htx; open_monad H; step_run H; land H.
  all: unfold since; cbn [log]; rewrite ?skipn_exact;
    try (replace (skipn (List.length (log w)) (log w)) with (@nil event)
          by (symmetry; rewrite <- (app_nil_r (log w)) at 2; apply skipn_exact)).
  all: split; [reflexivity|].
  all: split; [intros ? ? ? ? ? Hin; in_log; split; discriminate|].
  all: intros (r0 & it0 & s0 & ps0 & Hin); in_log.
  all: cbn [option_map working aborted].
  all: repeat split; try reflexivity; try congruence.
Qed.

Lemma C10_recomputation_error_is_swallowed_witness :
  fst (updateProfileCompletion (Sample.failing_at 0) 7 (Some Client) Sample.w_open) = Ok tt
  /\ committed (snd (updateProfileCompletion (Sample.failing_at 0) 7 (Some Client)
                                            Sample.w_open)) = Sample.db0
  /\ option_map aborted
       (tx (snd (updateProfileCompletion (Sample.failing_at 0) 7 (Some Client)
                                         Sample.w_open))) = Some true.
Proof.
  destruct (C10_recomputation_error_is_swallowed
              (Sample.failing_at 0) 7 Sample.w_open
              (fst (updateProfileCompletion (Sample.failing_at 0) 7 (Some Client)
                                            Sample.w_open))
              (snd (updateProfileCompletion (Sample.failing_at 0) 7 (Some Client)
                                            Sample.w_open)))
    as (Hok & _ & Hkeep).
  - vm_compute. reflexivity.
  - split; [exact Hok|].
    destruct Hkeep as (Hc & _ & Ha).
    + exists Client, true, SelectCounts, [JNum 7]. vm_compute. tauto.
    + split; [exact Hc|]. apply Ha. vm_compute. discriminate.
Defined.

(** C10 as stated fails.  In a transaction that changes the job title,
    recomputes the score on its client and commits, a failing counting
    query is swallowed and COMMIT is accepted, yet the committed profile
    does not have the new job title; without the failure it does. *)
Lemma C10_failed_recomputation_loses_the_update :
  fst (Sample.transaction_with_recomputation (Sample.failing_at 2) Sample.w0)
  = Ok (selected [])
  /\ log (snd (Sample.transaction_with_recomputation (Sample.failing_at 2) Sample.w0))
     = [ EvQuery Client false Begin [] true;
         EvQuery Client true UpdateProfileFields Sample.twelve_values true;
         EvQuery Client true SelectCounts [JNum 7] false;
         EvQuery Client true Commit [] true ]
  /\ map job_title
         (user_profiles
            (committed (snd (Sample.transaction_with_recomputation
                               (Sample.failing_at 2) Sample.w0))))
     = [JNull]
  /\ map job_title
         (user_profiles
            (committed (snd (Sample.transaction_with_recomputation
                               Sample.calm Sample.w0))))
     = [JStr "Developer"].
Proof. repeat split; vm_compute; reflexivity. Qed.

End ClientRecomputation.

(** ** The resume upload, whatever the environment does *)

Section ResumeUpload.

Variable E : env.

(** Either nothing was committed, and then the upload is undone as far
    as ROLLBACK and the file removal go; or the new row was committed as
    the only default of its owner. *)
Lemma uploadResume_run (uid : Z) (f : upload) (req : request) (w : world) o w' :
  user req = Some uid -> uid <> 0 -> file req = Some f -> tx w = None ->
  uploadResume E req w = (o, w') ->
  tx w' = None
  /\ ((committed w' = committed w
       /\ ~ committed_in (since w w')
       /\ (exists e, o = Ok (Next e))
       /\ (forall q, q <> in_uploads (filename f) ->
                     (In q (files w') <-> In q (files w)))
       /\ (cleanup_reliable E -> ~ In (in_uploads (filename f)) (files w')))
      \/ (committed_in (since w w')
          /\ user_documents (committed w')
             = on_rows (other_resumes uid (seq_documents (committed w)))
                       clear_default (user_documents (committed w))
               ++ [new_resume uid f (seq_documents (committed w))]
          /\ seq_documents (committed w') = seq_documents (committed w) + 1
          /\ ((o = Ok (Json 201 [document_object
                                   (new_resume uid f (seq_documents (committed w)))])
               /\ files w' = files w
               /\ forall p ok, ~ In (EvUnlink p ok) (since w w'))
              \/ exists e, o = Ok (Next e)))).
Proof.
  intros Hu Hz Hf Htx H. unfold uploadResume, authenticated in H.
  rewrite Hu, Hf in H. destruct (uid =? 0) eqn:Hz0; [lia|].
  open_monad H. step_run H.
  all: try (split_score H; step_run H).
  all: land H.
  all: repeat match goal with Hx : log _ = _ |- _ => rewrite Hx; clear Hx end.
  all: repeat match goal with Hx : files _ = _ |- _ => rewrite Hx in *; clear Hx end.
  all: unfold since; cbn [log]; rewrite <- ?app_assoc; rewrite ?skipn_exact; cbn [app].
  all: split; [auto|].
  all: first
    [ left;
      split; [reflexivity|];
      split; [intros Hin; unfold committed_in in Hin; in_log|];
      split; [eexists; reflexivity|];
      split; [intros q Hq; first [reflexivity | apply filter_other; exact Hq]|];
      unfold cleanup_reliable; intros [HR HU];
      try (rewrite HR in *; discriminate);
      try (rewrite HU in *; discriminate);
      first [apply filter_self | apply existsb_absent; assumption]
    | right;
      split; [unfold committed_in; cbn [In]; tauto|];
      split; [rewrite ?Hdocs; apply on_rows_app_new|];
      split; [rewrite ?Hseq; reflexivity|];
      first [ right; eexists; reflexivity
            | left; split; [reflexivity|]; split; [reflexivity|];
              intros p ok Hin; cbn [In] in Hin;
              repeat (destruct Hin as [Hin|Hin]; [discriminate Hin|]);
              exact (queries_no_unlink _ _ _ _ _ Hall Hin) ] ].
Qed.

End ResumeUpload.

(** ** Claims about failed and successful uploads *)

Section UploadClaims.




(** C8 (as amended).  The size recorded for an uploaded resume is the
    file's size in kilobytes, rounded to the nearest integer:
    [Math.round(size / 1024)], that is the integer quotient of
    [size + 512] by 1024. *)
Theorem C8_recorded_size_is_rounded_kilobytes
        (E : env) (uid : Z) (f : upload) (req : request) (w : world) o w' data :
  user req = Some uid -> uid <> 0 -> file req = Some f -> tx w = None ->
  uploadResume E req w = (o, w') ->
  o = Ok (Json 201 data) ->
  exists d,
    In d (user_documents (committed w'))
    /\ data = [document_object d]
    /\ file_name d = originalname f
    /\ file_size_kb d = math_round (inject_Z (size f) / 1024)
    /\ file_size_kb d = (size f + 512) / 1024.
Proof.
  intros Hu Hz Hf Htx H Ho.
  destruct (uploadResume_run E uid f req w o w' Hu Hz Hf Htx H)
    as [_ [(_ & _ & (e & He) & _) | (_ & Hdocs & _ & [(Hrep & _) | (e & He)])]];
    try congruence.
  exists (new_resume uid f (seq_documents (committed w))).
  split; [rewrite Hdocs; apply in_or_app; right; left; reflexivity|].
  split; [congruence|].
  split; [reflexivity|].
  split; [reflexivity|].
  cbn [file_size_kb new_resume]. apply round_kb.
Qed.

Lemma C8_recorded_size_is_rounded_kilobytes_witness :
  exists d,
    In d (user_documents
            (committed (snd (uploadResume Sample.calm (Sample.with_file Sample.r2)
                                          Sample.w0))))
    /\ file_size_kb d = (1535 + 512) / 1024.
Proof.
  destruct (C8_recorded_size_is_rounded_kilobytes
              Sample.calm 7 Sample.r2 (Sample.with_file Sample.r2) Sample.w0
              (fst (uploadResume Sample.calm (Sample.with_file Sample.r2) Sample.w0))
              (snd (uploadResume Sample.calm (Sample.with_file Sample.r2) Sample.w0))
              [document_object (new_resume 7 Sample.r2 1)])
    as (d & Hin & _ & _ & _ & Hsize).
  - reflexivity.
  - lia.
  - reflexivity.
  - reflexivity.
  - vm_compute. reflexivity.
  - vm_compute. reflexivity.
  - exists d. split; [exact Hin|exact Hsize].
Defined.

(** C8 as stated fails: a file of 2048 bytes is recorded with size 2. *)
Lemma C8_size_is_not_in_bytes :
  size Sample.r1 = 2048
  /\ map file_size_kb
         (user_documents
            (committed (snd (uploadResume Sample.calm (Sample.with_file Sample.r1)
                                          Sample.w0))))
     = [2]
  /\ 2 <> size Sample.r1.
Proof.
  split; [reflexivity|]. split; [vm_compute; reflexivity|].
  vm_compute. discriminate.
Qed.

End UploadClaims.

(** ** Recomputation when nothing fails *)

Lemma filter_on_rows_head (uid : Z) (v : jsval) (ps : list profile_row) p0 rest :
  filter (fun p => up_user_id p =? uid) ps = p0 :: rest ->
  exists rest',
    filter (fun p => up_user_id p =? uid)
           (on_rows (fun p => up_user_id p =? uid) (set_completion v) ps)
    = set_completion v p0 :: rest'.
Proof.
  unfold on_rows. induction ps as [|p ps IH]; cbn [filter map]; [discriminate|].
  destruct (up_user_id p =? uid) eqn:Hp.
  - intros H. inversion H; subst. cbn [up_user_id set_completion]. rewrite Hp.
    eexists; reflexivity.
  - rewrite Hp. exact IH.
Qed.

Lemma rescored_current (uid : Z) (db : tables) : score_current uid (rescored uid db).
Proof.
  unfold score_current, rescored.
  destruct (filter (fun p => up_user_id p =? uid) (user_profiles db)) as [|p0 rest] eqn:Hf.
  - now rewrite Hf.
  - cbn [user_profiles with_profiles].
    destruct (filter_on_rows_head uid
                (JNum (Scorer.finalPercentage (score_columns p0) (counts_of uid db)))
                _ _ _ Hf) as [rest' ->].
    intros p Hin Hu. unfold on_rows in Hin. apply in_map_iff in Hin.
    destruct Hin as (q & Hq & Hqin).
    destruct (up_user_id q =? uid) eqn:Hqu.
    + subst p. reflexivity.
    + subst p. apply Z.eqb_neq in Hqu. contradiction.
Qed.

Ltac use_quiet HQ H :=
  match type of H with
  | context [fault ?E ?n ?s] =>
      first [rewrite (proj1 HQ n s) in H | rewrite (HQ n s) in H]
  | context [unlink_fault ?E ?n ?p] => rewrite (proj2 HQ n p) in H
  end.

Ltac step_quiet HQ H :=
  simp_world H; repeat ((use_quiet HQ H || use_tx H || split_on H); simp_world H).

Lemma score_quiet (E : env) (uid : Z) (w : world) :
  no_statement_fault E -> tx w = None ->
  exists w',
    updateProfileCompletion E uid None w = (Ok tt, w')
    /\ committed w' = rescored uid (committed w)
    /\ tx w' = None
    /\ files w' = files w
    /\ log w' = log w ++ score_events uid (committed w).
Proof.
  intros HQ Htx.
  destruct (updateProfileCompletion E uid None w) as [o w'] eqn:H.
  exists w'. unfold updateProfileCompletion in H.
  open_monad H. step_quiet HQ H.
  all: land H.
  all: unfold rescored, score_events;
    repeat match goal with Hx : filter _ _ = _ |- _ => rewrite Hx end.
  all: repeat split; try reflexivity; try assumption.
Qed.

Arguments score_events : simpl never.
Arguments rescored : simpl never.
Arguments is_false : simpl never.
Arguments is_true : simpl never.
Arguments is_null : simpl never.
Arguments is_undefined : simpl never.
Arguments coalesce : simpl never.
Arguments truthy : simpl never.

Ltac split_score_quiet HQ H :=
  match type of H with
  | context [updateProfileCompletion ?E ?u None ?w1] =>
      let Htx1 := fresh "Htx" in
      assert (Htx1 : tx w1 = None) by (cbn [tx]; first [reflexivity|assumption]);
      let w5 := fresh "w" in
      let HS := fresh "HS" in
      first [ pose proof (score_quiet E u w1 HQ Htx1) as HS
            | pose proof (score_quiet E u w1 (proj1 HQ) Htx1) as HS ];
      destruct HS as (w5 & ?Hrun & ?Hc & ?Htx & ?Hf & ?Hl);
      match goal with Hr : updateProfileCompletion E u None w1 = _ |- _ =>
        rewrite Hr in H; clear Hr end;
      clear Htx1;
      cbn [committed tx files log] in *
  end.

Ltac split_data H :=
  match type of H with
  | context [parseInt ?E ?v] => destruct (parseInt E v) eqn:?
  | context [date_is_nan ?E ?v] => destruct (date_is_nan E v) eqn:?
  | context [truthy ?v] => destruct (truthy v) eqn:?
  | context [is_false ?v] => destruct (is_false v) eqn:?
  | context [is_true ?v] => destruct (is_true v) eqn:?
  | context [is_null ?v] => destruct (is_null v) eqn:?
  | context [is_undefined ?v] => destruct (is_undefined v) eqn:?
  | context [Nat.eqb (count_of ?f ?l) 0] => destruct (Nat.eqb (count_of f l) 0) eqn:?
  | context [match count_of ?f ?l with _ => _ end] => destruct (count_of f l) eqn:?
  end.

Ltac run_quiet HQ H :=
  open_monad H; step_quiet HQ H;
  repeat ((split_data H || split_score_quiet HQ H); step_quiet HQ H).

Ltac calc_since :=
  rewrite ?since_nil;
  unfold since; cbn [log];
  repeat match goal with Hx : log _ = _ |- _ => rewrite Hx; clear Hx end;
  rewrite <- ?app_assoc; rewrite ?skipn_exact; cbn [app].

Lemma score_events_on_pool (uid : Z) (db : tables) r it ps ok :
  In (EvQuery r it SelectCounts ps ok) (score_events uid db) -> r = Pool /\ it = false.
Proof.
  unfold score_events. intros H. apply in_app_or in H. destruct H as [H|H].
  - in_log. split; reflexivity.
  - destruct (filter _ _); in_log.
Qed.

Lemma keep_all {A : Type} (sel : A -> bool) (l : list A) :
  Nat.eqb (count_of sel l) 0 = true -> keep_rows sel l = l.
Proof.
  unfold count_of, keep_rows. induction l as [|a l IH]; cbn [filter]; [reflexivity|].
  destruct (sel a); cbn [negb List.length Nat.eqb]; [discriminate|].
  intros H. now rewrite (IH H).
Qed.

Lemma delete_no_document (sel : document_row -> bool) (db : tables) :
  Nat.eqb (count_of sel (user_documents db)) 0 = true ->
  with_documents db (keep_rows sel (user_documents db)) (seq_documents db) = db.
Proof. intros H. rewrite (keep_all _ _ H). now destruct db. Qed.

Lemma delete_no_skill (sel : user_skill_row -> bool) (db : tables) :
  Nat.eqb (count_of sel (user_skills db)) 0 = true ->
  with_user_skills db (keep_rows sel (user_skills db)) (seq_user_skills db) = db.
Proof. intros H. rewrite (keep_all _ _ H). now destruct db. Qed.

Lemma delete_no_entry (t : entry_table) (sel : entry_row -> bool) (db : tables) :
  Nat.eqb (count_of sel (entries t db)) 0 = true ->
  with_entries t db (keep_rows sel (entries t db)) (seq_entries t db) = db.
Proof. intros H. rewrite (keep_all _ _ H). now destruct t, db. Qed.

Ltac finish_quiet :=
  split; [cbn [tx]; first [reflexivity | assumption]|];
  split; [first [ left; reflexivity
                | left; apply delete_no_document; assumption
                | left; apply delete_no_skill; assumption
                | left; apply (delete_no_entry Experiences); assumption
                | left; apply (delete_no_entry Educations); assumption
                | right; eexists; eassumption ]|];
  calc_since; intros r0 it0 ps0 ok0 Hin;
  repeat (cbn [In app] in Hin;
          match type of Hin with
          | _ \/ _ =>
              destruct Hin as [Hin|Hin];
              [first [discriminate Hin | inversion Hin; subst; split; reflexivity]|]
          | False => destruct Hin
          | In _ (score_events _ _) =>
              exact (score_events_on_pool _ _ _ _ _ _ Hin)
          end).

Lemma handle_quiet (E : env) (r : route) (req : request) (uid : Z) (w : world) o w' :
  no_statement_fault E -> authenticated req = Some uid -> tx w = None ->
  handle E r req w = (o, w') ->
  tx w' = None
  /\ (committed w' = committed w \/ exists db, committed w' = rescored uid db)
  /\ counts_read_on_pool (since w w').
Proof.
  intros HQ Ha Htx H.
  destruct r; cbn [handle] in H.
  - destruct (updateProfile_run E req w o w' Htx H)
      as (Hc & Htx' & _ & (evs & Hlog & Hq & _) & _).
    split; [exact Htx'|]. split; [left; exact Hc|].
    rewrite (since_app _ _ _ Hlog). intros r it ps ok Hin.
    destruct (Hq _ _ _ _ _ Hin) as [_ Hn]. congruence.
  - unfold uploadResume in H. rewrite Ha in H.
    destruct (file req) as [f|]; run_quiet HQ H; land H; finish_quiet.
  - unfold deleteResume in H. rewrite Ha in H.
    run_quiet HQ H; land H; finish_quiet.
  - unfold addSkill in H. rewrite Ha in H.
    run_quiet HQ H; land H; finish_quiet.
  - unfold removeSkill in H. rewrite Ha in H.
    run_quiet HQ H; land H; finish_quiet.
  - unfold addExperience, addEntry in H. rewrite Ha in H.
    run_quiet HQ H; land H; finish_quiet.
  - unfold updateExperience, updateEntry in H. rewrite Ha in H.
    run_quiet HQ H; land H; finish_quiet.
  - unfold deleteExperience, deleteEntry in H. rewrite Ha in H.
    run_quiet HQ H; land H; finish_quiet.
  - unfold addEducation, addEntry in H. rewrite Ha in H.
    run_quiet HQ H; land H; finish_quiet.
  - unfold updateEducation, updateEntry in H. rewrite Ha in H.
    run_quiet HQ H; land H; finish_quiet.
  - unfold deleteEducation, deleteEntry in H. rewrite Ha in H.
    run_quiet HQ H; land H; finish_quiet.
Qed.

Lemma rescored_documents (uid : Z) (db : tables) :
  user_documents (rescored uid db) = user_documents db
  /\ seq_documents (rescored uid db) = seq_documents db.
Proof.
  unfold rescored.
  destruct (filter (fun p => up_user_id p =? uid) (user_profiles db));
    split; reflexivity.
Qed.

(** ** Claims about the recomputation after a mutation *)

Section FreshnessClaims.

(** C3 (as amended).  Take one mutating request, run from a state with
    no transaction open and with no other request between its
    statements, in which no statement is made to fail on its way (a file
    removal may fail: its error is only logged).  The request leaves the
    committed tables either as they were or with the stored completion
    score equal to the scorer's output on them; and the recomputation
    reads its counts on the pool, outside any transaction, after the
    mutation has been committed. *)
Theorem C3_score_recomputed_on_pool_after_mutation
        (E : env) (r : route) (req : request) (uid : Z) (w : world) o w' :
  no_statement_fault E ->
  authenticated req = Some uid ->
  tx w = None ->
  handle E r req w = (o, w') ->
  (committed w' = committed w \/ score_current uid (committed w'))
  /\ counts_read_on_pool (since w w').
Proof.
  intros HQ Ha Htx H.
  destruct (handle_quiet E r req uid w o w' HQ Ha Htx H) as (_ & Hc & Hp).
  split; [|exact Hp].
  destruct Hc as [Hc | [db Hc]]; [left; exact Hc|right].
  rewrite Hc. apply rescored_current.
Qed.

Lemma C3_score_recomputed_on_pool_after_mutation_witness :
  score_current 7
    (committed (snd (handle Sample.calm PostResume (Sample.with_file Sample.r1)
                            Sample.w0)))
  /\ counts_read_on_pool
       (since Sample.w0
              (snd (handle Sample.calm PostResume (Sample.with_file Sample.r1)
                           Sample.w0))).
Proof.
  destruct (C3_score_recomputed_on_pool_after_mutation
              Sample.calm PostResume (Sample.with_file Sample.r1) 7 Sample.w0
              (fst (handle Sample.calm PostResume (Sample.with_file Sample.r1) Sample.w0))
              (snd (handle Sample.calm PostResume (Sample.with_file Sample.r1) Sample.w0)))
    as [[Hc | Hc] Hp].
  - intros n s; reflexivity.
  - reflexivity.
  - reflexivity.
  - vm_compute. reflexivity.
  - vm_compute in Hc. discriminate Hc.
  - split; assumption.
Defined.

(** C3 as stated fails.  The counts are read on the pool after COMMIT,
    not inside the transaction of the upload; when the recomputation
    itself fails the committed resume stays while the stored score keeps
    its old value; and when a deletion and an upload of the same user
    overlap, the deletion can read its counts before the upload commits
    and write its score after the upload has written its own: both
    requests succeed, one resume is stored, and the stored score is the
    one for no resume. *)
Lemma C3_counts_are_read_after_commit :
  since Sample.w0 (snd (uploadResume Sample.calm (Sample.with_file Sample.r1) Sample.w0))
  = upload_events 7 Sample.r1 1
    ++ [ EvQuery Pool false SelectCounts [JNum 7] true;
         EvQuery Pool false SelectProfileForScore [JNum 7] true;
         EvQuery Pool false UpdateCompletion [JNum 15; JNum 7] true ]
  /\ ~ counts_read_in_transaction
        (since Sample.w0
               (snd (uploadResume Sample.calm (Sample.with_file Sample.r1) Sample.w0)))
  /\ List.length
       (user_documents
          (committed (snd (uploadResume (Sample.failing_at 4)
                                        (Sample.with_file Sample.r1) Sample.w0))))
     = 1%nat
  /\ map profile_completion
         (user_profiles
            (committed (snd (uploadResume (Sample.failing_at 4)
                                          (Sample.with_file Sample.r1) Sample.w0))))
     = [JNum 5]
  /\ ~ score_current 7
        (committed (snd (uploadResume (Sample.failing_at 4)
                                      (Sample.with_file Sample.r1) Sample.w0)))
  /\ option_map Overlap.replies
                (Overlap.play Sample.calm Overlap.score_overtaken
                              Overlap.delete_and_upload)
     = Some [ Some (Ok (Json 200 []));
              Some (Ok (Json 201 [document_object (new_resume 7 Sample.r2 2)])) ]
  /\ exists db,
       Overlap.outcome_of Overlap.score_overtaken Overlap.delete_and_upload = Some db
       /\ user_documents db = [new_resume 7 Sample.r2 2]
       /\ map profile_completion (user_profiles db) = [JNum 5]
       /\ ~ score_current 7 db.
Proof.
  split; [vm_compute; reflexivity|].
  split.
  { intros H. destruct (H Pool false [JNum 7] true) as [Hr _]; [|discriminate Hr].
    vm_compute. tauto. }
  split; [vm_compute; reflexivity|].
  split; [vm_compute; reflexivity|].
  split.
  { intros H. unfold score_current in H.
    specialize (H Sample.ada_profile).
    vm_compute in H. specialize (H (or_introl eq_refl) eq_refl). discriminate H. }
  split; [vm_compute; reflexivity|].
  eexists. split; [vm_compute; reflexivity|].
  split; [reflexivity|]. split; [reflexivity|].
  intros H. unfold score_current in H.
  specialize (H Sample.ada_profile).
  vm_compute in H. specialize (H (or_introl eq_refl) eq_refl). discriminate H.
Qed.

End FreshnessClaims.

(** ** Two uploads in a row *)

Lemma uploadResume_quiet (E : env) (uid : Z) (f : upload) (req : request) (w : world) :
  quiet E -> user req = Some uid -> uid <> 0 -> file req = Some f -> tx w = None ->
  exists w',
    uploadResume E req w
    = (Ok (Json 201 [document_object (new_resume uid f (seq_documents (committed w)))]), w')
    /\ user_documents (committed w')
       = on_rows (other_resumes uid (seq_documents (committed w))) clear_default
                 (user_documents (committed w))
         ++ [new_resume uid f (seq_documents (committed w))]
    /\ seq_documents (committed w') = seq_documents (committed w) + 1
    /\ tx w' = None
    /\ files w' = files w
    /\ exists db, since w w' = upload_events uid f (seq_documents (committed w))
                               ++ score_events uid db.
Proof.
  intros HQ Hu Hz Hf Htx.
  destruct (uploadResume E req w) as [o w'] eqn:H. exists w'.
  unfold uploadResume, authenticated in H. rewrite Hu, Hf in H.
  destruct (uid =? 0) eqn:Hz0; [lia|].
  run_quiet HQ H. land H.
  split; [reflexivity|].
  rewrite Hc. destruct (rescored_documents uid
    (with_documents
          (with_documents (committed w)
             (user_documents (committed w) ++
              [new_resume uid f (seq_documents (committed w))])
             (seq_documents (committed w) + 1))
          (on_rows (other_resumes uid (seq_documents (committed w))) clear_default
             (user_documents (committed w) ++
              [new_resume uid f (seq_documents (committed w))]))
          (seq_documents (committed w) + 1))) as [Hd Hs].
  split; [etransitivity; [exact Hd|apply on_rows_app_new]|].
  split; [exact Hs|].
  split; [first [reflexivity|assumption]|]. split; [first [reflexivity|assumption]|].
  eexists. calc_since. reflexivity.
Qed.

Lemma no_unlink_in_upload (uid : Z) (f : upload) (id : Z) (db : tables) p ok :
  ~ In (EvUnlink p ok) (upload_events uid f id ++ score_events uid db).
Proof.
  intros H. apply in_app_or in H. destruct H as [H|H].
  - unfold upload_events in H. in_log.
  - unfold score_events in H. apply in_app_or in H. destruct H as [H|H].
    + in_log.
    + destruct (filter _ _); in_log.
Qed.

Lemma clears_previous (uid n : Z) (f : upload) :
  other_resumes uid (n + 1) (new_resume uid f n) = true.
Proof.
  unfold other_resumes, owned_by, is_resume. cbn [d_user_id d_id document_type new_resume].
  rewrite Z.eqb_refl. replace (n =? n + 1) with false by (symmetry; apply Z.eqb_neq; lia).
  reflexivity.
Qed.

(** C6.  [uploadResume] inserts the new row with the default flag set
    and then, in the same transaction, clears the flag on the other
    resumes of the user; after two uploads in a row the second row is the
    default, the first one is not, both rows are stored, and no file was
    removed. *)
Theorem C6_second_upload_takes_default
        (E : env) (uid : Z) (f1 f2 : upload) (req1 req2 : request)
        (w : world) o1 w1 o2 w2 :
  quiet E ->
  user req1 = Some uid -> user req2 = Some uid -> uid <> 0 ->
  file req1 = Some f1 -> file req2 = Some f2 ->
  tx w = None ->
  uploadResume E req1 w = (o1, w1) ->
  uploadResume E req2 w1 = (o2, w2) ->
  (exists db, since w w1
              = upload_events uid f1 (seq_documents (committed w)) ++ score_events uid db)
  /\ (exists db, since w1 w2
                 = upload_events uid f2 (seq_documents (committed w) + 1)
                   ++ score_events uid db)
  /\ user_documents (committed w2)
     = on_rows (other_resumes uid (seq_documents (committed w) + 1)) clear_default
               (on_rows (other_resumes uid (seq_documents (committed w))) clear_default
                        (user_documents (committed w)))
       ++ [ clear_default (new_resume uid f1 (seq_documents (committed w)));
            new_resume uid f2 (seq_documents (committed w) + 1) ]
  /\ is_default_resume (new_resume uid f2 (seq_documents (committed w) + 1)) = true
  /\ is_default_resume (clear_default (new_resume uid f1 (seq_documents (committed w))))
     = false
  /\ files w2 = files w
  /\ (forall p ok, ~ In (EvUnlink p ok) (since w w1 ++ since w1 w2)).
Proof.
  intros HQ Hu1 Hu2 Hz Hf1 Hf2 Htx H1 H2.
  destruct (uploadResume_quiet E uid f1 req1 w HQ Hu1 Hz Hf1 Htx)
    as (w1' & Hr1 & Hd1 & Hs1 & Htx1 & Hfl1 & (db1 & Hev1)).
  rewrite Hr1 in H1. inversion H1; subst o1 w1'. clear H1.
  destruct (uploadResume_quiet E uid f2 req2 w1 HQ Hu2 Hz Hf2 Htx1)
    as (w2' & Hr2 & Hd2 & Hs2 & Htx2 & Hfl2 & (db2 & Hev2)).
  rewrite Hr2 in H2. inversion H2; subst o2 w2'. clear H2.
  rewrite Hs1 in *.
  split; [exists db1; exact Hev1|].
  split; [exists db2; exact Hev2|].
  split.
  { rewrite Hd2, Hd1. unfold on_rows at 1. rewrite map_app. cbn [map].
    rewrite clears_previous. rewrite <- app_assoc. reflexivity. }
  split; [reflexivity|]. split; [reflexivity|].
  split; [congruence|].
  intros p ok Hin. rewrite Hev1, Hev2 in Hin. apply in_app_or in Hin.
  destruct Hin as [Hin|Hin]; exact (no_unlink_in_upload _ _ _ _ _ _ Hin).
Qed.

Lemma C6_second_upload_takes_default_witness :
  map (fun d => (d_id d, is_default_resume d))
      (user_documents
         (committed (snd (uploadResume Sample.calm (Sample.with_file Sample.r2)
                            (snd (uploadResume Sample.calm (Sample.with_file Sample.r1)
                                               Sample.w0))))))
  = [(1, false); (2, true)]
  /\ files (snd (uploadResume Sample.calm (Sample.with_file Sample.r2)
                   (snd (uploadResume Sample.calm (Sample.with_file Sample.r1)
                                      Sample.w0))))
     = files Sample.w0.
Proof.
  destruct (C6_second_upload_takes_default
              Sample.calm 7 Sample.r1 Sample.r2
              (Sample.with_file Sample.r1) (Sample.with_file Sample.r2) Sample.w0
              (fst (uploadResume Sample.calm (Sample.with_file Sample.r1) Sample.w0))
              (snd (uploadResume Sample.calm (Sample.with_file Sample.r1) Sample.w0))
              (fst (uploadResume Sample.calm (Sample.with_file Sample.r2)
                      (snd (uploadResume Sample.calm (Sample.with_file Sample.r1)
                                         Sample.w0))))
              (snd (uploadResume Sample.calm (Sample.with_file Sample.r2)
                      (snd (uploadResume Sample.calm (Sample.with_file Sample.r1)
                                         Sample.w0)))))
    as (_ & _ & Hdocs & _ & _ & Hfiles & _).
  - split; intros; reflexivity.
  - reflexivity.
  - reflexivity.
  - lia.
  - reflexivity.
  - reflexivity.
  - reflexivity.
  - vm_compute. reflexivity.
  - vm_compute. reflexivity.
  - split; [rewrite Hdocs; vm_compute; reflexivity|exact Hfiles].
Defined.

(** ** At most one default resume *)

Lemma count_of_app {A : Type} (f : A -> bool) (l l' : list A) :
  count_of f (l ++ l') = (count_of f l + count_of f l')%nat.
Proof. unfold count_of. rewrite filter_app. apply length_app. Qed.

Lemma count_of_keep {A : Type} (f sel : A -> bool) (l : list A) :
  (count_of f (keep_rows sel l) <= count_of f l)%nat.
Proof.
  unfold count_of, keep_rows. induction l as [|a l IH]; cbn [filter]; [lia|].
  destruct (sel a); cbn [negb filter]; destruct (f a); cbn [List.length]; lia.
Qed.

Lemma cleared_none (uid n : Z) (l : list document_row) :
  Forall (fun d => d_id d < n) l ->
  count_of (is_default_of uid) (on_rows (other_resumes uid n) clear_default l) = 0%nat.
Proof.
  unfold count_of, on_rows. induction 1 as [|d l Hd _ IH]; cbn [map filter]; [reflexivity|].
  assert (X : is_default_of uid (if other_resumes uid n d then clear_default d else d) = false).
  { unfold other_resumes, is_default_of.
    replace (d_id d =? n) with false by (symmetry; apply Z.eqb_neq; lia).
    destruct (owned_by uid d) eqn:Ho, (is_resume d) eqn:Hr; cbn [andb negb];
      unfold owned_by, is_resume in *; cbn [clear_default d_user_id document_type is_default_resume];
      rewrite ?Ho, ?Hr; reflexivity. }
  rewrite X. exact IH.
Qed.

Lemma cleared_other (u uid n : Z) (l : list document_row) :
  u <> uid ->
  count_of (is_default_of u) (on_rows (other_resumes uid n) clear_default l)
  = count_of (is_default_of u) l.
Proof.
  intros Hne. unfold count_of, on_rows. induction l as [|d l IH]; cbn [map filter]; [reflexivity|].
  assert (X : is_default_of u (if other_resumes uid n d then clear_default d else d)
              = is_default_of u d).
  { unfold other_resumes, is_default_of, owned_by.
    destruct (d_user_id d =? uid) eqn:Ho; cbn [andb]; [|reflexivity].
    apply Z.eqb_eq in Ho.
    destruct (negb (d_id d =? n) && is_resume d); [|reflexivity].
    cbn [clear_default d_user_id].
    replace (d_user_id d =? u) with false by (symmetry; apply Z.eqb_neq; lia).
    reflexivity. }
  rewrite X. destruct (is_default_of u d); cbn [List.length]; rewrite IH; reflexivity.
Qed.

Lemma fresh_on_rows (sel : document_row -> bool) (n : Z) (l : list document_row) :
  Forall (fun d => d_id d < n) l ->
  Forall (fun d => d_id d < n) (on_rows sel clear_default l).
Proof.
  unfold on_rows. induction 1; cbn [map]; constructor; auto.
  destruct (sel x); assumption.
Qed.

Lemma fresh_keep (sel : document_row -> bool) (n : Z) (l : list document_row) :
  Forall (fun d => d_id d < n) l ->
  Forall (fun d => d_id d < n) (keep_rows sel l).
Proof.
  unfold keep_rows. induction 1; cbn [filter]; [constructor|].
  destruct (negb (sel x)); [constructor|]; assumption.
Qed.

Lemma tidy_same (u : Z) (db db' : tables) :
  user_documents db' = user_documents db -> seq_documents db' = seq_documents db ->
  tidy u db -> tidy u db'.
Proof.
  unfold tidy, ids_fresh, default_resumes. intros -> ->. tauto.
Qed.

Lemma tidy_upload (u uid : Z) (f : upload) (db db' : tables) :
  user_documents db'
  = on_rows (other_resumes uid (seq_documents db)) clear_default (user_documents db)
    ++ [new_resume uid f (seq_documents db)] ->
  seq_documents db' = seq_documents db + 1 ->
  tidy u db -> tidy u db'.
Proof.
  unfold tidy, ids_fresh, default_resumes. intros -> -> [Hf Hd]. split.
  - apply Forall_app. split.
    + apply fresh_on_rows. eapply Forall_impl; [|exact Hf]. cbn. intros; lia.
    + constructor; [cbn; lia|constructor].
  - rewrite count_of_app.
    destruct (Z.eq_dec u uid) as [->|Hne].
    + rewrite (cleared_none uid _ _ Hf). unfold count_of. cbn [filter].
      destruct (is_default_of uid _); cbn [List.length]; lia.
    + rewrite (cleared_other u uid _ _ Hne).
      unfold count_of at 2. cbn [filter].
      replace (is_default_of u (new_resume uid f (seq_documents db))) with false.
      * cbn [List.length]. lia.
      * unfold is_default_of, owned_by. cbn [d_user_id new_resume].
        replace (uid =? u) with false by (symmetry; apply Z.eqb_neq; lia). reflexivity.
Qed.

Lemma tidy_delete (u : Z) (sel : document_row -> bool) (db db' : tables) :
  user_documents db' = keep_rows sel (user_documents db) ->
  seq_documents db' = seq_documents db ->
  tidy u db -> tidy u db'.
Proof.
  unfold tidy, ids_fresh, default_resumes. intros -> -> [Hf Hd]. split.
  - now apply fresh_keep.
  - pose proof (count_of_keep (is_default_of u) sel (user_documents db)). lia.
Qed.

Ltac run_any H :=
  open_monad H; step_run H;
  repeat ((split_data H || split_score H); step_run H).

Lemma deleteResume_run (E : env) (req : request) (w : world) o w' :
  tx w = None ->
  deleteResume E req w = (o, w') ->
  tx w' = None
  /\ seq_documents (committed w') = seq_documents (committed w)
  /\ (user_documents (committed w') = user_documents (committed w)
      \/ exists sel, user_documents (committed w')
                     = keep_rows sel (user_documents (committed w))).
Proof.
  intros Htx H. unfold deleteResume, authenticated in H.
  destruct (user req) as [uid|]; [destruct (uid =? 0)|].
  all: run_any H; land H.
  all: split; [first [reflexivity|assumption|auto]|].
  all: split; [first [reflexivity|assumption|congruence]|].
  all: first [left; first [reflexivity|assumption]
             |right; eexists; first [reflexivity|eassumption]].
Qed.

Lemma uploadResume_documents (E : env) (req : request) (w : world) o w' :
  tx w = None ->
  uploadResume E req w = (o, w') ->
  tx w' = None
  /\ ((user_documents (committed w') = user_documents (committed w)
       /\ seq_documents (committed w') = seq_documents (committed w))
      \/ exists uid f,
          user_documents (committed w')
          = on_rows (other_resumes uid (seq_documents (committed w))) clear_default
                    (user_documents (committed w))
            ++ [new_resume uid f (seq_documents (committed w))]
          /\ seq_documents (committed w') = seq_documents (committed w) + 1).
Proof.
  intros Htx H.
  destruct (user req) as [uid|] eqn:Hu.
  - destruct (Z.eq_dec uid 0) as [->|Hz].
    + unfold uploadResume, authenticated in H. rewrite Hu in H. cbn in H.
      inversion H; subst. split; [assumption|left; split; reflexivity].
    + destruct (file req) as [f|] eqn:Hf.
      * destruct (uploadResume_run E uid f req w o w' Hu Hz Hf Htx H)
          as [Htx' [(Hc & _) | (_ & Hd & Hs & _)]].
        -- split; [exact Htx'|left]. rewrite Hc. split; reflexivity.
        -- split; [exact Htx'|right]. exists uid, f. split; assumption.
      * unfold uploadResume, authenticated in H. rewrite Hu, Hf in H.
        destruct (uid =? 0); cbn in H; inversion H; subst;
          (split; [assumption|left; split; reflexivity]).
  - unfold uploadResume, authenticated in H. rewrite Hu in H. cbn in H.
    inversion H; subst. split; [assumption|left; split; reflexivity].
Qed.

Lemma serve_tidy (E : env) (u : Z) (rs : list (route * request)) (w : world) :
  Forall (fun rr => resume_route (fst rr)) rs ->
  tx w = None -> tidy u (committed w) ->
  tx (serve E rs w) = None /\ tidy u (committed (serve E rs w)).
Proof.
  intros Hrs. revert w. induction Hrs as [|[r req] rs Hr _ IH]; intros w Htx Ht.
  - split; assumption.
  - cbn [serve]. cbn [fst] in Hr.
    destruct (handle E r req w) as [o w'] eqn:H. cbn [snd].
    destruct Hr as [-> | ->]; cbn [handle] in H.
    + destruct (uploadResume_documents E req w o w' Htx H)
        as [Htx' [[Hd Hs] | (uid & f & Hd & Hs)]].
      * apply IH; [exact Htx'|]. exact (tidy_same u _ _ Hd Hs Ht).
      * apply IH; [exact Htx'|]. exact (tidy_upload u uid f _ _ Hd Hs Ht).
    + destruct (deleteResume_run E req w o w' Htx H)
        as (Htx' & Hs & [Hd | [sel Hd]]).
      * apply IH; [exact Htx'|]. exact (tidy_same u _ _ Hd Hs Ht).
      * apply IH; [exact Htx'|]. exact (tidy_delete u sel _ _ Hd Hs Ht).
Qed.

Lemma filter_found {A : Type} (sel : A -> bool) (l : list A) (a : A) :
  In a l -> sel a = true -> filter sel l <> [].
Proof.
  intros Hin Hs Hnil. assert (X : In a (filter sel l)) by (apply filter_In; tauto).
  rewrite Hnil in X. exact X.
Qed.

Lemma count_found {A : Type} (sel : A -> bool) (l : list A) (a : A) :
  In a l -> sel a = true -> Nat.eqb (count_of sel l) 0 = false.
Proof.
  intros Hin Hs. unfold count_of.
  destruct (filter sel l) eqn:Hf; [exfalso; exact (filter_found sel l a Hin Hs Hf)|reflexivity].
Qed.

Lemma count_of_removed {A : Type} (f sel : A -> bool) (l : list A) (a : A) :
  In a l -> f a = true -> sel a = true ->
  (count_of f (keep_rows sel l) < count_of f l)%nat.
Proof.
  unfold count_of, keep_rows. induction l as [|b l IH]; cbn [In filter]; [tauto|].
  intros [->|Hin] Hf Hs.
  - rewrite Hs, Hf. cbn [negb List.length].
    pose proof (count_of_keep f sel l) as X. unfold count_of, keep_rows in X. lia.
  - specialize (IH Hin Hf Hs).
    destruct (sel b); cbn [negb filter]; destruct (f b); cbn [List.length]; lia.
Qed.

Lemma deleteResume_quiet (E : env) (req : request) (uid : Z) (d : document_row)
      (w : world) o w' :
  quiet E -> authenticated req = Some uid ->
  parseInt E (url_param req) = Some (d_id d) ->
  In d (user_documents (committed w)) -> owned_by uid d = true -> is_resume d = true ->
  tx w = None ->
  deleteResume E req w = (o, w') ->
  o = Ok (Json 200 [])
  /\ user_documents (committed w')
     = keep_rows (fun x => (d_id x =? d_id d) && owned_by uid x)
                 (user_documents (committed w)).
Proof.
  intros HQ Ha Hp Hin Ho Hr Htx H.
  unfold deleteResume in H. rewrite Ha, Hp in H.
  assert (F1 : filter (fun x => (d_id x =? d_id d) && owned_by uid x && is_resume x)
                      (user_documents (committed w)) <> []).
  { apply (filter_found _ _ d Hin). now rewrite Z.eqb_refl, Ho, Hr. }
  assert (F2 : Nat.eqb (count_of (fun x => (d_id x =? d_id d) && owned_by uid x)
                                 (user_documents (committed w))) 0 = false).
  { apply (count_found _ _ d Hin). now rewrite Z.eqb_refl, Ho. }
  run_quiet HQ H; land H; try congruence.
  all: split; [reflexivity|].
  all: rewrite Hc; rewrite (proj1 (rescored_documents _ _)); reflexivity.
Qed.

(** C2 (as amended).  Starting from stored documents whose ids are below
    the sequence and among which user [u] has at most one default
    resume, after any sequence of resume uploads and deletions served
    one after the other, each ended before the next begins, by any users
    and whatever fails, [u] has at most one default resume; and deleting
    the default resume removes that row only, changes no other row, and
    leaves [u] with no default. *)
Theorem C2_at_most_one_default_resume
        (E : env) (u : Z) (rs : list (route * request)) (w : world) :
  Forall (fun rr => resume_route (fst rr)) rs ->
  tx w = None ->
  ids_fresh (committed w) ->
  (default_resumes u (committed w) <= 1)%nat ->
  (default_resumes u (committed (serve E rs w)) <= 1)%nat
  /\ (forall req d o w',
        quiet E ->
        authenticated req = Some u ->
        parseInt E (url_param req) = Some (d_id d) ->
        In d (user_documents (committed (serve E rs w))) ->
        is_default_of u d = true ->
        deleteResume E req (serve E rs w) = (o, w') ->
        default_resumes u (committed w') = 0%nat
        /\ user_documents (committed w')
           = keep_rows (fun x => (d_id x =? d_id d) && owned_by u x)
                       (user_documents (committed (serve E rs w)))).
Proof.
  intros Hrs Htx Hf Hd.
  destruct (serve_tidy E u rs w Hrs Htx (conj Hf Hd)) as [Htx' [_ Hd']].
  split; [exact Hd'|].
  intros req d o w' HQ Ha Hp Hin Hdef H.
  unfold is_default_of in Hdef.
  apply andb_true_iff in Hdef. destruct Hdef as [Hdef Hflag].
  apply andb_true_iff in Hdef. destruct Hdef as [Ho Hr].
  destruct (deleteResume_quiet E req u d _ o w' HQ Ha Hp Hin Ho Hr Htx' H)
    as [_ Hdocs].
  split; [|exact Hdocs].
  unfold default_resumes in *. rewrite Hdocs.
  assert (X : lt (count_of (is_default_of u)
                    (keep_rows (fun x => (d_id x =? d_id d) && owned_by u x)
                               (user_documents (committed (serve E rs w)))))
                 (count_of (is_default_of u)
                    (user_documents (committed (serve E rs w))))).
  { apply (count_of_removed _ _ _ d Hin).
    - unfold is_default_of. now rewrite Ho, Hr, Hflag.
    - now rewrite Z.eqb_refl, Ho. }
  lia.
Qed.

Lemma C2_at_most_one_default_resume_witness :
  (default_resumes 7 (committed (serve Sample.calm Sample.session Sample.w0)) <= 1)%nat
  /\ default_resumes 7
       (committed (snd (deleteResume Sample.calm (Sample.with_param (JNum 2))
                          (serve Sample.calm Sample.session Sample.w0))))
     = 0%nat.
Proof.
  destruct (C2_at_most_one_default_resume Sample.calm 7 Sample.session Sample.w0)
    as [Hone Hdel].
  - unfold Sample.session.
    repeat (constructor; [first [left; reflexivity | right; reflexivity]|]).
    constructor.
  - reflexivity.
  - constructor.
  - vm_compute. lia.
  - split; [exact Hone|].
    destruct (Hdel (Sample.with_param (JNum 2))
                   {| d_id := 2; d_user_id := 7; document_type := "resume";
                      file_name := "cv2.pdf"; storage_url := "/uploads/r2.pdf";
                      file_size_kb := 1; is_default_resume := true |}
                   (fst (deleteResume Sample.calm (Sample.with_param (JNum 2))
                           (serve Sample.calm Sample.session Sample.w0)))
                   (snd (deleteResume Sample.calm (Sample.with_param (JNum 2))
                           (serve Sample.calm Sample.session Sample.w0))))
      as [Hzero _].
    + split; intros; reflexivity.
    + reflexivity.
    + reflexivity.
    + vm_compute. tauto.
    + reflexivity.
    + vm_compute. reflexivity.
    + exact Hzero.
Defined.

(** ** Requests that overlap *)

Section Steps.

Variable E : env.

Lemma plays_ret {A : Type} (a : A) : Overlap.plays E (Overlap.ret a) (ret a).
Proof. intros w. reflexivity. Qed.

Lemma plays_throw {A : Type} (e : error) : Overlap.plays E (@Overlap.throw A e) (throw e).
Proof. intros w. reflexivity. Qed.

Lemma plays_bind {A B : Type} (m : Overlap.steps A) (c : M A)
      (f : A -> Overlap.steps B) (g : A -> M B) :
  Overlap.plays E m c -> (forall a, Overlap.plays E (f a) (g a)) ->
  Overlap.plays E (Overlap.bind m f) (bind c g).
Proof.
  revert c. induction m as [[a|e]|r s ps k IH|k IH|p k IH|p k IH];
    intros c Hm Hf w; unfold bind; rewrite <- (Hm w); cbn [Overlap.bind Overlap.run].
  - apply Hf.
  - reflexivity.
  - destruct (Effects.query E r s ps w) as [o w1].
    apply (IH o (Overlap.run E (k o))); [intros w2; reflexivity|exact Hf].
  - apply (IH (Overlap.run E k)); [intros w2; reflexivity|exact Hf].
  - apply (IH _ (Overlap.run E (k _))); [intros w2; reflexivity|exact Hf].
  - destruct (Effects.unlinkSync E p w) as [o w1].
    apply (IH o (Overlap.run E (k o))); [intros w2; reflexivity|exact Hf].
Qed.

Lemma plays_try_catch {A : Type} (m : Overlap.steps A) (c : M A)
      (h : error -> Overlap.steps A) (g : error -> M A) :
  Overlap.plays E m c -> (forall e, Overlap.plays E (h e) (g e)) ->
  Overlap.plays E (Overlap.try_catch m h) (try_catch c g).
Proof.
  revert c. induction m as [[a|e]|r s ps k IH|k IH|p k IH|p k IH];
    intros c Hm Hh w; unfold try_catch; rewrite <- (Hm w);
    cbn [Overlap.try_catch Overlap.run].
  - reflexivity.
  - apply Hh.
  - destruct (Effects.query E r s ps w) as [o w1].
    apply (IH o (Overlap.run E (k o))); [intros w2; reflexivity|exact Hh].
  - apply (IH (Overlap.run E k)); [intros w2; reflexivity|exact Hh].
  - apply (IH _ (Overlap.run E (k _))); [intros w2; reflexivity|exact Hh].
  - destruct (Effects.unlinkSync E p w) as [o w1].
    apply (IH o (Overlap.run E (k o))); [intros w2; reflexivity|exact Hh].
Qed.

Lemma plays_finally {A : Type} (m : Overlap.steps A) (c : M A)
      (f : Overlap.steps unit) (g : M unit) :
  Overlap.plays E m c -> Overlap.plays E f g ->
  Overlap.plays E (Overlap.finally m f) (finally c g).
Proof.
  revert c. induction m as [o|r s ps k IH|k IH|p k IH|p k IH];
    intros c Hm Hf w; unfold finally; rewrite <- (Hm w);
    cbn [Overlap.finally Overlap.run].
  - rewrite (plays_bind f g (fun _ => Overlap.Done o) (fun _ w => (o, w)) Hf
                        (fun _ w2 => eq_refl) w).
    unfold bind. destruct (g w) as [[[]|e] w1]; reflexivity.
  - destruct (Effects.query E r s ps w) as [o w1].
    apply (IH o (Overlap.run E (k o))); [intros w2; reflexivity|exact Hf].
  - apply (IH (Overlap.run E k)); [intros w2; reflexivity|exact Hf].
  - apply (IH _ (Overlap.run E (k _))); [intros w2; reflexivity|exact Hf].
  - destruct (Effects.unlinkSync E p w) as [o w1].
    apply (IH o (Overlap.run E (k o))); [intros w2; reflexivity|exact Hf].
Qed.

Lemma plays_query (r : runner) (s : sql) (ps : list jsval) :
  Overlap.plays E (Overlap.query r s ps) (query E r s ps).
Proof.
  intros w. cbn [Overlap.query Overlap.run].
  now destruct (query E r s ps w).
Qed.

Lemma plays_release : Overlap.plays E Overlap.release release.
Proof. intros w. reflexivity. Qed.

Lemma plays_unlink_quietly (p : string) :
  Overlap.plays E (Overlap.unlink_quietly p) (unlink_quietly E p).
Proof.
  apply plays_try_catch; [|intros e; apply plays_ret].
  apply plays_bind; [intros w; reflexivity|].
  intros [|]; [|apply plays_ret].
  intros w. cbn [Overlap.unlinkSync Overlap.run].
  now destruct (unlinkSync E p w).
Qed.

Lemma plays_updateProfileCompletion (userId : Z) (dbClient : option runner) :
  Overlap.plays E (Overlap.updateProfileCompletion userId dbClient)
        (updateProfileCompletion E userId dbClient).
Proof.
  apply plays_try_catch.
  - apply plays_bind; [apply plays_query|intros countResult].
    apply plays_bind; [apply plays_query|intros profileResult].
    destruct (rows profileResult); [apply plays_ret|].
    destruct (rows countResult); [apply plays_throw|].
    apply plays_bind; [apply plays_query|intros _; apply plays_ret].
  - intros e. destruct dbClient; [apply plays_ret|apply plays_throw].
Qed.

(** The steps of [Overlap.uploadResume], taken without interruption, are
    the handler. *)
Lemma uploadResume_steps (req : request) (w : world) :
  Overlap.run E (Overlap.uploadResume req) w = uploadResume E req w.
Proof.
  revert w. change (Overlap.plays E (Overlap.uploadResume req) (uploadResume E req)).
  apply plays_try_catch; [|intros e; apply plays_ret].
  destruct (authenticated req) as [userId|]; [|apply plays_ret].
  destruct (file req) as [f|]; [|apply plays_ret].
  apply plays_finally; [|apply plays_release].
  apply plays_try_catch.
  - apply plays_bind; [apply plays_query|intros _].
    apply plays_bind; [apply plays_query|intros result].
    destruct (rows result); [apply plays_throw|].
    apply plays_bind; [apply plays_query|intros _].
    apply plays_bind; [apply plays_query|intros _].
    apply plays_bind; [apply plays_updateProfileCompletion|intros _].
    apply plays_ret.
  - intros e.
    apply plays_bind; [apply plays_query|intros _].
    apply plays_bind; [apply plays_unlink_quietly|intros _].
    apply plays_throw.
Qed.

(** The steps of [Overlap.deleteResume], taken without interruption, are
    the handler. *)
Lemma deleteResume_steps (req : request) (w : world) :
  Overlap.run E (Overlap.deleteResume E req) w = deleteResume E req w.
Proof.
  revert w.
  change (Overlap.plays E (Overlap.deleteResume E req) (deleteResume E req)).
  apply plays_try_catch; [|intros e; apply plays_ret].
  destruct (authenticated req) as [userId|]; [|apply plays_ret].
  destruct (parseInt E (url_param req)) as [resumeId|]; [|apply plays_ret].
  apply plays_bind; [apply plays_query|intros fileResult].
  destruct (rows fileResult) as [|fileRecord rest]; [apply plays_ret|].
  apply plays_bind; [apply plays_query|intros deleteResult].
  destruct (Nat.eqb (rowCount deleteResult) 0); [apply plays_ret|].
  apply plays_bind.
  - destruct (get fileRecord "storage_url");
      first [apply plays_throw | apply plays_unlink_quietly].
  - intros _.
    apply plays_bind; [apply plays_updateProfileCompletion|intros _].
    apply plays_ret.
Qed.

End Steps.

Section OverlapClaims.

(** C2 as stated fails when two uploads overlap.  Each request runs its
    own read-committed transaction: it inserts its row as default and
    clears the other resumes of the user it can see, which do not
    include the row the other request has not committed yet.  Both
    requests answer 201, both rows are committed as default, and no
    statement has failed.  When the same two requests take their steps
    one after the other, the result is that of [serve], with one
    default. *)
Lemma C2_overlapping_uploads_leave_two_defaults :
  option_map Overlap.replies
             (Overlap.play Sample.calm Overlap.alternating Overlap.two_uploads)
  = Some [ Some (Ok (Json 201 [document_object (new_resume 7 Sample.r1 1)]));
           Some (Ok (Json 201 [document_object (new_resume 7 Sample.r2 2)])) ]
  /\ option_map user_documents
                (Overlap.outcome_of Overlap.alternating Overlap.two_uploads)
     = Some [new_resume 7 Sample.r1 1; new_resume 7 Sample.r2 2]
  /\ option_map (default_resumes 7)
                (Overlap.outcome_of Overlap.alternating Overlap.two_uploads)
     = Some 2%nat
  /\ option_map (fun s => log (Overlap.common s))
                (Overlap.play Sample.calm Overlap.alternating Overlap.two_uploads)
     = Some [ EvQuery Client false Begin [] true;
              EvQuery Client true InsertDocument
                [ JNum 7; JStr "resume"; JStr "cv.pdf"; JStr "/uploads/r1.pdf";
                  JNum 2; JBool true ] true;
              EvQuery Client false Begin [] true;
              EvQuery Client true InsertDocument
                [ JNum 7; JStr "resume"; JStr "cv2.pdf"; JStr "/uploads/r2.pdf";
                  JNum 1; JBool true ] true;
              EvQuery Client true ClearOtherDefaults [JNum 7; JNum 1] true;
              EvQuery Client true ClearOtherDefaults [JNum 7; JNum 2] true;
              EvQuery Client true Commit [] true;
              EvQuery Client true Commit [] true;
              EvQuery Pool false SelectCounts [JNum 7] true;
              EvQuery Pool false SelectProfileForScore [JNum 7] true;
              EvQuery Pool false UpdateCompletion [JNum 15; JNum 7] true;
              EvQuery Pool false SelectCounts [JNum 7] true;
              EvQuery Pool false SelectProfileForScore [JNum 7] true;
              EvQuery Pool false UpdateCompletion [JNum 15; JNum 7] true ]
  /\ Overlap.outcome_of Overlap.in_turn Overlap.two_uploads
     = Some (committed
               (serve Sample.calm
                      [ (PostResume, Sample.with_file Sample.r1);
                        (PostResume, Sample.with_file Sample.r2) ]
                      Sample.w0))
  /\ option_map (default_resumes 7)
                (Overlap.outcome_of Overlap.in_turn Overlap.two_uploads)
     = Some 1%nat.
Proof.
  split; [vm_compute; reflexivity|].
  split; [vm_compute; reflexivity|].
  split; [vm_compute; reflexivity|].
  split; [vm_compute; reflexivity|].
  split; vm_compute; reflexivity.
Qed.

End OverlapClaims.

(** * Further properties of the handlers *)

(** ** The recomputation on the pool, whatever fails *)

Lemma score_run (E : env) (uid : Z) (w : world) o w' :
  tx w = None ->
  updateProfileCompletion E uid None w = (o, w') ->
  tx w' = None /\ files w' = files w
  /\ ((o = Ok tt /\ committed w' = rescored uid (committed w))
      \/ (exists e, o = Throw e) /\ committed w' = committed w
         /\ exists n s, fault E n s = true).
Proof.
  intros Htx H. unfold updateProfileCompletion in H.
  open_monad H. step_run H.
  all: land H.
  all: unfold rescored;
    repeat match goal with Hx : filter _ _ = _ |- _ => rewrite Hx end.
  all: split; [first [reflexivity|assumption]|]; split; [reflexivity|].
  all: first [ left; split; reflexivity
             | right; split; [eexists; reflexivity|];
               split; [reflexivity|]; eexists; eexists; eassumption ].
Qed.

Ltac split_score_run H :=
  match type of H with
  | context [updateProfileCompletion ?E ?u None ?w1] =>
      let Htx1 := fresh "Htx" in
      assert (Htx1 : tx w1 = None) by (cbn [tx]; first [reflexivity|assumption]);
      let o1 := fresh "o" in
      let w5 := fresh "w" in
      let Hs := fresh "Hs" in
      destruct (updateProfileCompletion E u None w1) as [o1 w5] eqn:Hs;
      destruct (score_run E u w1 o1 w5 Htx1 Hs)
        as (?Htx & ?Hfiles & [[-> ?Hc] | [[? ->] [?Hc ?Hfault]]]);
      clear Hs Htx1;
      cbn [committed tx files log] in *
  end.

(** Decide what the run depends on in the order the handler asks for
    it: the condition at the head of what is left to run. *)
Ltac applied_head t :=
  lazymatch t with
  | ?f _ => applied_head f
  | _ => t
  end.

Ltac head_of t :=
  lazymatch t with
  | match ?c with _ => _ end => head_of c
  | negb ?c => head_of c
  | andb ?c _ => head_of c
  | orb ?c _ => head_of c
  | map _ ?l => head_of l
  | _ =>
      let h := applied_head t in
      lazymatch h with
      | match ?c with _ => _ end => head_of c
      | _ => t
      end
  end.

Ltac split_head score H :=
  lazymatch type of H with
  | ?lhs = _ =>
      let c := head_of lhs in
      lazymatch c with
      | lhs => fail "nothing left to decide"
      | updateProfileCompletion _ _ None _ => score H
      | context [tx ?w] =>
          match goal with Hx : tx w = _ |- _ => rewrite Hx in H end
      | _ => destruct c eqn:?
      end
  end.

Ltac run_with score H :=
  open_monad H; simp_world H; repeat (split_head score H; simp_world H).

Ltac run_all H := run_with split_score_run H.

Lemma mutation_eq (uid : Z) (r : route) (bd : row) (db a b : tables) :
  mutation uid r bd db a -> a = b -> mutation uid r bd db b.
Proof. now intros H <-. Qed.

(** The part of the conclusion every branch closes the same way. *)
Ltac close_tx := split; [first [reflexivity|assumption]|].

Ltac close_reply :=
  split;
  [ eexists; split; [reflexivity|];
    intros (s0 & d0 & Heq & Hs1 & Hs2);
    first [ discriminate Heq
          | inversion Heq; subst;
            first [ congruence
                  | split; [first [ reflexivity
                                  | apply delete_no_document; assumption
                                  | apply delete_no_skill; assumption
                                  | apply (delete_no_entry Experiences); assumption
                                  | apply (delete_no_entry Educations); assumption ]
                           | first [reflexivity|assumption] ] ] ]
  | ].

Ltac pick_tables :=
  eexists; split; cycle 1;
  [ first [ right; eassumption | left; eassumption | left; reflexivity ] | ].


Ltac close_added_entry t :=
  match goal with
  | |- mutation ?uid ?r ?b (committed ?w) _ =>
      apply (mutation_eq _ _ _ _ _ _ (EntryAdded uid r b (committed w) t));
      unfold new_entry, final_end_date, final_is_current;
      repeat match goal with Hx : truthy _ = _ |- _ => rewrite Hx end;
      reflexivity
  end.

(** The row the check of an update has read is a row of the table. *)
Ltac read_row :=
  match goal with
  | Hx : filter ?f ?l = ?e :: _ |- exists e0, In e0 _ /\ _ =>
      let Hin := fresh "Hin" in
      assert (Hin : In e (filter f l)) by (rewrite Hx; left; reflexivity);
      apply filter_In in Hin;
      exists e; split; [exact (proj1 Hin)|reflexivity]
  end.

Ltac close_edited t fe fc id :=
  match goal with
  | |- mutation ?uid ?r ?b (committed ?w) _ =>
      let Hr := fresh "Hr" in
      assert (Hr : updates_entry r)
        by (first [left; reflexivity | right; reflexivity]);
      let Hp := fresh "Hp" in
      assert (Hp : fc = JBool true -> fe = JNull)
        by (let Hfc := fresh "Hfc" in
            intros Hfc;
            first [ reflexivity
                  | rewrite Hfc in *; cbv [is_true] in *; discriminate ]);
      let Ho := fresh "Ho" in
      assert (Ho : fc = get b "is_current"
                   \/ exists e, In e (entries t (committed w))
                                /\ fc = sql_value (get (e_cols e) "is_current"))
        by (first [ left; reflexivity
                  | right; read_row
                  | destruct (is_undefined (get b "is_current")); cbn [negb];
                    [right; read_row|left; reflexivity] ]);
      exact (mutation_eq _ _ _ _ _ _
               (EntryEdited uid r b (committed w) t fe fc id Hr Hp Ho) eq_refl)
  end.

Ltac close_edited_entry :=
  match goal with
  | |- context [apply_set (update_columns Experiences)
                          [_; _; _; _; ?fe; ?fc; _; _; _; JNum ?id; _]] =>
      close_edited Experiences fe fc id
  | |- context [apply_set (update_columns Educations)
                          [_; _; _; _; _; ?fe; ?fc; _; _; JNum ?id; _]] =>
      close_edited Educations fe fc id
  end.

Ltac close_removed_entry :=
  first
    [ apply EntryRemoved
    | match goal with
      | |- mutation ?uid ?r ?b (committed ?w) ?X =>
          match X with
          | context [keep_rows (fun e0 => (e_id e0 =? ?z) && _) (user_experiences _)] =>
              exact (mutation_eq _ _ _ _ _ _
                       (EntryRemoved uid r b (committed w) Experiences z) eq_refl)
          | context [keep_rows (fun e0 => (e_id e0 =? ?z) && _) (user_educations _)] =>
              exact (mutation_eq _ _ _ _ _ _
                       (EntryRemoved uid r b (committed w) Educations z) eq_refl)
          end
      end ].

(** Every request of a user ends with a reply, leaves no transaction
    open, changes nothing when it refuses, and otherwise has made at most
    one change for its caller, followed or not by the rescoring. *)
Lemma handle_run (E : env) (r : route) (req : request) (uid : Z) (w : world) o w' :
  authenticated req = Some uid -> tx w = None ->
  handle E r req w = (o, w') ->
  tx w' = None
  /\ (exists rep, o = Ok rep
        /\ (refusal rep -> committed w' = committed w /\ files w' = files w))
  /\ exists db1, mutation uid r (body req) (committed w) db1
                 /\ (committed w' = db1 \/ committed w' = rescored uid db1).
Proof.
  intros Ha Htx H.
  destruct r; cbn [handle] in H.
  - destruct (updateProfile_run E req w o w' Htx H)
      as (Hc & Htx' & (rep & -> & Hrep) & _).
    split; [exact Htx'|]. split.
    + exists rep. split; [reflexivity|].
      intros (s & d & -> & _). destruct Hrep as [e He]; [congruence|discriminate].
    + exists (committed w). split; [apply NoChange|left; exact Hc].
  - unfold uploadResume in H. rewrite Ha in H.
    destruct (file req) as [f|]; run_all H; land H.
    all: close_tx; close_reply; pick_tables.
    all: first [ apply NoChange
               | apply (mutation_eq _ _ _ _ _ _
                          (ResumeAdded uid PostResume (body req) (committed w) f));
                 rewrite <- on_rows_app_new; reflexivity ].
  - unfold deleteResume in H. rewrite Ha in H.
    run_all H; land H.
    all: close_tx; close_reply; pick_tables.
    all: first [ apply NoChange | apply ResumeRemoved ].
  - unfold addSkill in H. rewrite Ha in H.
    run_all H; land H.
    all: close_tx; close_reply; pick_tables.
    all: first [ apply NoChange | apply SkillAdded; [assumption|congruence] ].
  - unfold removeSkill in H. rewrite Ha in H.
    run_all H; land H.
    all: close_tx; close_reply; pick_tables.
    all: first [ apply NoChange | apply SkillRemoved ].
  - unfold addExperience, addEntry in H. rewrite Ha in H.
    run_all H; land H.
    all: close_tx; close_reply; pick_tables.
    all: first [ apply NoChange | close_added_entry Experiences ].
  - unfold updateExperience, updateEntry in H. rewrite Ha in H.
    run_all H; land H.
    all: close_tx; close_reply; pick_tables.
    all: first [ apply NoChange | close_edited_entry ].
  - unfold deleteExperience, deleteEntry in H. rewrite Ha in H.
    run_all H; land H.
    all: close_tx; close_reply; pick_tables.
    all: first [ apply NoChange | close_removed_entry ].
  - unfold addEducation, addEntry in H. rewrite Ha in H.
    run_all H; land H.
    all: close_tx; close_reply; pick_tables.
    all: first [ apply NoChange | close_added_entry Educations ].
  - unfold updateEducation, updateEntry in H. rewrite Ha in H.
    run_all H; land H.
    all: close_tx; close_reply; pick_tables.
    all: first [ apply NoChange | close_edited_entry ].
  - unfold deleteEducation, deleteEntry in H. rewrite Ha in H.
    run_all H; land H.
    all: close_tx; close_reply; pick_tables.
    all: first [ apply NoChange | close_removed_entry ].
Qed.

(** ** What the rescoring and the changes leave alone *)

Lemma handle_unauthenticated (E : env) (r : route) (req : request) (w : world) :
  authenticated req = None -> handle E r req w = (Ok (Json 401 []), w).
Proof.
  intros Ha.
  destruct r; cbn [handle];
    unfold updateProfile, uploadResume, deleteResume, addSkill, removeSkill,
      addExperience, updateExperience, deleteExperience, addEducation,
      updateEducation, deleteEducation, addEntry, updateEntry, deleteEntry;
    rewrite Ha; reflexivity.
Qed.

Lemma rescored_tables (uid : Z) (db : tables) :
  exists ps,
    rescored uid db = with_profiles db ps
    /\ map (set_completion JNull) ps = map (set_completion JNull) (user_profiles db)
    /\ forall v, v <> uid ->
                 filter (fun p => up_user_id p =? v) ps
                 = filter (fun p => up_user_id p =? v) (user_profiles db).
Proof.
  unfold rescored.
  destruct (filter (fun p => up_user_id p =? uid) (user_profiles db)) as [|p0 rest].
  - exists (user_profiles db). split; [now destruct db|]. split; reflexivity.
  - eexists. split; [reflexivity|]. unfold on_rows. split.
    + rewrite map_map. apply map_ext. intros p.
      destruct (up_user_id p =? uid); reflexivity.
    + intros v Hv. induction (user_profiles db) as [|p ps IH]; [reflexivity|].
      cbn [map filter]. rewrite IH.
      destruct (up_user_id p =? uid) eqn:Hp; [|reflexivity].
      cbn [set_completion up_user_id].
      apply Z.eqb_eq in Hp.
      replace (up_user_id p =? v) with false by (symmetry; apply Z.eqb_neq; lia).
      reflexivity.
Qed.

Lemma rescored_owned (uid v : Z) (db : tables) :
  v <> uid -> owned v (rescored uid db) = owned v db.
Proof.
  intros Hv. destruct (rescored_tables uid db) as (ps & -> & _ & Hps).
  unfold owned. cbn [users user_profiles user_documents user_skills
                     user_experiences user_educations with_profiles].
  now rewrite (Hps v Hv).
Qed.

Lemma rescored_besides (uid : Z) (db : tables) :
  besides_score (rescored uid db) = besides_score db.
Proof.
  destruct (rescored_tables uid db) as (ps & -> & Hps & _).
  unfold besides_score. cbn [user_profiles with_profiles]. now rewrite Hps.
Qed.

Lemma filter_on_rows_foreign {A : Type} (own sel : A -> bool) (f : A -> A) (l : list A) :
  (forall a, sel a = true -> own a = false /\ own (f a) = false) ->
  filter own (on_rows sel f l) = filter own l.
Proof.
  intros Hs. unfold on_rows. induction l as [|a l IH]; [reflexivity|].
  cbn [map filter]. rewrite IH.
  destruct (sel a) eqn:Ha; [|reflexivity].
  destruct (Hs a Ha) as [-> ->]. reflexivity.
Qed.

Lemma filter_keep_foreign {A : Type} (own sel : A -> bool) (l : list A) :
  (forall a, sel a = true -> own a = false) ->
  filter own (keep_rows sel l) = filter own l.
Proof.
  intros Hs. unfold keep_rows. induction l as [|a l IH]; [reflexivity|].
  cbn [filter]. destruct (sel a) eqn:Ha; cbn [negb filter].
  - rewrite (Hs a Ha). exact IH.
  - now rewrite IH.
Qed.

Lemma filter_app_foreign {A : Type} (own : A -> bool) (l : list A) (a : A) :
  own a = false -> filter own (l ++ [a]) = filter own l.
Proof.
  intros Ha. rewrite filter_app. cbn [filter]. rewrite Ha. apply app_nil_r.
Qed.

Lemma other_owner (uid v x : Z) : v <> uid -> (x =? uid) = true -> (x =? v) = false.
Proof. intros Hv Hx. apply Z.eqb_eq in Hx. apply Z.eqb_neq. lia. Qed.

Lemma mutation_owned (uid v : Z) (r : route) (b : row) (db db1 : tables) :
  v <> uid -> mutation uid r b db db1 ->
  owned v db1 = owned v db /\ skills db1 = skills db.
Proof.
  intros Hv Hm.
  destruct Hm as [ | f | id | sid level _ _ | sid | t | t fe fc id _ _ _ | t id ];
    try destruct t; split; try reflexivity; unfold owned;
    cbn [users user_profiles user_documents user_skills user_experiences
         user_educations with_documents with_user_skills with_entries entries];
    repeat match goal with |- (_, _) = (_, _) => f_equal end; try reflexivity.
  - rewrite filter_app_foreign.
    + apply filter_on_rows_foreign. intros d Hd.
      unfold other_resumes, owned_by in Hd.
      apply andb_true_iff in Hd. destruct Hd as [Hd _].
      apply andb_true_iff in Hd. destruct Hd as [Hd _].
      cbn [clear_default d_user_id]. split; exact (other_owner _ _ _ Hv Hd).
    + cbn [new_resume d_user_id]. apply Z.eqb_neq. lia.
  - apply filter_keep_foreign. intros d Hd. unfold own_document, owned_by in Hd.
    apply andb_true_iff in Hd. destruct Hd as [_ Hd]. exact (other_owner _ _ _ Hv Hd).
  - apply filter_app_foreign. cbn [new_user_skill us_user_id]. apply Z.eqb_neq. lia.
  - apply filter_keep_foreign. intros s Hs. unfold has_skill in Hs.
    apply andb_true_iff in Hs. destruct Hs as [Hs _]. exact (other_owner _ _ _ Hv Hs).
  - apply filter_app_foreign. cbn [new_entry e_user_id]. apply Z.eqb_neq. lia.
  - apply filter_app_foreign. cbn [new_entry e_user_id]. apply Z.eqb_neq. lia.
  - apply filter_on_rows_foreign. intros e He. unfold own_entry in He.
    apply andb_true_iff in He. destruct He as [_ He].
    cbn [edited_entry e_user_id]. split; exact (other_owner _ _ _ Hv He).
  - apply filter_on_rows_foreign. intros e He. unfold own_entry in He.
    apply andb_true_iff in He. destruct He as [_ He].
    cbn [edited_entry e_user_id]. split; exact (other_owner _ _ _ Hv He).
  - apply filter_keep_foreign. intros e He. unfold own_entry in He.
    apply andb_true_iff in He. destruct He as [_ He]. exact (other_owner _ _ _ Hv He).
  - apply filter_keep_foreign. intros e He. unfold own_entry in He.
    apply andb_true_iff in He. destruct He as [_ He]. exact (other_owner _ _ _ Hv He).
Qed.

Lemma rescored_other_tables (uid : Z) (db : tables) :
  user_skills (rescored uid db) = user_skills db
  /\ skills (rescored uid db) = skills db
  /\ user_experiences (rescored uid db) = user_experiences db
  /\ user_educations (rescored uid db) = user_educations db.
Proof.
  destruct (rescored_tables uid db) as (ps & -> & _). repeat split.
Qed.

(** An invariant of the tables that every change of an allowed request
    and the rescoring keep holds after any sequence of allowed requests,
    whatever fails. *)
Lemma serve_keeps_when (E : env) (allowed : Z -> route -> request -> Prop)
      (P : tables -> Prop) :
  (forall uid r req db db1,
      allowed uid r req -> P db -> mutation uid r (body req) db db1 -> P db1) ->
  (forall uid db, P db -> P (rescored uid db)) ->
  forall rs w,
    Forall (fun rr => forall uid, authenticated (snd rr) = Some uid ->
                                  allowed uid (fst rr) (snd rr)) rs ->
    tx w = None -> P (committed w) ->
    tx (serve E rs w) = None /\ P (committed (serve E rs w)).
Proof.
  intros Hm Hr rs. induction rs as [|[r req] rs IH]; intros w Hall Htx HP.
  - split; assumption.
  - inversion Hall as [|? ? Hreq Hrest]; subst. cbn [fst snd] in Hreq.
    cbn [serve]. destruct (handle E r req w) as [o w'] eqn:H. cbn [snd].
    destruct (authenticated req) as [uid|] eqn:Ha.
    + destruct (handle_run E r req uid w o w' Ha Htx H)
        as (Htx' & _ & (db1 & Hmut & Hc)).
      apply IH; [exact Hrest|exact Htx'|].
      destruct Hc as [-> | ->].
      * exact (Hm uid r req _ _ (Hreq uid eq_refl) HP Hmut).
      * apply (Hr uid _).
        exact (Hm uid r req _ _ (Hreq uid eq_refl) HP Hmut).
    + rewrite (handle_unauthenticated E r req w Ha) in H.
      inversion H; subst. apply IH; assumption.
Qed.

Lemma serve_keeps (E : env) (allowed : Z -> Prop) (P : tables -> Prop) :
  (forall uid r b db db1, allowed uid -> P db -> mutation uid r b db db1 -> P db1) ->
  (forall uid db, allowed uid -> P db -> P (rescored uid db)) ->
  forall rs w,
    Forall (fun rr => forall uid, authenticated (snd rr) = Some uid -> allowed uid) rs ->
    tx w = None -> P (committed w) ->
    tx (serve E rs w) = None /\ P (committed (serve E rs w)).
Proof.
  intros Hm Hr rs. induction rs as [|[r req] rs IH]; intros w Hall Htx HP.
  - split; assumption.
  - inversion Hall as [|? ? Hreq Hrest]; subst. cbn [snd] in Hreq.
    cbn [serve]. destruct (handle E r req w) as [o w'] eqn:H. cbn [snd].
    destruct (authenticated req) as [uid|] eqn:Ha.
    + destruct (handle_run E r req uid w o w' Ha Htx H)
        as (Htx' & _ & (db1 & Hmut & Hc)).
      apply IH; [exact Hrest|exact Htx'|].
      destruct Hc as [-> | ->].
      * exact (Hm uid _ _ _ _ (Hreq uid eq_refl) HP Hmut).
      * apply (Hr uid _ (Hreq uid eq_refl)).
        exact (Hm uid _ _ _ _ (Hreq uid eq_refl) HP Hmut).
    + rewrite (handle_unauthenticated E r req w Ha) in H.
      inversion H; subst. apply IH; assumption.
Qed.

Lemma mutation_skills (uid : Z) (r : route) (b : row) (db db1 : tables) :
  mutation uid r b db db1 ->
  skills db1 = skills db
  /\ (user_skills db1 = user_skills db
      \/ (exists sid level,
             user_skills db1
             = user_skills db ++ [new_user_skill uid sid level (seq_user_skills db)]
             /\ filter (has_skill uid sid) (user_skills db) = []
             /\ filter (fun s => s_id s =? sid) (skills db) <> [])
      \/ exists sid, user_skills db1 = keep_rows (has_skill uid sid) (user_skills db)).
Proof.
  intros Hm.
  destruct Hm as [ | f | id | sid level H1 H2 | sid | t | t fe fc id _ _ _ | t id ];
    try destruct t; (split; [reflexivity|]).
  all: first [ left; reflexivity
             | right; left; exists sid, level; repeat split; assumption
             | right; right; exists sid; reflexivity ].
Qed.

Lemma nodup_map_filter {A B : Type} (key : A -> B) (g : A -> bool) (l : list A) :
  NoDup (map key l) -> NoDup (map key (filter g l)).
Proof.
  induction l as [|a l IH]; cbn [map filter]; intros H; [constructor|].
  inversion H as [|? ? Hnot Hrest]; subst.
  destruct (g a); [|exact (IH Hrest)].
  cbn [map]. constructor; [|exact (IH Hrest)].
  intros Hin. apply Hnot. apply in_map_iff in Hin.
  destruct Hin as (x & Hx & Hxin). apply filter_In in Hxin.
  apply in_map_iff. exists x. tauto.
Qed.

Lemma mutation_skills_unique (uid : Z) (r : route) (b : row) (db db1 : tables) :
  skills_unique db -> mutation uid r b db db1 -> skills_unique db1.
Proof.
  unfold skills_unique. intros HP Hm.
  destruct (mutation_skills uid r b db db1 Hm)
    as [_ [-> | [(sid & level & -> & Hnone & _) | (sid & ->)]]].
  - exact HP.
  - rewrite map_app. apply NoDup_app; [exact HP|repeat constructor; intros []|].
    intros k Hk [<-|[]]. apply in_map_iff in Hk.
    destruct Hk as (us & Hus & Hin). cbn [new_user_skill us_user_id us_skill_id] in Hus.
    inversion Hus as [[Hu Hs]].
    assert (X : In us (filter (has_skill uid sid) (user_skills db))).
    { apply filter_In. split; [exact Hin|]. unfold has_skill.
      now rewrite Hu, Hs, !Z.eqb_refl. }
    rewrite Hnone in X. exact X.
  - unfold keep_rows. now apply nodup_map_filter.
Qed.

Lemma mutation_skills_known (uid : Z) (r : route) (b : row) (db db1 : tables) :
  skills_known db -> mutation uid r b db db1 -> skills_known db1.
Proof.
  unfold skills_known. intros HP Hm.
  destruct (mutation_skills uid r b db db1 Hm)
    as [-> [-> | [(sid & level & -> & _ & Hsome) | (sid & ->)]]].
  - exact HP.
  - apply Forall_app. split; [exact HP|]. constructor; [|constructor].
    cbn [new_user_skill us_skill_id].
    destruct (filter (fun s => s_id s =? sid) (skills db)) as [|s l] eqn:Hf;
      [congruence|].
    apply existsb_exists. exists s.
    assert (X : In s (filter (fun s => s_id s =? sid) (skills db)))
      by (rewrite Hf; left; reflexivity).
    apply filter_In in X. exact X.
  - unfold keep_rows. rewrite Forall_forall in *. intros us Hin.
    apply filter_In in Hin. apply HP. tauto.
Qed.

Lemma get_set_col (o : row) (k k' : string) (v : jsval) :
  get (set_col o k v) k' = if (k =? k')%string then v else get o k'.
Proof.
  induction o as [|[k0 v0] o IH]; cbn [set_col get].
  - reflexivity.
  - destruct (String.eqb_spec k0 k) as [->|Hne]; cbn [get].
    + destruct (String.eqb_spec k k'); reflexivity.
    + rewrite IH. destruct (String.eqb_spec k0 k') as [->|];
        [|reflexivity].
      destruct (String.eqb_spec k k'); [congruence|reflexivity].
Qed.

Lemma stored_flag (v : jsval) :
  match stored "is_current" v with JBool _ | JNull => True | _ => False end.
Proof.
  unfold stored. cbn [boolean_column String.eqb Ascii.eqb Bool.eqb].
  destruct v as [| |b|n|s]; cbn [as_boolean option_map]; try exact I.
  - destruct (n =? 1); [exact I|]. destruct (n =? 0); exact I.
  - destruct (parse_bool s); exact I.
Qed.

Lemma stored_flag_true (v : jsval) :
  stored "is_current" v = JBool true -> reads_as_true v = true.
Proof.
  unfold stored, reads_as_true.
  cbn [boolean_column String.eqb Ascii.eqb Bool.eqb].
  destruct (as_boolean v) as [[| |[|]| |]|]; intros H;
    first [reflexivity | discriminate H].
Qed.

Lemma reads_as_true_truthy (v : jsval) : reads_as_true v = true -> truthy v = true.
Proof.
  unfold reads_as_true.
  destruct v as [| |b|n|s]; cbn [as_boolean option_map truthy]; try discriminate.
  - destruct b; [reflexivity|discriminate].
  - destruct (Z.eqb_spec n 1) as [->|_]; [reflexivity|].
    destruct (n =? 0); discriminate.
  - destruct s as [|c s]; [cbn; discriminate|reflexivity].
Qed.

Lemma stored_end_date (v : jsval) : stored "end_date" v = sql_value v.
Proof. reflexivity. Qed.

Lemma new_entry_sound (t : entry_table) (uid : Z) (b : row) (id : Z) :
  entry_sound (new_entry t uid b id).
Proof.
  unfold entry_sound, flag_is_boolean, current_is_open, new_entry. cbn [e_cols].
  destruct t;
    cbn [insert_columns insert_values store_all map combine get fst snd
         String.eqb Ascii.eqb Bool.eqb].
  all: split; [apply stored_flag|].
  all: intros H; apply stored_flag_true, reads_as_true_truthy in H.
  all: rewrite stored_end_date; unfold final_end_date; rewrite H; reflexivity.
Qed.

Lemma stored_flag_plain (e : entry_row) :
  flag_is_boolean e -> plain_flag (sql_value (get (e_cols e) "is_current")).
Proof.
  unfold flag_is_boolean, plain_flag, reads_as_true.
  destruct (get (e_cols e) "is_current") as [| |[|]| |];
    cbn [sql_value as_boolean]; intros Hb H;
    first [reflexivity | discriminate H | destruct Hb].
Qed.

Lemma edited_entry_sound (t : entry_table) (b : row) (fe fc : jsval) (id uid : Z)
      (e : entry_row) :
  (fc = JBool true -> fe = JNull) ->
  plain_flag fc ->
  entry_sound (edited_entry t b fe fc id uid e).
Proof.
  intros Hp Hplain.
  unfold entry_sound, flag_is_boolean, current_is_open, edited_entry. cbn [e_cols].
  destruct t; cbn [update_columns update_values app apply_set];
    rewrite !get_set_col; cbn [String.eqb Ascii.eqb Bool.eqb].
  all: split; [apply stored_flag|].
  all: intros H; apply stored_flag_true in H.
  all: rewrite stored_end_date, (Hp (Hplain H)); reflexivity.
Qed.

Lemma mutation_entries_sound (uid : Z) (r : route) (b : row) (db db1 : tables) :
  (updates_entry r -> plain_flag (get b "is_current")) ->
  entries_sound db -> mutation uid r b db db1 -> entries_sound db1.
Proof.
  unfold entries_sound. intros Hb [H1 H2] Hm.
  assert (Hfc : forall t fc,
             updates_entry r ->
             (fc = get b "is_current"
              \/ exists e, In e (entries t db)
                           /\ fc = sql_value (get (e_cols e) "is_current")) ->
             plain_flag fc).
  { intros t fc Hr [->|(e & Hin & ->)]; [exact (Hb Hr)|].
    apply stored_flag_plain.
    destruct t; cbn [entries] in Hin;
      [exact (proj1 (proj1 (Forall_forall _ _) H1 e Hin))
      |exact (proj1 (proj1 (Forall_forall _ _) H2 e Hin))]. }
  destruct Hm as [ | f | id | sid level _ _ | sid | t | t fe fc id Hr Hp Ho | t id ];
    try (pose proof (Hfc t fc Hr Ho) as Hplain);
    try destruct t;
    cbn [user_experiences user_educations with_documents with_user_skills
         with_entries entries];
    (split; try assumption).
  - apply Forall_app. split; [exact H1|]. constructor; [apply new_entry_sound|constructor].
  - apply Forall_app. split; [exact H2|]. constructor; [apply new_entry_sound|constructor].
  - unfold on_rows. rewrite Forall_forall in *. intros e He.
    apply in_map_iff in He. destruct He as (x & <- & Hx).
    destruct (own_entry id uid x); [now apply edited_entry_sound|now apply H1].
  - unfold on_rows. rewrite Forall_forall in *. intros e He.
    apply in_map_iff in He. destruct He as (x & <- & Hx).
    destruct (own_entry id uid x); [now apply edited_entry_sound|now apply H2].
  - unfold keep_rows. rewrite Forall_forall in *. intros e He.
    apply filter_In in He. apply H1. tauto.
  - unfold keep_rows. rewrite Forall_forall in *. intros e He.
    apply filter_In in He. apply H2. tauto.
Qed.

(** ** Refusals, released connections, other users' rows *)

(** X1.  A request that is refused changes nothing.  When a handler answers
    with a JSON reply whose status is not 200 or 201 (that is 400, 401
    or 404), every committed table and every file is as it was; and a
    request without a user id (or with the id 0) is answered 401 by each
    route before any statement is issued.  A request that ends in
    [next(error)] is not refused in this sense, and nothing is said of
    it here: it may have changed tables and files. *)
Theorem refused_request_changes_nothing
        (E : env) (r : route) (req : request) (w : world) o w' :
  tx w = None ->
  handle E r req w = (o, w') ->
  (authenticated req = None -> o = Ok (Json 401 []) /\ w' = w)
  /\ (forall rep, o = Ok rep -> refusal rep ->
                  committed w' = committed w /\ files w' = files w).
Proof.
  intros Htx H. split.
  - intros Ha. rewrite (handle_unauthenticated E r req w Ha) in H.
    inversion H; subst. split; reflexivity.
  - intros rep -> Hrep.
    destruct (authenticated req) as [uid|] eqn:Ha.
    + destruct (handle_run E r req uid w _ w' Ha Htx H)
        as (_ & (rep' & Heq & Hkeep) & _).
      inversion Heq; subst rep'. exact (Hkeep Hrep).
    + rewrite (handle_unauthenticated E r req w Ha) in H.
      inversion H; subst. split; reflexivity.
Qed.

Lemma refused_request_changes_nothing_witness :
  committed (snd (handle Sample.calm DeleteResume (Sample.with_param (JNum 99)) Scenario.w2))
  = Scenario.db2
  /\ files (snd (handle Sample.calm DeleteResume (Sample.with_param (JNum 99)) Scenario.w2))
     = files Scenario.w2.
Proof.
  destruct (refused_request_changes_nothing
              Sample.calm DeleteResume (Sample.with_param (JNum 99)) Scenario.w2
              (fst (handle Sample.calm DeleteResume (Sample.with_param (JNum 99)) Scenario.w2))
              (snd (handle Sample.calm DeleteResume (Sample.with_param (JNum 99)) Scenario.w2)))
    as [_ Hkeep].
  - reflexivity.
  - vm_compute. reflexivity.
  - apply (Hkeep (Json 404 [])).
    + vm_compute. reflexivity.
    + exists 404%nat, []. repeat split; discriminate.
Defined.

(** X2.  Every request ends with a reply or with an error handed to [next],
    never with an exception, and leaves no transaction open on its
    client: after any sequence of requests the connection is free. *)
Theorem every_request_ends_released
        (E : env) (rs : list (route * request)) (w : world) :
  tx w = None ->
  tx (serve E rs w) = None
  /\ forall r req, exists rep, fst (handle E r req w) = Ok rep.
Proof.
  intros Htx. split.
  - apply (serve_keeps E (fun _ => True) (fun _ => True)); auto.
    apply Forall_forall. auto.
  - intros r req. destruct (handle E r req w) as [o w'] eqn:H. cbn [fst].
    destruct (authenticated req) as [uid|] eqn:Ha.
    + destruct (handle_run E r req uid w o w' Ha Htx H)
        as (_ & (rep & -> & _) & _).
      exists rep. reflexivity.
    + rewrite (handle_unauthenticated E r req w Ha) in H.
      inversion H; subst. eexists; reflexivity.
Qed.

Lemma every_request_ends_released_witness :
  tx (serve (Sample.failing_from 3) Scenario.sitting Scenario.w2) = None.
Proof.
  destruct (every_request_ends_released
              (Sample.failing_from 3) Scenario.sitting Scenario.w2) as [H _].
  - reflexivity.
  - exact H.
Defined.

(** X3.  Whatever other users request, in any number and whatever fails, the
    rows of user [v] in every table stay exactly as they are, and so does
    the catalogue of skills. *)
Theorem other_users_rows_untouched
        (E : env) (v : Z) (rs : list (route * request)) (w : world) :
  Forall (fun rr => authenticated (snd rr) <> Some v) rs ->
  tx w = None ->
  owned v (committed (serve E rs w)) = owned v (committed w)
  /\ skills (committed (serve E rs w)) = skills (committed w).
Proof.
  intros Hrs Htx.
  apply (serve_keeps E (fun uid => uid <> v)
           (fun db => owned v db = owned v (committed w)
                      /\ skills db = skills (committed w))).
  - intros uid r b db db1 Hne [Ho Hs] Hm.
    destruct (mutation_owned uid v r b db db1 (not_eq_sym Hne) Hm) as [-> ->].
    split; assumption.
  - intros uid db Hne [Ho Hs].
    rewrite (rescored_owned uid v db (not_eq_sym Hne)).
    destruct (rescored_other_tables uid db) as (_ & -> & _).
    split; assumption.
  - eapply Forall_impl; [|exact Hrs]. cbn. intros rr Hrr uid Ha -> . now apply Hrr.
  - exact Htx.
  - split; reflexivity.
Qed.

Lemma other_users_rows_untouched_witness :
  owned 8 (committed (serve Sample.calm Scenario.sitting Scenario.w2))
  = owned 8 Scenario.db2.
Proof.
  destruct (other_users_rows_untouched Sample.calm 8 Scenario.sitting Scenario.w2)
    as [H _].
  - unfold Scenario.sitting. repeat (constructor; [vm_compute; discriminate|]).
    constructor.
  - reflexivity.
  - exact H.
Defined.

(** ** Skills and entries after any sequence of requests *)

(** X4.  No user ever holds the same skill twice: if it is so before, it is so
    after any sequence of requests, whatever fails. *)
Theorem skills_stay_unique
        (E : env) (rs : list (route * request)) (w : world) :
  tx w = None ->
  skills_unique (committed w) ->
  skills_unique (committed (serve E rs w)).
Proof.
  intros Htx HP.
  apply (serve_keeps E (fun _ => True) skills_unique); auto.
  - intros uid r b db db1 _. apply mutation_skills_unique.
  - intros uid db _. unfold skills_unique.
    now destruct (rescored_other_tables uid db) as (-> & _).
  - apply Forall_forall. auto.
Qed.

Lemma skills_stay_unique_witness :
  skills_unique (committed (serve Sample.calm Scenario.sitting Scenario.w2)).
Proof.
  apply (skills_stay_unique Sample.calm Scenario.sitting Scenario.w2).
  - reflexivity.
  - unfold skills_unique. cbn. repeat constructor. intros [].
Defined.

(** X5.  Every skill a user holds is a skill of the catalogue: [addSkill]
    only stores an id it has found there, and no handler removes from
    the catalogue. *)
Theorem skills_stay_in_catalogue
        (E : env) (rs : list (route * request)) (w : world) :
  tx w = None ->
  skills_known (committed w) ->
  skills_known (committed (serve E rs w)).
Proof.
  intros Htx HP.
  apply (serve_keeps E (fun _ => True) skills_known); auto.
  - intros uid r b db db1 _. apply mutation_skills_known.
  - intros uid db _. unfold skills_known.
    now destruct (rescored_other_tables uid db) as (-> & -> & _).
  - apply Forall_forall. auto.
Qed.

Lemma skills_stay_in_catalogue_witness :
  skills_known (committed (serve Sample.calm Scenario.sitting Scenario.w2)).
Proof.
  apply (skills_stay_in_catalogue Sample.calm Scenario.sitting Scenario.w2).
  - reflexivity.
  - unfold skills_known. cbn. repeat constructor.
Defined.

(** X6.  An experience or education entry flagged as current has no end
    date, as long as no update sends its flag as a text or a number.  If
    every stored entry has a boolean or NULL flag and no end date when
    the flag is TRUE, the same holds after any sequence of requests,
    whatever fails, in which every update of an entry sends
    [is_current] as a boolean, as null, not at all, or as something
    the server does not read as TRUE.  Additions need no proviso: they
    clear the end date whenever the flag they send is truthy, and what
    the server reads as TRUE is truthy. *)
Theorem current_entries_stay_open
        (E : env) (rs : list (route * request)) (w : world) :
  tx w = None ->
  Forall (fun rr => updates_entry (fst rr) ->
                    plain_flag (get (body (snd rr)) "is_current")) rs ->
  entries_sound (committed w) ->
  entries_sound (committed (serve E rs w)).
Proof.
  intros Htx Hrs HP.
  apply (serve_keeps_when E
           (fun _ r req => updates_entry r -> plain_flag (get (body req) "is_current"))
           entries_sound); auto.
  - intros uid r req db db1 Hb. now apply mutation_entries_sound.
  - intros uid db. unfold entries_sound.
    now destruct (rescored_other_tables uid db) as (_ & _ & -> & ->).
  - eapply Forall_impl; [|exact Hrs]. cbn. intros rr Hrr uid _. exact Hrr.
Qed.

Lemma current_entries_stay_open_witness :
  entries_sound (committed (serve Sample.calm Scenario.sitting Scenario.w2))
  /\ map (fun e => (get (e_cols e) "is_current", get (e_cols e) "end_date"))
         (user_experiences (committed (serve Sample.calm Scenario.sitting Scenario.w2)))
     = [ (JBool true, JNull); (JBool true, JNull) ].
Proof.
  split.
  - apply (current_entries_stay_open Sample.calm Scenario.sitting Scenario.w2).
    + reflexivity.
    + unfold Scenario.sitting.
      repeat (constructor;
              [ cbn [fst snd]; intros [Hr|Hr]; try discriminate Hr;
                intros Hf; vm_compute in Hf; discriminate Hf | ]).
      constructor.
    + split; cbn; repeat constructor; intros _; reflexivity.
  - vm_compute. reflexivity.
Defined.

(** ** The recomputation, on its own *)

Lemma score_run_any (E : env) (uid : Z) (c : option runner) (w : world) o w' :
  tx w = None ->
  updateProfileCompletion E uid c w = (o, w') ->
  tx w' = None /\ files w' = files w
  /\ (committed w' = committed w \/ committed w' = rescored uid (committed w)).
Proof.
  intros Htx H. unfold updateProfileCompletion in H.
  destruct c as [[|]|]; run_all H; land H.
  all: unfold rescored;
    repeat match goal with Hx : filter _ _ = _ |- _ => rewrite Hx end.
  all: split; [first [reflexivity | assumption | rewrite Htx; reflexivity]|];
    split; [reflexivity|].
  all: first [ left; reflexivity | right; reflexivity ].
Qed.

Lemma on_rows_twice (uid : Z) (v : jsval) (ps : list profile_row) :
  on_rows (fun p => up_user_id p =? uid) (set_completion v)
          (on_rows (fun p => up_user_id p =? uid) (set_completion v) ps)
  = on_rows (fun p => up_user_id p =? uid) (set_completion v) ps.
Proof.
  unfold on_rows. rewrite map_map. apply map_ext. intros p.
  destruct (up_user_id p =? uid) eqn:Hp.
  - cbn [set_completion up_user_id]. now rewrite Hp.
  - now rewrite Hp.
Qed.

Lemma rescored_twice (uid : Z) (db : tables) :
  rescored uid (rescored uid db) = rescored uid db.
Proof.
  destruct (filter (fun p => up_user_id p =? uid) (user_profiles db))
    as [|p0 rest] eqn:Hf.
  - assert (R : rescored uid db = db) by (unfold rescored; now rewrite Hf).
    now rewrite !R.
  - pose (v := JNum (Scorer.finalPercentage (score_columns p0) (counts_of uid db))).
    assert (R : rescored uid db
                = with_profiles db
                    (on_rows (fun p => up_user_id p =? uid) (set_completion v)
                             (user_profiles db)))
      by (unfold rescored; now rewrite Hf).
    rewrite R. unfold rescored. cbn [user_profiles with_profiles].
    destruct (filter_on_rows_head uid v _ _ _ Hf) as [rest' ->].
    transitivity
      (with_profiles db
         (on_rows (fun p => up_user_id p =? uid) (set_completion v)
            (on_rows (fun p => up_user_id p =? uid) (set_completion v)
                     (user_profiles db)))); [reflexivity|].
    now rewrite on_rows_twice.
Qed.

(** X7.  [updateProfileCompletion] writes the completion column of its user
    and nothing else: whichever runner it is given and whatever fails,
    the tables are the same but for that column, the rows of every other
    user are untouched, and no file is. *)
Theorem recomputation_only_writes_the_score
        (E : env) (uid : Z) (c : option runner) (w : world) o w' :
  tx w = None ->
  updateProfileCompletion E uid c w = (o, w') ->
  besides_score (committed w') = besides_score (committed w)
  /\ (forall v, v <> uid -> owned v (committed w') = owned v (committed w))
  /\ files w' = files w.
Proof.
  intros Htx H.
  destruct (score_run_any E uid c w o w' Htx H) as (_ & Hf & [-> | ->]).
  - split; [reflexivity|]. split; [reflexivity|exact Hf].
  - split; [apply rescored_besides|]. split; [|exact Hf].
    intros v Hv. now apply rescored_owned.
Qed.

Lemma recomputation_only_writes_the_score_witness :
  besides_score (committed (snd (updateProfileCompletion Sample.calm 7 None Scenario.w2)))
  = besides_score Scenario.db2
  /\ owned 8 (committed (snd (updateProfileCompletion Sample.calm 7 None Scenario.w2)))
     = owned 8 Scenario.db2.
Proof.
  destruct (recomputation_only_writes_the_score
              Sample.calm 7 None Scenario.w2
              (fst (updateProfileCompletion Sample.calm 7 None Scenario.w2))
              (snd (updateProfileCompletion Sample.calm 7 None Scenario.w2)))
    as (Hb & Ho & _).
  - reflexivity.
  - vm_compute. reflexivity.
  - split; [exact Hb|]. apply Ho. discriminate.
Defined.

(** X8.  Recomputing twice is recomputing once: a second run of
    [updateProfileCompletion] right after a first one changes nothing,
    and the stored score is the scorer's output on the stored rows. *)
Theorem recomputation_is_idempotent
        (E : env) (uid : Z) (w w1 w2 : world) :
  tx w = None ->
  updateProfileCompletion E uid None w = (Ok tt, w1) ->
  updateProfileCompletion E uid None w1 = (Ok tt, w2) ->
  committed w2 = committed w1 /\ score_current uid (committed w1).
Proof.
  intros Htx H1 H2.
  destruct (score_run E uid w _ w1 Htx H1)
    as (Htx1 & _ & [[_ Hc1] | [[e He] _]]); [|discriminate].
  destruct (score_run E uid w1 _ w2 Htx1 H2)
    as (_ & _ & [[_ Hc2] | [[e He] _]]); [|discriminate].
  split.
  - rewrite Hc2, Hc1. apply rescored_twice.
  - rewrite Hc1. apply rescored_current.
Qed.

Lemma recomputation_is_idempotent_witness :
  committed (snd (updateProfileCompletion Sample.calm 7 None
                    (snd (updateProfileCompletion Sample.calm 7 None Scenario.w2))))
  = committed (snd (updateProfileCompletion Sample.calm 7 None Scenario.w2)).
Proof.
  destruct (recomputation_is_idempotent
              Sample.calm 7 Scenario.w2
              (snd (updateProfileCompletion Sample.calm 7 None Scenario.w2))
              (snd (updateProfileCompletion Sample.calm 7 None
                      (snd (updateProfileCompletion Sample.calm 7 None Scenario.w2)))))
    as [H _].
  - reflexivity.
  - vm_compute. reflexivity.
  - vm_compute. reflexivity.
  - exact H.
Defined.

(** ** Runs with their log *)

Lemma score_full (E : env) (uid : Z) (w : world) o w' :
  tx w = None ->
  updateProfileCompletion E uid None w = (o, w') ->
  exists evs,
    log w' = log w ++ evs
    /\ Forall (fun ev => exists s ps ok, ev = EvQuery Pool false s ps ok) evs
    /\ tx w' = None /\ files w' = files w
    /\ ((o = Ok tt /\ committed w' = rescored uid (committed w))
        \/ (exists e, o = Throw e) /\ committed w' = committed w
           /\ exists n s, fault E n s = true).
Proof.
  intros Htx H.
  destruct (score_shape E uid None w o w' H) as (evs & Hlog & Hall & _).
  destruct (score_run E uid w o w' Htx H) as (Htx' & Hf & Hc).
  exists evs. repeat split; assumption.
Qed.

Ltac split_score_full H :=
  match type of H with
  | context [updateProfileCompletion ?E ?u None ?w1] =>
      let Htx1 := fresh "Htx" in
      assert (Htx1 : tx w1 = None) by (cbn [tx]; first [reflexivity|assumption]);
      let o1 := fresh "o" in
      let w5 := fresh "w" in
      let Hs := fresh "Hs" in
      destruct (updateProfileCompletion E u None w1) as [o1 w5] eqn:Hs;
      destruct (score_full E u w1 o1 w5 Htx1 Hs)
        as (?evs & ?Hlog & ?Hall & ?Htx & ?Hfiles
            & [[-> ?Hc] | [[? ->] [?Hc ?Hfault]]]);
      clear Hs Htx1;
      cbn [committed tx files log] in *
  end.

Ltac run_full H := run_with split_score_full H.

Lemma pool_queries_only (evs : list event) :
  Forall (fun ev => exists s ps ok, ev = EvQuery Pool false s ps ok) evs ->
  (forall p ok, ~ In (EvUnlink p ok) evs)
  /\ ~ In (EvQuery Client true Commit [] true) evs.
Proof.
  intros Hall. rewrite Forall_forall in Hall. split.
  - intros p ok Hin. destruct (Hall _ Hin) as (s & ps & ok' & Heq). discriminate.
  - intros Hin. destruct (Hall _ Hin) as (s & ps & ok' & Heq). discriminate.
Qed.

(** ** A resume whose rescoring fails *)

Lemma new_row_stored (uid : Z) (f : upload) (db : tables) :
  In (new_resume uid f (seq_documents db))
     (on_rows (other_resumes uid (seq_documents db)) clear_default
              (user_documents db ++ [new_resume uid f (seq_documents db)])).
Proof. rewrite on_rows_app_new. apply in_or_app. right. left. reflexivity. Qed.


(** X9.  When the recomputation that follows COMMIT in [uploadResume] fails,
    the handler's catch block removes the uploaded file although the
    document row is committed: the stored resume names a file that is no
    longer there. *)
Theorem failed_rescoring_unlinks_committed_resume
        (E : env) (uid : Z) (f : upload) (req : request) (w : world) e w' :
  cleanup_reliable E ->
  user req = Some uid -> uid <> 0 -> file req = Some f -> tx w = None ->
  uploadResume E req w = (Ok (Next e), w') ->
  committed_in (since w w') ->
  In (new_resume uid f (seq_documents (committed w))) (user_documents (committed w'))
  /\ ~ In (in_uploads (filename f)) (files w').
Proof.
  intros [HR HU] Hu Hz Hf Htx H Hcom.
  unfold uploadResume, authenticated in H. rewrite Hu, Hf in H.
  destruct (uid =? 0) eqn:Hz0; [lia|].
  run_full H; land H.
  all: try (rewrite HR in *; discriminate).
  all: try (rewrite HU in *; discriminate).
  all: revert Hcom; calc_since; unfold committed_in; intros Hcom.
  all: try (cbn [In] in Hcom; in_log; fail).
  all: repeat match goal with Hx : files _ = _ |- _ => rewrite Hx in *; clear Hx end.
  all: repeat match goal with Hx : committed _ = _ |- _ => rewrite Hx in *; clear Hx end.
  all: cbn [user_documents with_documents].
  all: split; [apply new_row_stored|].
  all: first [apply filter_self | apply existsb_absent; assumption].
Qed.

Lemma failed_rescoring_unlinks_committed_resume_witness :
  In (new_resume 7 Sample.r1 2)
     (user_documents
        (committed (snd (uploadResume Scenario.counts_refused
                           (Sample.with_file Sample.r1) Scenario.w2))))
  /\ ~ In "uploads/r1.pdf"
          (files (snd (uploadResume Scenario.counts_refused
                         (Sample.with_file Sample.r1) Scenario.w2))).
Proof.
  apply (failed_rescoring_unlinks_committed_resume
           Scenario.counts_refused 7 Sample.r1 (Sample.with_file Sample.r1)
           Scenario.w2 DbError).
  - split; intros; reflexivity.
  - reflexivity.
  - lia.
  - reflexivity.
  - reflexivity.
  - vm_compute. reflexivity.
  - vm_compute. tauto.
Defined.

(** ** The profile update *)

(** X10.  [updateProfile] never succeeds.  Its UPDATE of [user_profiles] is
    sent with eleven bind values for twelve placeholders, so the server
    rejects it every time: whatever the request and whatever else fails,
    the reply is 401 or an error handed to [next], and no committed table
    changes. *)
Theorem profile_update_never_succeeds
        (E : env) (req : request) (w : world) o w' :
  tx w = None ->
  updateProfile E req w = (o, w') ->
  committed w' = committed w
  /\ (o = Ok (Json 401 []) \/ exists e, o = Ok (Next e))
  /\ (forall r it ps ok,
        In (EvQuery r it UpdateProfileFields ps ok) (since w w') ->
        ok = false /\ List.length ps = 11%nat
        /\ placeholders UpdateProfileFields = 12%nat).
Proof.
  intros Htx H.
  unfold updateProfile, afterProfileUpdate, undoProfileUpdate, authenticated in H.
  destruct (user req) as [uid|]; [destruct (uid =? 0) eqn:Hz|].
  all: destruct (file req) as [f|].
  all: run_all H; land H.
  all: split; [reflexivity|].
  all: split; [first [left; reflexivity | right; eexists; reflexivity]|].
  all: calc_since; intros r0 it0 ps0 ok0 Hin; cbn [In] in Hin; in_log.
  all: repeat split; reflexivity.
Qed.

Lemma profile_update_never_succeeds_witness :
  committed (snd (updateProfile Sample.calm
                    (Sample.with_body [("location", JStr "Nairobi")]) Scenario.w2))
  = Scenario.db2
  /\ fst (updateProfile Sample.calm
            (Sample.with_body [("location", JStr "Nairobi")]) Scenario.w2)
     = Ok (Next DbError).
Proof.
  destruct (profile_update_never_succeeds
              Sample.calm (Sample.with_body [("location", JStr "Nairobi")]) Scenario.w2
              (fst (updateProfile Sample.calm
                      (Sample.with_body [("location", JStr "Nairobi")]) Scenario.w2))
              (snd (updateProfile Sample.calm
                      (Sample.with_body [("location", JStr "Nairobi")]) Scenario.w2)))
    as (Hc & _ & _).
  - reflexivity.
  - vm_compute. reflexivity.
  - split; [exact Hc|]. vm_compute. reflexivity.
Defined.

(** ** Deleting a resume whose file cannot be removed *)

(** X11.  The removal of the file is best effort: when no statement fails but
    the file system refuses the removal, [deleteResume] still deletes
    the row and replies 200, and the file stays in the upload
    directory. *)
Theorem resume_row_goes_even_if_file_stays
        (E : env) (req : request) (uid : Z) (d : document_row) (w : world) o w' :
  (forall n s, fault E n s = false) ->
  (forall n p, unlink_fault E n p = true) ->
  authenticated req = Some uid ->
  parseInt E (url_param req) = Some (d_id d) ->
  In d (user_documents (committed w)) -> owned_by uid d = true -> is_resume d = true ->
  tx w = None ->
  deleteResume E req w = (o, w') ->
  o = Ok (Json 200 [])
  /\ user_documents (committed w')
     = keep_rows (own_document (d_id d) uid) (user_documents (committed w))
  /\ files w' = files w.
Proof.
  intros HF HU Ha Hp Hin Ho Hr Htx H.
  unfold deleteResume in H. rewrite Ha, Hp in H.
  assert (F1 : filter (fun x => (d_id x =? d_id d) && owned_by uid x && is_resume x)
                      (user_documents (committed w)) <> []).
  { apply (filter_found _ _ d Hin). now rewrite Z.eqb_refl, Ho, Hr. }
  assert (F2 : Nat.eqb (count_of (fun x => (d_id x =? d_id d) && owned_by uid x)
                                 (user_documents (committed w))) 0 = false).
  { apply (count_found _ _ d Hin). now rewrite Z.eqb_refl, Ho. }
  run_full H; land H.
  all: try congruence.
  all: try (rewrite HF in *; discriminate).
  all: try (rewrite HU in *; discriminate).
  all: try (destruct Hfault as (n0 & s0 & Hfault); rewrite HF in Hfault; discriminate).
  all: repeat match goal with Hx : files _ = _ |- _ => rewrite Hx in *; clear Hx end.
  all: repeat match goal with Hx : committed _ = _ |- _ => rewrite Hx in *; clear Hx end.
  all: rewrite ?(proj1 (rescored_documents _ _)).
  all: repeat split; reflexivity.
Qed.

Lemma resume_row_goes_even_if_file_stays_witness :
  user_documents
    (committed (snd (deleteResume Scenario.readonly_uploads
                       {| user := Some 8; body := []; url_param := JNum 1; file := None |}
                       Scenario.w2)))
  = []
  /\ files (snd (deleteResume Scenario.readonly_uploads
                   {| user := Some 8; body := []; url_param := JNum 1; file := None |}
                   Scenario.w2))
     = files Scenario.w2.
Proof.
  destruct (resume_row_goes_even_if_file_stays
              Scenario.readonly_uploads
              {| user := Some 8; body := []; url_param := JNum 1; file := None |}
              8 Scenario.bob_resume Scenario.w2
              (fst (deleteResume Scenario.readonly_uploads
                      {| user := Some 8; body := []; url_param := JNum 1; file := None |}
                      Scenario.w2))
              (snd (deleteResume Scenario.readonly_uploads
                      {| user := Some 8; body := []; url_param := JNum 1; file := None |}
                      Scenario.w2)))
    as (_ & Hd & Hf).
  - reflexivity.
  - reflexivity.
  - reflexivity.
  - reflexivity.
  - left. reflexivity.
  - reflexivity.
  - reflexivity.
  - reflexivity.
  - vm_compute. reflexivity.
  - split; [rewrite Hd; vm_compute; reflexivity|exact Hf].
Defined.

(** ** Adding, then removing *)

Lemma filter_none_all {A : Type} (sel : A -> bool) (l : list A) :
  filter sel l = [] -> filter (fun a => negb (sel a)) l = l.
Proof.
  induction l as [|a l IH]; cbn [filter]; [reflexivity|].
  destruct (sel a); cbn [negb]; [discriminate|].
  intros H. now rewrite (IH H).
Qed.

Lemma keep_rows_app_new {A : Type} (sel : A -> bool) (l : list A) (a : A) :
  filter sel l = [] -> sel a = true -> keep_rows sel (l ++ [a]) = l.
Proof.
  intros Hl Ha. unfold keep_rows. rewrite filter_app, (filter_none_all sel l Hl).
  cbn [filter]. rewrite Ha. cbn [negb]. apply app_nil_r.
Qed.

Lemma filter_app_new {A : Type} (sel : A -> bool) (l : list A) (a : A) :
  filter sel l = [] -> sel a = true -> filter sel (l ++ [a]) = [a].
Proof.
  intros Hl Ha. rewrite filter_app, Hl. cbn [filter app]. now rewrite Ha.
Qed.

Ltac quiet_only HQ :=
  try (rewrite (proj1 HQ) in *; discriminate);
  try (rewrite (proj2 HQ) in *; discriminate);
  try (match goal with
       | Hf : exists n s, fault _ n s = true |- _ =>
           destruct Hf as (? & ? & Hf); rewrite (proj1 HQ) in Hf; discriminate
       end).

(** X12.  A skill that was just added can be removed again, and the table of
    user skills is then what it was before the two requests. *)
Theorem added_skill_can_be_removed
        (E : env) (uid sid : Z) (req1 req2 : request) (w : world)
        data w1 o2 w2 :
  quiet E ->
  authenticated req1 = Some uid -> authenticated req2 = Some uid ->
  tx w = None ->
  parseInt E (get (body req1) "skillId") = Some sid ->
  parseInt E (url_param req2) = Some sid ->
  addSkill E req1 w = (Ok (Json 201 data), w1) ->
  removeSkill E req2 w1 = (o2, w2) ->
  o2 = Ok (Json 200 [])
  /\ user_skills (committed w2) = user_skills (committed w)
  /\ count_of (fun us => us_user_id us =? uid) (user_skills (committed w1))
     = S (count_of (fun us => us_user_id us =? uid) (user_skills (committed w))).
Proof.
  intros HQ Ha1 Ha2 Htx Hp1 Hp2 H1 H2.
  unfold addSkill in H1. rewrite Ha1, Hp1 in H1.
  run_full H1; land H1; quiet_only HQ.
  assert (Hus : user_skills (committed w1)
                = user_skills (committed w)
                  ++ [new_user_skill uid sid
                        (sql_value (coalesce (get (body req1) "proficiencyLevel") JNull))
                        (seq_user_skills (committed w))]).
  { rewrite Hc.
    match goal with
    | |- user_skills (rescored ?u ?X) = _ =>
        destruct (rescored_other_tables u X) as (-> & _)
    end.
    reflexivity. }
  assert (Hnew : has_skill uid sid
                   (new_user_skill uid sid
                      (sql_value (coalesce (get (body req1) "proficiencyLevel") JNull))
                      (seq_user_skills (committed w))) = true).
  { unfold has_skill. cbn [new_user_skill us_user_id us_skill_id].
    now rewrite !Z.eqb_refl. }
  assert (F1 : filter (fun us => (us_user_id us =? uid) && (us_skill_id us =? sid))
                      (user_skills (committed w1)) <> []).
  { rewrite Hus. rewrite (filter_app_new (has_skill uid sid)); [discriminate| |exact Hnew].
    assumption. }
  assert (F2 : Nat.eqb (count_of (fun us => (us_user_id us =? uid) && (us_skill_id us =? sid))
                                 (user_skills (committed w1))) 0 = false).
  { unfold count_of. rewrite Hus.
    rewrite (filter_app_new (has_skill uid sid)); [reflexivity| |exact Hnew].
    assumption. }
  unfold removeSkill in H2. rewrite Ha2, Hp2 in H2.
  run_full H2; land H2; quiet_only HQ; try congruence.
  split; [reflexivity|]. split.
  - match goal with Hx : committed w2 = _ |- _ => rewrite Hx end.
    match goal with
    | |- user_skills (rescored ?u ?X) = _ =>
        destruct (rescored_other_tables u X) as (-> & _)
    end.
    cbn [user_skills with_user_skills]. rewrite Hus.
    apply (keep_rows_app_new (has_skill uid sid)); assumption.
  - rewrite Hus, count_of_app. unfold count_of at 2. cbn [filter].
    cbn [new_user_skill us_user_id]. rewrite Z.eqb_refl. cbn [List.length]. lia.
Qed.

Lemma added_skill_can_be_removed_witness :
  user_skills
    (committed
       (snd (removeSkill Sample.calm (Sample.with_param (JNum 4))
               (snd (addSkill Sample.calm (Sample.with_body [("skillId", JNum 4)])
                              Scenario.w2)))))
  = user_skills Scenario.db2.
Proof.
  destruct (added_skill_can_be_removed
              Sample.calm 7 4
              (Sample.with_body [("skillId", JNum 4)]) (Sample.with_param (JNum 4))
              Scenario.w2
              [[ ("id", JNum 2); ("skill_id", JNum 4); ("name", JStr "SQL");
                 ("category", JStr "Data"); ("proficiency_level", JNull) ]]
              (snd (addSkill Sample.calm (Sample.with_body [("skillId", JNum 4)])
                             Scenario.w2))
              (fst (removeSkill Sample.calm (Sample.with_param (JNum 4))
                      (snd (addSkill Sample.calm (Sample.with_body [("skillId", JNum 4)])
                                     Scenario.w2))))
              (snd (removeSkill Sample.calm (Sample.with_param (JNum 4))
                      (snd (addSkill Sample.calm (Sample.with_body [("skillId", JNum 4)])
                                     Scenario.w2)))))
    as (_ & H & _).
  - split; intros; reflexivity.
  - reflexivity.
  - reflexivity.
  - reflexivity.
  - reflexivity.
  - reflexivity.
  - vm_compute. reflexivity.
  - vm_compute. reflexivity.
  - exact H.
Defined.

Lemma fresh_none {A : Type} (key : A -> Z) (owner : A -> bool) (n : Z) (l : list A) :
  Forall (fun a => key a < n) l ->
  filter (fun a => (key a =? n) && owner a) l = [].
Proof.
  induction 1 as [|a l Ha _ IH]; cbn [filter]; [reflexivity|].
  replace (key a =? n) with false by (symmetry; apply Z.eqb_neq; lia).
  exact IH.
Qed.

Lemma rescored_entries (t : entry_table) (uid : Z) (db : tables) :
  entries t (rescored uid db) = entries t db.
Proof.
  destruct (rescored_other_tables uid db) as (_ & _ & He1 & He2).
  destruct t; assumption.
Qed.

(** X13.  An entry that was just added can be deleted again under the id the
    reply gave, and the table is then what it was before the two
    requests.  It holds for experience and for education entries. *)
Theorem added_entry_can_be_deleted
        (E : env) (t : entry_table) (uid id : Z) (req1 req2 : request) (w : world)
        row w1 o2 w2 :
  quiet E ->
  authenticated req1 = Some uid -> authenticated req2 = Some uid ->
  tx w = None ->
  Forall (fun e => e_id e < seq_entries t (committed w)) (entries t (committed w)) ->
  addEntry E t req1 w = (Ok (Json 201 [row]), w1) ->
  get row "id" = JNum id ->
  parseInt E (url_param req2) = Some id ->
  deleteEntry E t req2 w1 = (o2, w2) ->
  row = entry_object (new_entry t uid (body req1) id)
  /\ entries t (committed w1) = entries t (committed w) ++ [new_entry t uid (body req1) id]
  /\ o2 = Ok (Json 200 [])
  /\ entries t (committed w2) = entries t (committed w).
Proof.
  intros HQ Ha1 Ha2 Htx Hfresh H1 Hid Hp2 H2.
  unfold addEntry in H1. rewrite Ha1 in H1.
  destruct t; run_full H1; land H1; quiet_only HQ.
  all: cbn [get String.eqb Ascii.eqb Bool.eqb entry_object e_id] in Hid;
    inversion Hid; subst id; clear Hid.
  all: match type of H2 with
       | deleteEntry _ ?t _ _ = _ =>
           assert (Hus : entries t (committed w1)
                         = entries t (committed w)
                           ++ [new_entry t uid (body req1) (seq_entries t (committed w))])
             by (rewrite Hc, rescored_entries; reflexivity);
           assert (Hnone : filter (fun e => (e_id e =? seq_entries t (committed w))
                                            && (e_user_id e =? uid))
                                  (entries t (committed w)) = [])
             by (apply (fresh_none e_id (fun e => e_user_id e =? uid)); exact Hfresh);
           assert (Hnew : own_entry (seq_entries t (committed w)) uid
                            (new_entry t uid (body req1) (seq_entries t (committed w)))
                          = true)
             by (unfold own_entry; cbn [new_entry e_id e_user_id];
                 now rewrite !Z.eqb_refl);
           assert (F1 : filter (fun e => (e_id e =? seq_entries t (committed w))
                                         && (e_user_id e =? uid))
                               (entries t (committed w1)) <> [])
             by (rewrite Hus;
                 rewrite (filter_app_new (own_entry (seq_entries t (committed w)) uid));
                 [discriminate|exact Hnone|exact Hnew]);
           assert (F2 : Nat.eqb (count_of (fun e => (e_id e =? seq_entries t (committed w))
                                                    && (e_user_id e =? uid))
                                          (entries t (committed w1))) 0 = false)
             by (unfold count_of; rewrite Hus;
                 rewrite (filter_app_new (own_entry (seq_entries t (committed w)) uid));
                 [reflexivity|exact Hnone|exact Hnew])
       end.
  all: cbn [seq_entries] in *.
  all: unfold deleteEntry in H2; rewrite Ha2, Hp2 in H2.
  all: run_full H2; land H2; quiet_only HQ; try congruence.
  all: split; [reflexivity|].
  all: split; [exact Hus|].
  all: split; [reflexivity|].
  all: match goal with
       | Hx : committed ?wf = rescored _ _ |- entries _ (committed ?wf) = _ =>
           rewrite Hx
       end;
    rewrite rescored_entries.
  all: match goal with
       | |- entries ?t (with_entries ?t _ (keep_rows ?sel (entries ?t _)) _) = _ =>
           transitivity (keep_rows sel (entries t (committed w1)));
           [destruct t; reflexivity|]
       end.
  all: rewrite Hus.
  all: apply (keep_rows_app_new (own_entry _ uid)); assumption.
Qed.

Lemma added_entry_can_be_deleted_witness :
  entries Experiences
    (committed
       (snd (deleteEntry Sample.calm Experiences (Sample.with_param (JNum 2))
               (snd (addEntry Sample.calm Experiences
                       (Sample.with_body Scenario.job_body) Scenario.w2)))))
  = entries Experiences Scenario.db2.
Proof.
  destruct (added_entry_can_be_deleted
              Sample.calm Experiences 7 2
              (Sample.with_body Scenario.job_body) (Sample.with_param (JNum 2))
              Scenario.w2
              (entry_object (new_entry Experiences 7 Scenario.job_body 2))
              (snd (addEntry Sample.calm Experiences
                      (Sample.with_body Scenario.job_body) Scenario.w2))
              (fst (deleteEntry Sample.calm Experiences (Sample.with_param (JNum 2))
                      (snd (addEntry Sample.calm Experiences
                              (Sample.with_body Scenario.job_body) Scenario.w2))))
              (snd (deleteEntry Sample.calm Experiences (Sample.with_param (JNum 2))
                      (snd (addEntry Sample.calm Experiences
                              (Sample.with_body Scenario.job_body) Scenario.w2)))))
    as (_ & _ & _ & H).
  - split; intros; reflexivity.
  - reflexivity.
  - reflexivity.
  - reflexivity.
  - cbn. repeat constructor.
  - vm_compute. reflexivity.
  - reflexivity.
  - reflexivity.
  - vm_compute. reflexivity.
  - exact H.
Defined.

Lemma uploads_path (name : string) :
  under_root ("/uploads/" ++ name) = in_uploads name.
Proof. reflexivity. Qed.

(** X14.  A resume that was just uploaded can be deleted again under the id
    the reply gave: its row and its file are gone, every other file is
    untouched, and the other rows are what they were, except that the
    resume that was the default before the upload is no longer one: the
    user is left without a default resume. *)
Theorem uploaded_resume_can_be_deleted
        (E : env) (uid id : Z) (f : upload) (req1 req2 : request) (w : world)
        row w1 o2 w2 :
  quiet E ->
  user req1 = Some uid -> uid <> 0 -> file req1 = Some f ->
  authenticated req2 = Some uid ->
  tx w = None ->
  ids_fresh (committed w) ->
  uploadResume E req1 w = (Ok (Json 201 [row]), w1) ->
  get row "id" = JNum id ->
  parseInt E (url_param req2) = Some id ->
  deleteResume E req2 w1 = (o2, w2) ->
  o2 = Ok (Json 200 [])
  /\ user_documents (committed w2)
     = on_rows (other_resumes uid id) clear_default (user_documents (committed w))
  /\ default_resumes uid (committed w2) = 0%nat
  /\ ~ In (in_uploads (filename f)) (files w2)
  /\ (forall q, q <> in_uploads (filename f) -> (In q (files w2) <-> In q (files w))).
Proof.
  intros HQ Hu Hz Hf Ha2 Htx Hfresh H1 Hid Hp2 H2.
  destruct (uploadResume_quiet E uid f req1 w HQ Hu Hz Hf Htx)
    as (w1' & Hr1 & Hd1 & Hs1 & Htx1 & Hfl1 & _).
  rewrite Hr1 in H1. inversion H1; subst row w1'. clear H1.
  cbn [get String.eqb Ascii.eqb Bool.eqb document_object d_id new_resume] in Hid.
  inversion Hid; subst id; clear Hid.
  set (n := seq_documents (committed w)) in *.
  set (old := on_rows (other_resumes uid n) clear_default (user_documents (committed w))) in *.
  assert (Hold : Forall (fun d => d_id d < n) old)
    by (apply fresh_on_rows; exact Hfresh).
  assert (Hnew : (fun x => (d_id x =? n) && owned_by uid x && is_resume x)
                   (new_resume uid f n) = true).
  { unfold owned_by, is_resume. cbn [new_resume d_id d_user_id document_type].
    now rewrite !Z.eqb_refl. }
  assert (Hnew' : own_document n uid (new_resume uid f n) = true).
  { unfold own_document, owned_by. cbn [new_resume d_id d_user_id].
    now rewrite !Z.eqb_refl. }
  assert (N1 : filter (fun x => (d_id x =? n) && owned_by uid x && is_resume x) old = []).
  { apply (fresh_none d_id (fun x => owned_by uid x && is_resume x)) in Hold.
    rewrite <- Hold. apply filter_ext. intros x. now rewrite andb_assoc. }
  assert (N2 : filter (own_document n uid) old = [])
    by (apply (fresh_none d_id (owned_by uid)); exact Hold).
  assert (F1 : filter (fun x => (d_id x =? n) && owned_by uid x && is_resume x)
                      (user_documents (committed w1)) = [new_resume uid f n]).
  { rewrite Hd1. now apply filter_app_new. }
  assert (F2 : Nat.eqb (count_of (fun x => (d_id x =? n) && owned_by uid x)
                                 (user_documents (committed w1))) 0 = false).
  { unfold count_of. rewrite Hd1.
    now rewrite (filter_app_new (fun x => (d_id x =? n) && owned_by uid x) old _ N2 Hnew'). }
  unfold deleteResume in H2. rewrite Ha2, Hp2 in H2.
  run_full H2; land H2; quiet_only HQ; try congruence.
  all: match goal with
       | Hx : ?d0 :: ?l0 = [new_resume _ _ _] |- _ =>
           inversion Hx; subst d0 l0; clear Hx
       end.
  all: cbn [storage_url new_resume] in *; rewrite uploads_path in *.
  all: split; [reflexivity|].
  all: match goal with
       | Hx : committed ?wf = rescored _ _ |- context [committed ?wf] =>
           rewrite Hx
       end.
  all: unfold default_resumes; rewrite (proj1 (rescored_documents _ _)).
  all: cbn [user_documents with_documents].
  all: rewrite Hd1,
    (keep_rows_app_new (fun x => (d_id x =? n) && owned_by uid x) old _ N2 Hnew').
  all: split; [reflexivity|].
  all: split; [exact (cleared_none uid n _ Hfresh)|].
  all: repeat match goal with Hx : files _ = _ |- _ => rewrite Hx in *; clear Hx end.
  all: split; [first [apply filter_self | apply existsb_absent; assumption]|].
  all: intros q Hq; first [reflexivity | apply filter_other; exact Hq].
Qed.

Lemma uploaded_resume_can_be_deleted_witness :
  map (fun d => (d_id d, is_default_resume d))
      (user_documents
         (committed
            (snd (deleteResume Sample.calm
                    {| user := Some 8; body := []; url_param := JNum 2; file := None |}
                    (snd (uploadResume Sample.calm
                            {| user := Some 8; body := []; url_param := JUndefined;
                               file := Some Sample.r1 |}
                            Scenario.w2))))))
  = [(1, false)]
  /\ ~ In "uploads/r1.pdf"
          (files
             (snd (deleteResume Sample.calm
                     {| user := Some 8; body := []; url_param := JNum 2; file := None |}
                     (snd (uploadResume Sample.calm
                             {| user := Some 8; body := []; url_param := JUndefined;
                                file := Some Sample.r1 |}
                             Scenario.w2))))).
Proof.
  destruct (uploaded_resume_can_be_deleted
              Sample.calm 8 2 Sample.r1
              {| user := Some 8; body := []; url_param := JUndefined;
                 file := Some Sample.r1 |}
              {| user := Some 8; body := []; url_param := JNum 2; file := None |}
              Scenario.w2
              (document_object (new_resume 8 Sample.r1 2))
              (snd (uploadResume Sample.calm
                      {| user := Some 8; body := []; url_param := JUndefined;
                         file := Some Sample.r1 |}
                      Scenario.w2))
              (fst (deleteResume Sample.calm
                      {| user := Some 8; body := []; url_param := JNum 2; file := None |}
                      (snd (uploadResume Sample.calm
                              {| user := Some 8; body := []; url_param := JUndefined;
                                 file := Some Sample.r1 |}
                              Scenario.w2))))
              (snd (deleteResume Sample.calm
                      {| user := Some 8; body := []; url_param := JNum 2; file := None |}
                      (snd (uploadResume Sample.calm
                              {| user := Some 8; body := []; url_param := JUndefined;
                                 file := Some Sample.r1 |}
                              Scenario.w2)))))
    as (_ & Hd & _ & Hgone & _).
  - split; intros; reflexivity.
  - reflexivity.
  - lia.
  - reflexivity.
  - reflexivity.
  - reflexivity.
  - unfold ids_fresh. cbn. repeat constructor.
  - vm_compute. reflexivity.
  - reflexivity.
  - reflexivity.
  - vm_compute. reflexivity.
  - split; [rewrite Hd; vm_compute; reflexivity|exact Hgone].
Defined.

Lemma updateEntry_run (E : env) (t : entry_table) (req : request) (uid : Z)
      (w : world) o w' :
  authenticated req = Some uid -> tx w = None ->
  updateEntry E t req w = (o, w') ->
  entries t (committed w') = entries t (committed w)
  \/ exists fe fc id,
       parseInt E (url_param req) = Some id
       /\ entries t (committed w')
          = on_rows (own_entry id uid)
                    (edited_entry t (body req) fe fc id uid)
                    (entries t (committed w)).
Proof.
  intros Ha Htx H.
  destruct t; unfold updateEntry in H; rewrite Ha in H.
  all: run_all H; land H.
  all: try (left; reflexivity).
  all: right.
  all: match goal with
       | Hc : committed ?wf = _ |- context [committed ?wf] =>
           rewrite Hc; try rewrite rescored_entries
       end.
  all: match goal with
       | |- context [apply_set (update_columns Experiences)
                               [_; _; _; _; ?fe; ?fc; _; _; _; JNum ?z; _]] =>
           exists fe, fc, z; split; reflexivity
       | |- context [apply_set (update_columns Educations)
                               [_; _; _; _; _; ?fe; ?fc; _; _; JNum ?z; _]] =>
           exists fe, fc, z; split; reflexivity
       end.
Qed.

Lemma assigned_none (cs : list (string * bool)) (ps : list jsval) (k : string) :
  ~ In k (map fst cs) -> assigned cs ps k = None.
Proof.
  unfold assigned. revert ps.
  induction cs as [|[k0 wr] cs IH]; intros ps Hk; [reflexivity|].
  destruct ps as [|p ps]; [reflexivity|]. cbn [combine find fst].
  destruct (String.eqb_spec k0 k) as [->|_].
  - destruct Hk. now left.
  - apply IH. intros Hin. apply Hk. now right.
Qed.

Lemma apply_set_get (cs : list (string * bool)) (ps : list jsval) (o : row)
      (k : string) :
  NoDup (map fst cs) ->
  get (apply_set cs ps o) k
  = match assigned cs ps k with
    | Some (_, true, p) => sql_coalesce p (sql_value (get o k))
    | Some (_, false, p) => stored k p
    | None => get o k
    end.
Proof.
  revert ps o. induction cs as [|[k0 wr] cs IH]; intros ps o Hnd.
  - reflexivity.
  - destruct ps as [|p ps]; [reflexivity|].
    cbn [map fst] in Hnd. inversion Hnd as [|? ? Hk Hnd']. subst.
    cbn [apply_set]. rewrite (IH _ _ Hnd'). unfold assigned at 2.
    cbn [combine find fst].
    destruct (String.eqb_spec k0 k) as [->|Hne].
    + rewrite (assigned_none _ _ _ Hk), get_set_col, String.eqb_refl.
      destruct wr; reflexivity.
    + fold (assigned cs ps k). rewrite get_set_col.
      destruct (String.eqb_spec k0 k) as [|_]; [contradiction|reflexivity].
Qed.

Lemma update_columns_distinct (t : entry_table) : NoDup (map fst (update_columns t)).
Proof.
  destruct t; cbn [update_columns map fst].
  all: repeat (constructor;
               [ cbn [In]; intros Hin;
                 repeat match type of Hin with
                        | _ \/ _ => destruct Hin as [Hin|Hin]
                        | False => destruct Hin
                        | _ = _ => discriminate Hin
                        end
               | ]).
  all: constructor.
Qed.

Lemma edited_entry_cols (t : entry_table) (b : row) (fe fc : jsval) (id uid : Z)
      (e : entry_row) (k : string) :
  In (k, true) (update_columns t) ->
  get (e_cols (edited_entry t b fe fc id uid e)) k
  = sql_coalesce (get b k) (sql_value (get (e_cols e) k)).
Proof.
  intros Hk. unfold edited_entry. cbn [e_cols].
  rewrite (apply_set_get _ _ _ _ (update_columns_distinct t)).
  destruct t; cbn [update_columns In] in Hk.
  all: repeat match type of Hk with
              | _ \/ _ => destruct Hk as [Hk|Hk]
              | False => destruct Hk
              | (_, _) = (_, _) => injection Hk as <-
              end;
    try discriminate.
  all: reflexivity.
Qed.

Lemma on_rows_related {A : Type} (R : A -> A -> Prop) (sel : A -> bool)
      (f : A -> A) (l : list A) :
  (forall a, R a a) -> (forall a, sel a = true -> R a (f a)) ->
  Forall2 R l (on_rows sel f l).
Proof.
  intros Hr Hf. unfold on_rows.
  induction l as [|a l IH]; cbn [map]; constructor; [|exact IH].
  destruct (sel a) eqn:Hs; [now apply Hf|apply Hr].
Qed.

Lemma related_refl {A : Type} (R : A -> A -> Prop) (l : list A) :
  (forall a, R a a) -> Forall2 R l l.
Proof.
  intros Hr. induction l; constructor; auto.
Qed.

(** X15.  An update of an experience or education entry adds and removes no
    row and changes at most the caller's row with the id of the URL.  In
    that row each of the seven columns under COALESCE holds the value
    sent, and keeps the stored value when the body leaves it out or
    sends null: an update cannot clear such a column. *)
Theorem update_keeps_what_is_not_sent
        (E : env) (t : entry_table) (req : request) (uid : Z) (w : world) o w' :
  authenticated req = Some uid -> tx w = None ->
  updateEntry E t req w = (o, w') ->
  Forall2
    (fun e e' =>
       e' = e
       \/ (parseInt E (url_param req) = Some (e_id e) /\ e_user_id e = uid
           /\ e_id e' = e_id e /\ e_user_id e' = e_user_id e
           /\ forall k, In (k, true) (update_columns t) ->
                get (e_cols e') k
                = match sql_value (get (body req) k) with
                  | JNull => sql_value (get (e_cols e) k)
                  | v => v
                  end))
    (entries t (committed w)) (entries t (committed w')).
Proof.
  intros Ha Htx H.
  destruct (updateEntry_run E t req uid w o w' Ha Htx H)
    as [->|(fe & fc & id & Hid & ->)].
  - apply related_refl. intros a. now left.
  - apply on_rows_related.
    + intros a. now left.
    + intros a Hsel. right. unfold own_entry in Hsel.
      apply andb_true_iff in Hsel. destruct Hsel as [Hi Hu].
      apply Z.eqb_eq in Hi. apply Z.eqb_eq in Hu. subst id.
      split; [exact Hid|]. split; [exact Hu|].
      split; [reflexivity|]. split; [reflexivity|].
      intros k Hk. apply (edited_entry_cols t (body req) fe fc (e_id a) uid a k Hk).
Qed.

Lemma update_keeps_what_is_not_sent_witness :
  Forall2
    (fun e e' =>
       e' = e
       \/ (parseInt Sample.calm (url_param Scenario.bob_put) = Some (e_id e)
           /\ e_user_id e = 8
           /\ e_id e' = e_id e /\ e_user_id e' = e_user_id e
           /\ forall k, In (k, true) (update_columns Experiences) ->
                get (e_cols e') k
                = match sql_value (get (body Scenario.bob_put) k) with
                  | JNull => sql_value (get (e_cols e) k)
                  | v => v
                  end))
    (entries Experiences (committed Scenario.w2))
    (entries Experiences
       (committed (snd (updateEntry Sample.calm Experiences Scenario.bob_put
                                    Scenario.w2))))
  /\ map (fun e => (get (e_cols e) "company_name", get (e_cols e) "job_title"))
         (entries Experiences
            (committed (snd (updateEntry Sample.calm Experiences Scenario.bob_put
                                         Scenario.w2))))
     = [(JStr "Acme", JStr "Lead")].
Proof.
  split.
  - apply (update_keeps_what_is_not_sent
             Sample.calm Experiences Scenario.bob_put 8 Scenario.w2
             (fst (updateEntry Sample.calm Experiences Scenario.bob_put Scenario.w2))
             (snd (updateEntry Sample.calm Experiences Scenario.bob_put Scenario.w2))).
    + reflexivity.
    + reflexivity.
    + apply surjective_pairing.
  - vm_compute. reflexivity.
Defined.

(** ** A flag that is not a boolean *)

Lemma update_readable (t : entry_table) (b : row) (fe fc : jsval) (rest : list jsval) :
  all_readable (map fst (update_columns t)) (update_values t b fe fc ++ rest)
  = match as_boolean fc with Some _ => true | None => false end.
Proof.
  destruct t; cbn [update_columns update_values map fst app all_readable combine
                   forallb readable snd boolean_column String.eqb Ascii.eqb Bool.eqb
                   andb];
    destruct (as_boolean fc); reflexivity.
Qed.

Lemma edited_entry_flag (t : entry_table) (b : row) (fe fc : jsval) (id uid : Z)
      (e : entry_row) :
  get (e_cols (edited_entry t b fe fc id uid e)) "is_current" = stored "is_current" fc
  /\ get (e_cols (edited_entry t b fe fc id uid e)) "end_date" = sql_value fe.
Proof.
  unfold edited_entry. cbn [e_cols].
  destruct t; cbn [update_columns update_values app apply_set];
    rewrite !get_set_col; cbn [String.eqb Ascii.eqb Bool.eqb];
    split; reflexivity.
Qed.

Lemma stored_reads_true (v : jsval) :
  reads_as_true v = true -> stored "is_current" v = JBool true.
Proof.
  unfold reads_as_true, stored.
  cbn [boolean_column String.eqb Ascii.eqb Bool.eqb].
  destruct (as_boolean v) as [[| |[|]| |]|]; intros H;
    first [reflexivity | discriminate H].
Qed.

(** X30.  A flag sent as text is stored as TRUE next to an end date.  When
    an update of an entry sends [is_current] as a text or a number that
    the server reads as TRUE (the text [true], [yes], [on], the
    number 1) together with an end date, the handler compares the flag
    with the boolean [true], finds it different and keeps the end date;
    no statement failing, the reply is 200 and the caller's entry is
    stored as current with that end date. *)
Theorem flag_sent_as_text_keeps_the_end_date
        (E : env) (t : entry_table) (req : request) (uid id : Z) (e : entry_row)
        (w : world) o w' :
  no_statement_fault E ->
  authenticated req = Some uid ->
  parseInt E (url_param req) = Some id ->
  tx w = None ->
  In e (entries t (committed w)) -> own_entry id uid e = true ->
  reads_as_true (get (body req) "is_current") = true ->
  get (body req) "is_current" <> JBool true ->
  is_undefined (get (body req) "end_date") = false ->
  date_is_nan E (get (body req) "end_date") = false ->
  (truthy (get (body req) "start_date") = true ->
   date_is_nan E (get (body req) "start_date") = false) ->
  updateEntry E t req w = (o, w') ->
  (exists data, o = Ok (Json 200 data))
  /\ (exists e', In e' (entries t (committed w')) /\ own_entry id uid e' = true)
  /\ (forall e', In e' (entries t (committed w')) -> own_entry id uid e' = true ->
        get (e_cols e') "is_current" = JBool true
        /\ get (e_cols e') "end_date" = get (body req) "end_date")
  /\ (get (body req) "end_date" <> JNull -> ~ entries_sound (committed w')).
Proof.
  intros HQ Ha Hid Htx Hin Hown Hread Hnot Hend Hdate Hstart H.
  assert (Hund : is_undefined (get (body req) "is_current") = false).
  { destruct (get (body req) "is_current"); first [reflexivity|discriminate Hread]. }
  assert (Htrue : is_true (get (body req) "is_current") = false).
  { destruct (get (body req) "is_current") as [| |[|]| |];
      first [reflexivity|now destruct Hnot]. }
  assert (Hsd : truthy (get (body req) "start_date")
                && date_is_nan E (get (body req) "start_date") = false).
  { destruct (truthy (get (body req) "start_date")); [now apply Hstart|reflexivity]. }
  assert (Hsent : sql_value (get (body req) "end_date") = get (body req) "end_date").
  { destruct (get (body req) "end_date"); first [reflexivity|discriminate Hend]. }
  assert (Hsome : In e (filter (fun x => (e_id x =? id) && (e_user_id x =? uid))
                               (entries t (committed w)))).
  { apply filter_In. split; [exact Hin|exact Hown]. }
  assert (Hrows : (exists data, o = Ok (Json 200 data))
                  /\ entries t (committed w')
                     = on_rows (own_entry id uid)
                         (edited_entry t (body req) (get (body req) "end_date")
                                       (get (body req) "is_current") id uid)
                         (entries t (committed w))).
  { unfold updateEntry in H. rewrite Ha, Hid in H. cbv zeta in H.
    rewrite Hund, Hend, Hdate, Hsd in H. cbn [negb] in H. rewrite Htrue in H.
    destruct t.
    all: open_monad H; simp_world H.
    all: rewrite (HQ _ _) in H; rewrite Htx in H; simp_world H.
    all: destruct (filter _ _) as [|e0 l] in H, Hsome; [destruct Hsome|]; simp_world H.
    all: rewrite (HQ _ _) in H.
    all: match type of H with
         | context [all_readable ?ks ?vs] =>
             assert (Hok : all_readable ks vs = true)
         end.
    1,3: (match goal with
          | |- all_readable _ (_ :: _ :: _ :: _ :: ?fe :: ?fc :: _ :: _ :: _ :: _ :: _ :: nil)
               = true =>
              first
                [ change (all_readable (map fst (update_columns Experiences))
                            (update_values Experiences (body req) fe fc
                               ++ [JNum id; JNum uid]) = true)
                | match goal with
                  | |- all_readable _ (_ :: _ :: _ :: _ :: _ :: ?fe' :: ?fc' :: _) = true =>
                      change (all_readable (map fst (update_columns Educations))
                                (update_values Educations (body req) fe' fc'
                                   ++ [JNum id; JNum uid]) = true)
                  end ]
          end;
          rewrite update_readable; unfold reads_as_true in Hread;
          destruct (as_boolean (get (body req) "is_current"));
          [reflexivity|discriminate Hread]).
    all: rewrite Hok in H; simp_world H.
    all: split_score_quiet HQ H; simp_world H; land H.
    all: split; [eexists; reflexivity|].
    all: rewrite Hc, rescored_entries; reflexivity. }
  destruct Hrows as [Hrep Hrows].
  assert (Hall : forall e', In e' (entries t (committed w')) ->
                            own_entry id uid e' = true ->
                            get (e_cols e') "is_current" = JBool true
                            /\ get (e_cols e') "end_date" = get (body req) "end_date").
  { intros e' He' Hown'. rewrite Hrows in He'. unfold on_rows in He'.
    apply in_map_iff in He'. destruct He' as (x & <- & _).
    destruct (own_entry id uid x) eqn:Hx; [|congruence].
    destruct (edited_entry_flag t (body req) (get (body req) "end_date")
                (get (body req) "is_current") id uid x) as [-> ->].
    split; [exact (stored_reads_true _ Hread)|exact Hsent]. }
  assert (Hex : exists e', In e' (entries t (committed w')) /\ own_entry id uid e' = true).
  { exists (edited_entry t (body req) (get (body req) "end_date")
                         (get (body req) "is_current") id uid e).
    split; [|exact Hown].
    rewrite Hrows. unfold on_rows. apply in_map_iff. exists e.
    rewrite Hown. split; [reflexivity|exact Hin]. }
  split; [exact Hrep|]. split; [exact Hex|]. split; [exact Hall|].
  intros Hdate' [Hx Hd]. destruct Hex as (e' & He' & Hown').
  destruct (Hall e' He' Hown') as [Hflag Hdt].
  assert (Hs : entry_sound e').
  { destruct t; cbn [entries] in He';
      [exact (proj1 (Forall_forall _ _) Hx e' He')
      |exact (proj1 (Forall_forall _ _) Hd e' He')]. }
  destruct Hs as [_ Hopen]. apply Hdate'. rewrite <- Hdt. exact (Hopen Hflag).
Qed.

Lemma flag_sent_as_text_keeps_the_end_date_witness :
  map (fun e => (get (e_cols e) "is_current", get (e_cols e) "end_date"))
      (entries Experiences
         (committed (snd (updateEntry Sample.calm Experiences Scenario.bob_leaves
                                      Scenario.w2))))
  = [(JBool true, JStr "2024-01-31")]
  /\ ~ entries_sound
         (committed (snd (updateEntry Sample.calm Experiences Scenario.bob_leaves
                                      Scenario.w2))).
Proof.
  destruct (flag_sent_as_text_keeps_the_end_date
              Sample.calm Experiences Scenario.bob_leaves 8 1 Scenario.bob_job
              Scenario.w2
              (fst (updateEntry Sample.calm Experiences Scenario.bob_leaves Scenario.w2))
              (snd (updateEntry Sample.calm Experiences Scenario.bob_leaves Scenario.w2)))
    as (_ & _ & _ & Hbad).
  - intros n s; reflexivity.
  - reflexivity.
  - reflexivity.
  - reflexivity.
  - left; reflexivity.
  - reflexivity.
  - reflexivity.
  - discriminate.
  - reflexivity.
  - reflexivity.
  - reflexivity.
  - apply surjective_pairing.
  - split; [vm_compute; reflexivity|]. apply Hbad. discriminate.
Defined.

(** * Further properties of the scorer *)

Module ScorerBounds.

Import Scorer ScorerFacts.
Local Open Scope Q_scope.

Lemma pts_range (c : bool) (w : Q) : 0 <= w -> 0 <= pts c w <= w.
Proof. intros Hw. destruct c; cbn [pts]; lra. Qed.

Lemma pts_mono (c c' : bool) (w : Q) :
  (c = true -> c' = true) -> 0 <= w -> pts c w <= pts c' w.
Proof.
  intros Hc Hw. destruct c; cbn [pts].
  - rewrite (Hc eq_refl). cbn [pts]. lra.
  - destruct c'; cbn [pts]; lra.
Qed.

Lemma count_pts_range (n : nat) (cap base step : Q) :
  0 <= cap -> 0 <= base -> 0 <= step -> 0 <= count_pts n cap base step <= cap.
Proof.
  intros Hc Hb Hs. destruct n as [|n]; cbn [count_pts]; [lra|].
  split; [|apply Q.le_min_l].
  apply Q.min_glb; [exact Hc|].
  assert (0 <= step * inject_Z (Z.of_nat (S n))).
  { apply Qmult_le_0_compat; [exact Hs|]. rewrite <- (Zle_Qle 0). lia. }
  lra.
Qed.

Lemma count_pts_mono (n n' : nat) (cap base step : Q) :
  (n <= n')%nat -> 0 <= cap -> 0 <= base -> 0 <= step ->
  count_pts n cap base step <= count_pts n' cap base step.
Proof.
  intros Hn Hc Hb Hs. destruct n as [|n].
  - cbn [count_pts]. apply (count_pts_range n' cap base step Hc Hb Hs).
  - destruct n' as [|n']; [lia|]. cbn [count_pts].
    apply Q.min_le_compat_l.
    pose proof (scaled_count_le (S n) (S n') step Hn Hs). lra.
Qed.

(** Counts beyond the point where the cap is reached score the same. *)
Lemma count_pts_saturates (k n : nat) (cap base step : Q) :
  (1 <= k)%nat -> 0 <= step -> cap <= base + step * inject_Z (Z.of_nat k) ->
  count_pts n cap base step == count_pts (Nat.min n k) cap base step.
Proof.
  intros Hk Hs Hcap. destruct (Nat.le_gt_cases n k) as [Hle|Hgt].
  - now rewrite (Nat.min_l n k Hle).
  - rewrite (Nat.min_r n k) by lia.
    rewrite (count_pts_capped k cap base step Hk Hcap).
    apply count_pts_capped; [lia|].
    pose proof (scaled_count_le k n step ltac:(lia) Hs). lra.
Qed.

Lemma links_le_cap (p : row) :
  pts (truthy (get p "website_url")) 3 + pts (truthy (get p "linkedin_url")) 4
  + pts (truthy (get p "github_url")) 3 <= 10.
Proof.
  pose proof (pts_range (truthy (get p "website_url")) 3).
  pose proof (pts_range (truthy (get p "linkedin_url")) 4).
  pose proof (pts_range (truthy (get p "github_url")) 3).
  lra.
Qed.

Lemma category_sum_range (p : row) (e d s r : nat) :
  0 <= category_sum truthy p e d s r <= 110.
Proof.
  unfold category_sum.
  pose proof (pts_range (truthy (get p "job_title")) 5).
  pose proof (pts_range (truthy (get p "location")) 5).
  pose proof (pts_range (truthy (get p "years_of_experience")) 5).
  pose proof (pts_range (truthy (get p "experience_level")) 5).
  pose proof (pts_range (truthy (get p "primary_industry")) 5).
  pose proof (pts_range (truthy (get p "profile_summary")) 10).
  pose proof (pts_range (truthy (get p "professional_summary")) 10).
  pose proof (pts_range (truthy (get p "website_url")) 3).
  pose proof (pts_range (truthy (get p "linkedin_url")) 4).
  pose proof (pts_range (truthy (get p "github_url")) 3).
  pose proof (pts_range (truthy (get p "profile_image_url")) 5).
  pose proof (pts_range (negb (Nat.eqb r 0)) 10).
  pose proof (count_pts_range e 15 5 2).
  pose proof (count_pts_range d 10 5 (25 # 10)).
  pose proof (count_pts_range s 15 3 1).
  rewrite (Q.min_r 10) by apply links_le_cap.
  lra.
Qed.

Lemma round_nonneg (x : Q) : 0 <= x -> (0 <= math_round x)%Z.
Proof.
  intros Hx. unfold math_round.
  change 0%Z with (Qfloor 0). apply Qfloor_resp_le. lra.
Qed.

Lemma round_mono (x y : Q) : x <= y -> (math_round x <= math_round y)%Z.
Proof. intros H. unfold math_round. apply Qfloor_resp_le. lra. Qed.

End ScorerBounds.

Section ScorerProperties.

Import Scorer ScorerFacts ScorerBounds.
Local Open Scope Q_scope.

(** X16.  The total before rounding lies between 0 and 110 and the score
    between 0 and 100; the lower bound of the clamp is never needed, the
    score is the rounded total or 100, whichever is smaller. *)
Theorem score_within_bounds (p : row) (e d s r : nat) :
  0 <= completionPercentage p (counts_row e d s r) <= 110
  /\ (0 <= finalPercentage p (counts_row e d s r) <= 100)%Z
  /\ finalPercentage p (counts_row e d s r)
     = Z.min 100 (math_round (completionPercentage p (counts_row e d s r))).
Proof.
  pose proof (category_sum_range p e d s r) as Hr.
  rewrite <- (completionPercentage_sum p e d s r) in Hr.
  pose proof (round_nonneg _ (proj1 Hr)) as Hn.
  unfold finalPercentage. repeat split; try tauto; lia.
Qed.

(** X17.  Filling in a field, or adding an experience, an education, a skill
    or a resume, never lowers the score. *)
Theorem score_is_monotone (p q : row) (e d s r e' d' s' r' : nat) :
  (forall k, truthy (get p k) = true -> truthy (get q k) = true) ->
  (e <= e')%nat -> (d <= d')%nat -> (s <= s')%nat -> (r <= r')%nat ->
  (finalPercentage p (counts_row e d s r)
   <= finalPercentage q (counts_row e' d' s' r'))%Z.
Proof.
  intros Hf He Hd Hs Hr.
  assert (Hsum : category_sum truthy p e d s r <= category_sum truthy q e' d' s' r').
  { unfold category_sum.
    pose proof (pts_mono _ _ 5 (Hf "job_title") ltac:(lra)).
    pose proof (pts_mono _ _ 5 (Hf "location") ltac:(lra)).
    pose proof (pts_mono _ _ 5 (Hf "years_of_experience") ltac:(lra)).
    pose proof (pts_mono _ _ 5 (Hf "experience_level") ltac:(lra)).
    pose proof (pts_mono _ _ 5 (Hf "primary_industry") ltac:(lra)).
    pose proof (pts_mono _ _ 10 (Hf "profile_summary") ltac:(lra)).
    pose proof (pts_mono _ _ 10 (Hf "professional_summary") ltac:(lra)).
    pose proof (pts_mono _ _ 3 (Hf "website_url") ltac:(lra)).
    pose proof (pts_mono _ _ 4 (Hf "linkedin_url") ltac:(lra)).
    pose proof (pts_mono _ _ 3 (Hf "github_url") ltac:(lra)).
    pose proof (pts_mono _ _ 5 (Hf "profile_image_url") ltac:(lra)).
    assert (pts (negb (Nat.eqb r 0)) 10 <= pts (negb (Nat.eqb r' 0)) 10).
    { apply pts_mono; [|lra].
      destruct r, r'; cbn; try congruence; lia. }
    pose proof (count_pts_mono e e' 15 5 2 He ltac:(lra) ltac:(lra) ltac:(lra)).
    pose proof (count_pts_mono d d' 10 5 (25 # 10) Hd ltac:(lra) ltac:(lra) ltac:(lra)).
    pose proof (count_pts_mono s s' 15 3 1 Hs ltac:(lra) ltac:(lra) ltac:(lra)).
    rewrite (Q.min_r 10) by apply links_le_cap.
    rewrite (Q.min_r 10) by apply links_le_cap.
    lra. }
  rewrite <- (completionPercentage_sum p e d s r) in Hsum.
  rewrite <- (completionPercentage_sum q e' d' s' r') in Hsum.
  pose proof (round_mono _ _ Hsum).
  unfold finalPercentage. lia.
Qed.

Lemma score_is_monotone_witness :
  (finalPercentage Sample.graduate (counts_row 0 1 3 0)
   <= finalPercentage Sample.complete_graduate (counts_row 2 1 3 1))%Z.
Proof.
  apply (score_is_monotone Sample.graduate Sample.complete_graduate 0 1 3 0 2 1 3 1).
  - intros k. unfold Sample.graduate. cbn [get].
    destruct (String.eqb "years_of_experience" k); cbn; discriminate.
  - lia.
  - lia.
  - lia.
  - lia.
Defined.

(** X18.  The counts stop mattering where the caps are reached: beyond five
    experience entries, two education entries, twelve skills and one
    resume, more entries do not change the score. *)
Theorem score_saturates (p : row) (e d s r : nat) :
  finalPercentage p (counts_row e d s r)
  = finalPercentage p (counts_row (Nat.min e 5) (Nat.min d 2) (Nat.min s 12) (Nat.min r 1)).
Proof.
  unfold finalPercentage. f_equal. f_equal. apply round_compat.
  rewrite !completionPercentage_sum. unfold category_sum.
  rewrite (count_pts_saturates 5 e 15 5 2) by (try lia; vm_compute; discriminate).
  rewrite (count_pts_saturates 2 d 10 5 (25 # 10)) by (try lia; vm_compute; discriminate).
  rewrite (count_pts_saturates 12 s 15 3 1) by (try lia; vm_compute; discriminate).
  replace (Nat.eqb (Nat.min r 1) 0) with (Nat.eqb r 0)
    by (destruct r as [|[|r]]; reflexivity).
  reflexivity.
Qed.

(** X19.  The cap of 10 on the links is never exceeded: the three link
    weights add up to 10, so [Math.min(linkScore, 10)] is [linkScore]. *)
Theorem link_cap_is_never_exceeded (p : row) :
  add_keys p weights_links 0 <= 10
  /\ Qmin (add_keys p weights_links 0) 10 == add_keys p weights_links 0.
Proof.
  assert (H : add_keys p weights_links 0 <= 10).
  { unfold add_keys, weights_links. cbn [fold_left fst snd].
    rewrite !bump_pts. pose proof (links_le_cap p). lra. }
  split; [exact H|]. now apply Q.min_l.
Qed.

End ScorerProperties.

(** * Further properties: statements, pages and guards *)

Module TextFacts.

Import Text.

Lemma split_from_seg (sep : ascii) (s seg : string) :
  split_from sep seg s
  = match split_from sep EmptyString s with
    | a :: l => (seg ++ a)%string :: l
    | [] => []
    end.
Proof.
  revert seg. induction s as [|c s IH]; intros seg; cbn [split_from].
  - now rewrite append_nil_r.
  - destruct (Ascii.eqb c sep).
    + now rewrite append_nil_r.
    + rewrite (IH (seg ++ String c EmptyString)%string).
      rewrite (IH (EmptyString ++ String c EmptyString)%string).
      destruct (split_from sep EmptyString s) as [|a l]; [reflexivity|].
      now rewrite append_assoc.
Qed.

Lemma split_cons (sep c : ascii) (s : string) :
  split sep (String c s)
  = if Ascii.eqb c sep then EmptyString :: split sep s
    else match split sep s with
         | a :: l => String c a :: l
         | [] => []
         end.
Proof.
  unfold split. cbn [split_from]. destruct (Ascii.eqb c sep); [reflexivity|].
  now rewrite split_from_seg.
Qed.

Lemma split_nonempty (sep : ascii) (s : string) : split sep s <> [].
Proof.
  induction s as [|c s IH]; [discriminate|].
  rewrite split_cons. destruct (Ascii.eqb c sep); [discriminate|].
  destruct (split sep s); [contradiction|discriminate].
Qed.

(** The first part: the text up to the first separator. *)
Lemma split_first (sep : ascii) (s t : string) :
  nth_error (split sep s) 0 = Some t
  <-> exists rest, s = (t ++ rest)%string /\ lacks sep t = true
                   /\ (rest = EmptyString \/ exists r, rest = String sep r).
Proof.
  revert t. induction s as [|c s IH]; intros t.
  - cbn. split.
    + intros [= <-]. exists EmptyString. auto.
    + intros (rest & H & _). destruct t; [reflexivity|discriminate].
  - rewrite split_cons. destruct (Ascii.eqb c sep) eqn:Hc.
    + apply Ascii.eqb_eq in Hc. subst c. cbn [nth_error]. split.
      * intros [= <-]. exists (String sep s). split; [reflexivity|].
        split; [reflexivity|]. right. now exists s.
      * intros (rest & H & Ht & _). destruct t as [|c t]; [reflexivity|].
        cbn in H. injection H as <- _. cbn [lacks] in Ht.
        rewrite Ascii.eqb_refl in Ht. discriminate.
    + destruct (split sep s) as [|a l] eqn:Hs; [now destruct (split_nonempty sep s)|].
      cbn [nth_error]. split.
      * intros [= <-]. destruct (proj1 (IH a) eq_refl) as (rest & -> & Ha & Hr).
        exists rest. split; [reflexivity|]. split; [|exact Hr].
        cbn [lacks]. now rewrite Hc, Ha.
      * intros (rest & H & Ht & Hr). destruct t as [|c' t].
        -- cbn in H. destruct Hr as [->|(r & ->)]; [discriminate|].
           injection H as -> _. rewrite Ascii.eqb_refl in Hc. discriminate.
        -- cbn in H. injection H as <- ->. cbn [lacks] in Ht.
           apply andb_true_iff in Ht. destruct Ht as [_ Ht].
           f_equal. f_equal.
           assert (Hx : nth_error (a :: l) 0 = Some t)
             by (apply IH; exists rest; auto).
           now injection Hx.
Qed.

(** The second part: what stands between the first separator and the
    next one. *)
Lemma split_second (sep : ascii) (s t : string) :
  nth_error (split sep s) 1 = Some t
  <-> exists a rest, s = (a ++ String sep (t ++ rest))%string
                     /\ lacks sep a = true /\ lacks sep t = true
                     /\ (rest = EmptyString \/ exists r, rest = String sep r).
Proof.
  revert t. induction s as [|c s IH]; intros t.
  - cbn. split; [discriminate|].
    intros (a & rest & H & _). destruct a; discriminate.
  - rewrite split_cons. destruct (Ascii.eqb c sep) eqn:Hc.
    + apply Ascii.eqb_eq in Hc. subst c.
      change (nth_error (EmptyString :: split sep s) 1)
        with (nth_error (split sep s) 0).
      rewrite split_first. split.
      * intros (rest & -> & Ht & Hr). exists EmptyString, rest. auto.
      * intros (a & rest & H & Ha & Ht & Hr). destruct a as [|c a].
        -- cbn in H. injection H as ->. exists rest. auto.
        -- cbn in H. injection H as <- _. cbn [lacks] in Ha.
           rewrite Ascii.eqb_refl in Ha. discriminate.
    + destruct (split sep s) as [|a0 l] eqn:Hs; [now destruct (split_nonempty sep s)|].
      change (nth_error (String c a0 :: l) 1) with (nth_error (a0 :: l) 1).
      rewrite IH. split.
      * intros (a & rest & -> & Ha & Ht & Hr). exists (String c a), rest.
        split; [reflexivity|]. split; [|auto]. cbn [lacks]. now rewrite Hc, Ha.
      * intros (a & rest & H & Ha & Ht & Hr). destruct a as [|c' a].
        -- cbn in H. injection H as -> _. rewrite Ascii.eqb_refl in Hc. discriminate.
        -- cbn in H. injection H as <- ->. cbn [lacks] in Ha.
           apply andb_true_iff in Ha. destruct Ha as [_ Ha].
           exists a, rest. auto.
Qed.

(** A word without the separator that starts a text starts its first
    part. *)
Lemma prefix_first_part (sep : ascii) (p a rest : string) :
  lacks sep p = true ->
  String.prefix p (a ++ String sep rest) = String.prefix p a.
Proof.
  revert a. induction p as [|c p IH]; intros a Hp.
  - destruct a; reflexivity.
  - cbn [lacks] in Hp. apply andb_true_iff in Hp. destruct Hp as [Hc Hp].
    destruct a as [|c' a].
    + simpl. destruct (ascii_dec c sep) as [->|]; [|reflexivity].
      rewrite Ascii.eqb_refl in Hc. discriminate.
    + simpl. destruct (ascii_dec c c'); [|reflexivity]. now apply IH.
Qed.

Lemma eqb_empty (s : string) : (s =? "")%string = false <-> s <> EmptyString.
Proof.
  destruct s; cbn; split; congruence.
Qed.

End TextFacts.

Section GuardProperties.

Import Text Guards TextFacts.

Variable verify : string -> option decoded.

Lemma protect_shape (h : option string) (v : option decoded) :
  protect verify h = Proceed v -> exists d, v = Some d.
Proof.
  unfold protect.
  destruct h as [h|]; [|discriminate].
  destruct (negb (h =? "")%string && String.prefix "Bearer" h); [|discriminate].
  destruct (nth_error (split " " h) 1) as [t|]; [|discriminate].
  destruct (t =? "")%string; [discriminate|].
  destruct (verify t) as [d|]; [|discriminate].
  intros [= <-]. now exists d.
Qed.

Lemma protect_denies (h : option string) (s : nat) :
  protect verify h = Deny s -> s = 401%nat.
Proof.
  unfold protect.
  destruct h as [h|]; [|now intros [= <-]].
  destruct (negb (h =? "")%string && String.prefix "Bearer" h); [|now intros [= <-]].
  destruct (nth_error (split " " h) 1) as [t|]; [|now intros [= <-]].
  destruct (t =? "")%string; [now intros [= <-]|].
  destruct (verify t) as [d|]; [discriminate|now intros [= <-]].
Qed.

(** X20.  [protect] lets a request through exactly when the Authorization
    header reads: a first word that starts with Bearer, one space, a
    non-empty token that [jwt.verify] accepts, and then nothing or a
    space and anything. The user it leaves is the decoded token. *)
Theorem protect_passes_verified_tokens_only (h : option string) (v : option decoded) :
  protect verify h = Proceed v
  <-> exists scheme token rest d,
        h = Some (scheme ++ String " " (token ++ rest))%string
        /\ String.prefix "Bearer" scheme = true
        /\ lacks " " scheme = true /\ lacks " " token = true
        /\ token <> EmptyString
        /\ (rest = EmptyString \/ exists r, rest = String " " r)
        /\ verify token = Some d /\ v = Some d.
Proof.
  unfold protect. split.
  - destruct h as [h|]; [|discriminate].
    destruct (negb (h =? "")%string && String.prefix "Bearer" h) eqn:Hb;
      [|discriminate].
    apply andb_true_iff in Hb. destruct Hb as [_ Hp].
    destruct (nth_error (split " " h) 1) as [t|] eqn:Ht; [|discriminate].
    apply split_second in Ht. destruct Ht as (a & rest & -> & Ha & Htk & Hr).
    destruct (t =? "")%string eqn:He; [discriminate|].
    destruct (verify t) as [d|] eqn:Hv; [|discriminate].
    intros [= <-]. exists a, t, rest, d.
    rewrite (prefix_first_part " " "Bearer" a _ eq_refl) in Hp.
    apply eqb_empty in He.
    repeat split; assumption.
  - intros (a & t & rest & d & -> & Hp & Ha & Htk & Hne & Hr & Hv & ->).
    rewrite (prefix_first_part " " "Bearer" a _ eq_refl), Hp.
    assert (Hh : ((a ++ String " " (t ++ rest)) =? "")%string = false)
      by (apply eqb_empty; destruct a; discriminate).
    rewrite Hh. cbn [negb andb].
    assert (Ht : nth_error (split " " (a ++ String " " (t ++ rest))) 1 = Some t)
      by (apply split_second; exists a, rest; auto).
    rewrite Ht. apply eqb_empty in Hne. rewrite Hne, Hv. reflexivity.
Qed.

(** X21.  Behind [protect], [authorize] never answers 401 of its own: the
    chain answers 401 exactly when [protect] does, 403 exactly when the
    verified user's type is not among the roles, and lets the others
    through with the user [protect] left. *)
Theorem authorize_behind_protect (roles : list string) (h : option string) :
  (guarded verify roles h = Deny 401 <-> protect verify h = Deny 401)
  /\ (guarded verify roles h = Deny 403
      <-> exists d, protect verify h = Proceed (Some d)
                    /\ ~ In (user_type d) roles)
  /\ (forall v, guarded verify roles h = Proceed v
      <-> exists d, v = Some d /\ protect verify h = Proceed (Some d)
                    /\ In (user_type d) roles).
Proof.
  assert (Hin : forall d, existsb (String.eqb (user_type d)) roles = true
                          <-> In (user_type d) roles).
  { intros d. rewrite existsb_exists. split.
    - intros (x & Hx & He). apply String.eqb_eq in He. now subst x.
    - intros Hx. exists (user_type d). split; [exact Hx|apply String.eqb_refl]. }
  assert (Hp : forall v, protect verify h = Proceed v -> exists d, v = Some d).
  { intros v Hv. apply protect_shape in Hv. exact Hv. }
  unfold guarded, and_then.
  destruct (protect verify h) as [[d|]|s] eqn:Hv.
  - cbn [authorize]. specialize (Hin d).
    destruct (existsb (String.eqb (user_type d)) roles) eqn:Hr.
    + split; [split; discriminate|]. split.
      * split; [discriminate|]. intros (d' & [= <-] & Hn). destruct Hn.
        now apply Hin.
      * intros v. split.
        -- intros [= <-]. exists d. split; [reflexivity|]. split; [reflexivity|].
           now apply Hin.
        -- intros (d' & -> & [= <-] & _). reflexivity.
    + split; [split; discriminate|]. split.
      * split; [|reflexivity]. intros _. exists d. split; [reflexivity|].
        intros Hx. apply Hin in Hx. discriminate.
      * intros v. split; [discriminate|].
        intros (d' & -> & [= <-] & Hx). apply Hin in Hx. discriminate.
  - destruct (Hp None eq_refl) as (d & Hd). discriminate.
  - pose proof (protect_denies h s Hv) as ->.
    split; [split; reflexivity|]. split.
    + split; [discriminate|]. intros (d & Hd & _). discriminate.
    + intros v. split; [discriminate|]. intros (d & _ & Hd & _). discriminate.
Qed.

End GuardProperties.

Lemma protect_passes_verified_tokens_only_witness :
  Guards.protect Scenario.verify_one (Some "Bearer t0k3n")
  = Guards.Proceed (Some {| Guards.id := 7; Guards.user_type := "job_seeker" |})
  /\ Guards.protect Scenario.verify_one (Some "Bearer  t0k3n") = Guards.Deny 401
  /\ Guards.protect Scenario.verify_one (Some "Bearer") = Guards.Deny 401.
Proof.
  split; [|split; reflexivity].
  apply (proj2 (protect_passes_verified_tokens_only Scenario.verify_one _ _)).
  exists "Bearer", "t0k3n", "",
         {| Guards.id := 7; Guards.user_type := "job_seeker" |}.
  split; [reflexivity|]. split; [reflexivity|]. split; [reflexivity|].
  split; [reflexivity|]. split; [discriminate|]. split; [now left|].
  split; reflexivity.
Defined.

Section StatementProperties.

Import Text Catalogue Paging.

(** X22.  Whatever the query string holds, the text of the catalogue listing
    names exactly the placeholders of its bind array, the text is
    settled by which of the two filters is present, and what the caller
    sent appears among the bind values only. *)
Theorem catalogue_listing_binds_its_input (category search : jsval) :
  fits (fst (getAllSkills_statement category search))
       (snd (getAllSkills_statement category search))
  /\ fst (getAllSkills_statement category search)
     = fst (getAllSkills_statement (JBool (truthy category)) (JBool (truthy search)))
  /\ snd (getAllSkills_statement category search)
     = (if truthy category then [category] else [])
       ++ (if truthy search then [JStr ("%" ++ text_of search ++ "%")] else []).
Proof.
  unfold getAllSkills_statement, fits. cbn [truthy].
  destruct (truthy category), (truthy search); cbn [orb fst snd].
  all: split; [vm_compute; reflexivity|split; reflexivity].
Qed.

Lemma ceiling_div (a b : Z) :
  0 < b -> Qceiling (inject_Z a / inject_Z b) = - ((- a) / b).
Proof.
  intros Hb. unfold Qceiling. f_equal.
  rewrite (Zdiv_Qdiv (- a) b). apply Qfloor_comp.
  rewrite inject_Z_opp. field.
  intros H. unfold Qeq, inject_Z in H. cbn [Qnum Qden] in H. lia.
Qed.

(** X23.  For a page number and a limit the handlers accept, the page's
    offset lies within the counted rows exactly when the page is one
    of the [pages] the reply announces. *)
Theorem announced_pages_are_the_pages_with_rows (total page limit : Z) :
  0 <= total -> 1 <= limit -> 1 <= page ->
  (offset_of page limit < total <-> page <= pages total limit).
Proof.
  intros Ht Hl Hp. unfold pages, offset_of.
  rewrite ceiling_div by lia.
  pose proof (Z.div_mod (- total) limit ltac:(lia)) as Hd.
  pose proof (Z.mod_pos_bound (- total) limit ltac:(lia)) as Hm.
  split; intros H; nia.
Qed.

Lemma announced_pages_are_the_pages_with_rows_witness :
  (offset_of 3 10 < 25 <-> 3 <= pages 25 10)
  /\ (offset_of 4 10 < 25 <-> 4 <= pages 25 10).
Proof.
  split.
  - apply (announced_pages_are_the_pages_with_rows 25 3 10); lia.
  - apply (announced_pages_are_the_pages_with_rows 25 4 10); lia.
Defined.

Variable parseInt : jsval -> option Z.

Lemma paged_fits (select_text count_text condition : string) (key : jsval)
      (query : row) (st : statements) :
  placeholders_in (select_text ++ "WHERE " ++ condition ++ order_and_limit 2)
    = [1; 2; 3]%nat ->
  placeholders_in (select_text ++ "WHERE " ++ condition ++ " AND ja.status = $2"
                     ++ order_and_limit 3)
    = [1; 2; 3; 4]%nat ->
  placeholders_in (count_text ++ "WHERE " ++ condition ++ count_end) = [1]%nat ->
  placeholders_in (count_text ++ "WHERE " ++ condition ++ " AND ja.status = $2"
                     ++ count_end)
    = [1; 2]%nat ->
  paged parseInt select_text count_text condition key query = Some st ->
  fits (applicationsQuery st) (queryParams st)
  /\ fits (countQuery st) (countParams st)
  /\ (countParams st = [key] \/ countParams st = [key; get query "status"])
  /\ queryParams st
     = countParams st
       ++ [JNum (limitNum st); JNum (offset_of (pageNum st) (limitNum st))]
  /\ 1 <= pageNum st /\ 1 <= limitNum st
  /\ 0 <= offset_of (pageNum st) (limitNum st).
Proof.
  intros H3 H4 H1 H2. unfold paged.
  destruct (parseInt (or_default (get query "page") (JNum 1))) as [p|];
    [|destruct (truthy (get query "status") && is_string (get query "status"));
      discriminate].
  destruct (parseInt (or_default (get query "limit") (JNum 10))) as [l|];
    [|destruct (truthy (get query "status") && is_string (get query "status"));
      discriminate].
  destruct (truthy (get query "status") && is_string (get query "status")).
  all: destruct ((p <? 1) || (l <? 1)) eqn:Hb; [discriminate|].
  all: apply orb_false_iff in Hb; destruct Hb as [Hp Hl].
  all: apply Z.ltb_ge in Hp; apply Z.ltb_ge in Hl.
  all: intros [= <-]; unfold fits, offset_of;
    cbn [applicationsQuery queryParams countQuery countParams pageNum limitNum
         join app List.length firstn Nat.sub].
  - rewrite !append_assoc in *. cbn [String.append] in *.
    split; [exact H4|]. split; [exact H2|]. split; [now right|].
    split; [reflexivity|]. repeat split; nia.
  - rewrite !append_assoc in *. cbn [String.append] in *.
    split; [exact H3|]. split; [exact H1|]. split; [now left|].
    split; [reflexivity|]. repeat split; nia.
Qed.

(** X24.  When either listing of applications goes on to the database, both
    of its statements name exactly the placeholders of their bind
    arrays; the count is bound to the page's values without the limit
    and the offset; the caller's [status], if any, is a bind value; and
    the limit is at least 1 and the offset at least 0. *)
Theorem application_listings_bind_their_input (key : Z) (query : row) (st : statements) :
  getMyApplications_statements parseInt key query = Some st
  \/ getJobApplications_statements parseInt key query = Some st ->
  fits (applicationsQuery st) (queryParams st)
  /\ fits (countQuery st) (countParams st)
  /\ (countParams st = [JNum key]
      \/ countParams st = [JNum key; get query "status"])
  /\ queryParams st
     = countParams st
       ++ [JNum (limitNum st); JNum (offset_of (pageNum st) (limitNum st))]
  /\ 1 <= pageNum st /\ 1 <= limitNum st
  /\ 0 <= offset_of (pageNum st) (limitNum st).
Proof.
  intros [H|H].
  - revert H. apply paged_fits; vm_compute; reflexivity.
  - revert H. apply paged_fits; vm_compute; reflexivity.
Qed.

End StatementProperties.

Lemma application_listings_bind_their_input_witness :
  exists st,
    Paging.getMyApplications_statements (parseInt Sample.calm) 7 Scenario.page3
    = Some st
    /\ Text.fits (Paging.applicationsQuery st) (Paging.queryParams st)
    /\ Text.fits (Paging.countQuery st) (Paging.countParams st)
    /\ Paging.queryParams st = [JNum 7; JStr "pending"; JNum 10; JNum 20]
    /\ Paging.countParams st = [JNum 7; JStr "pending"].
Proof.
  destruct (Paging.getMyApplications_statements (parseInt Sample.calm) 7
                                                Scenario.page3)
    as [st|] eqn:H; [|discriminate].
  exists st. split; [reflexivity|].
  destruct (application_listings_bind_their_input
              (parseInt Sample.calm) 7 Scenario.page3 st (or_introl H))
    as (Hfit & Hcount & _).
  split; [exact Hfit|]. split; [exact Hcount|].
  vm_compute in H. injection H as <-. split; reflexivity.
Defined.

(** * Further properties: job applications *)

Module ApplicationFacts.

Import Applications.

(** Take the run of a handler apart, one decision at a time. *)
Ltac crack H :=
  unfold try_next, bind, ret, selecting, query in H;
  repeat match type of H with
         | context [match ?c with _ => _ end] =>
             lazymatch c with
             | context [match _ with _ => _ end] => fail
             | _ => destruct c eqn:?
             end
         end;
  repeat match goal with
         | Hx : (_, _) = (_, _) |- _ => injection Hx as <- <-
         | Hx : Some _ = Some _ |- _ => injection Hx as <-
         | Hx : None = Some _ |- _ => discriminate Hx
         | Hx : Some _ = None |- _ => discriminate Hx
         end.

(** What a submission does to the board. *)
Lemma submit_run (S : setting) (req : request) (w : world) ans w' :
  submitApplication S req w = (ans, w') ->
  (state w' = state w /\ forall data, ans <> Status 201 data)
  \/ exists u jobId,
       caller req = Some u /\ Guards.user_type u = "job_seeker"
       /\ parse S (params_id req) = Some jobId
       /\ filter (fun j => j_id j =? jobId) (jobs (state w)) <> []
       /\ filter (applied (Guards.id u) jobId) (job_applications (state w)) = []
       /\ state w'
          = with_applications (state w)
              (job_applications (state w)
               ++ [new_application S (Guards.id u) jobId (body req)
                                   (seq_applications (state w))])
              (seq_applications (state w) + 1)
       /\ (ans = Status 201 [new_application S (Guards.id u) jobId (body req)
                                            (seq_applications (state w))]
           \/ ans = NextError).
Proof.
  intros H. unfold submitApplication in H. crack H.
  all: try (left; split; [reflexivity|intros data; discriminate]).
  all: right;
    match goal with
    | Hc : caller _ = Some ?u, Hp : parse _ _ = Some ?z |- _ => exists u, z
    | Hp : parse _ _ = Some ?z |- exists u jobId, Some ?u0 = Some u /\ _ =>
        exists u0, z
    end.
  all: match goal with
       | Hb : negb (_ =? _)%string = false |- _ =>
           apply negb_false_iff in Hb; apply String.eqb_eq in Hb
       end.
  all: repeat split; try assumption; try reflexivity; try congruence.
  all: try (now left); try (now right).
Qed.

(** What a change of status does to the board. *)
Lemma status_run (S : setting) (req : request) (w : world) ans w' :
  updateApplicationStatus S req w = (ans, w') ->
  (state w' = state w /\ forall data, ans <> Status 200 data)
  \/ exists u applicationId a0 p rest,
       caller req = Some u
       /\ parse S (params_id req) = Some applicationId
       /\ with_poster applicationId (state w) = (a0, p) :: rest
       /\ (p = JNum (Guards.id u) \/ Guards.user_type u = "admin")
       /\ state w'
          = with_applications (state w)
              (on_rows (has_id applicationId)
                       (set_status (get (body req) "status")
                                   (coalesce (get (body req) "feedback") JNull))
                       (job_applications (state w)))
              (seq_applications (state w)).
Proof.
  intros H. unfold updateApplicationStatus in H. crack H.
  all: try (left; split; [reflexivity|intros data; discriminate]).
  all: right.
  all: match goal with
       | Hc : caller _ = Some ?u, Hp : parse _ _ = Some ?z,
         Hw : with_poster _ _ = ?ap :: ?rest |- _ =>
           destruct ap as [a0 p]; exists u, z, a0, p, rest
       end.
  all: repeat split; try assumption; try reflexivity.
  all: match goal with
       | Hb : negb (strict_eq ?p _) && negb _ = false |- _ =>
           apply andb_false_iff in Hb; destruct Hb as [Hb|Hb];
           apply negb_false_iff in Hb
       end.
  all: first [ left; cbn [snd] in *; destruct p; cbn [strict_eq] in *;
               try discriminate; f_equal; now apply Z.eqb_eq
             | right; now apply String.eqb_eq ].
Qed.

(** What a withdrawal does to the board. *)
Lemma withdraw_run (S : setting) (req : request) (w : world) ans w' :
  withdrawApplication S req w = (ans, w') ->
  (state w' = state w /\ forall data, ans <> Status 200 data)
  \/ exists u applicationId,
       caller req = Some u
       /\ parse S (params_id req) = Some applicationId
       /\ filter (own applicationId (Guards.id u)) (job_applications (state w)) <> []
       /\ state w'
          = with_applications (state w)
              (on_rows (has_id applicationId) set_withdrawn
                       (job_applications (state w)))
              (seq_applications (state w)).
Proof.
  intros H. unfold withdrawApplication in H. crack H.
  all: try (left; split; [reflexivity|intros data; discriminate]).
  all: right.
  all: match goal with
       | Hc : caller _ = Some ?u, Hp : parse _ _ = Some ?z |- _ => exists u, z
       end.
  all: repeat split; try assumption; try reflexivity; congruence.
Qed.

Lemma map_on_rows {A B : Type} (g : A -> B) (sel : A -> bool) (f : A -> A)
      (l : list A) :
  (forall a, g (f a) = g a) -> map g (on_rows sel f l) = map g l.
Proof.
  intros Hg. unfold on_rows. rewrite map_map. apply map_ext.
  intros a. destruct (sel a); [apply Hg|reflexivity].
Qed.

Lemma filter_none {A : Type} (p : A -> bool) (l : list A) (a : A) :
  filter p l = [] -> In a l -> p a = false.
Proof.
  intros Hf Hin. destruct (p a) eqn:Hp; [|reflexivity].
  assert (Hx : In a (filter p l)) by (apply filter_In; auto).
  rewrite Hf in Hx. destruct Hx.
Qed.

Lemma filter_some {A : Type} (p : A -> bool) (l : list A) :
  filter p l <> [] -> exists a, In a l /\ p a = true.
Proof.
  destruct (filter p l) as [|a r] eqn:Hf; [congruence|]. intros _.
  exists a. apply filter_In. rewrite Hf. now left.
Qed.

Lemma nodup_snoc {A : Type} (l : list A) (x : A) :
  NoDup l -> ~ In x l -> NoDup (l ++ [x]).
Proof.
  induction l as [|a l IH]; intros Hnd Hx; cbn [app].
  - constructor; [intros []|constructor].
  - inversion Hnd as [|? ? Ha Hnd']. subst. constructor.
    + intros Hin. apply in_app_or in Hin. destruct Hin as [Hin|[->|[]]].
      * contradiction.
      * apply Hx. now left.
    + apply IH; [exact Hnd'|]. intros Hin. apply Hx. now right.
Qed.

Lemma same_id_same_row (l : list application_row) (a b : application_row) :
  NoDup (map a_id l) -> In a l -> In b l -> a_id a = a_id b -> a = b.
Proof.
  induction l as [|x l IH]; intros Hnd Ha Hb Hid; [destruct Ha|].
  cbn [map] in Hnd. inversion Hnd as [|? ? Hx Hnd']. subst.
  destruct Ha as [->|Ha], Hb as [->|Hb].
  - reflexivity.
  - destruct Hx. rewrite Hid. now apply in_map.
  - destruct Hx. rewrite <- Hid. now apply in_map.
  - now apply IH.
Qed.

Lemma on_rows_related_in {A : Type} (R : A -> A -> Prop) (sel : A -> bool)
      (f : A -> A) (l : list A) :
  (forall a, R a a) -> (forall a, In a l -> sel a = true -> R a (f a)) ->
  Forall2 R l (on_rows sel f l).
Proof.
  intros Hr. unfold on_rows.
  induction l as [|a l IH]; intros Hf; cbn [map]; constructor.
  - destruct (sel a) eqn:Hs; [apply Hf; [now left|exact Hs]|apply Hr].
  - apply IH. intros b Hb. apply Hf. now right.
Qed.

Lemma keyed_on_rows (b : board) (sel : application_row -> bool)
      (f : application_row -> application_row) :
  (forall a, a_id (f a) = a_id a) ->
  keyed b ->
  keyed (with_applications b (on_rows sel f (job_applications b))
                           (seq_applications b)).
Proof.
  intros Hf [Hnd Hlt]. split; cbn [job_applications seq_applications with_applications].
  - now rewrite (map_on_rows a_id sel f _ Hf).
  - unfold on_rows. apply Forall_map. revert Hlt. apply Forall_impl.
    intros a Ha. destruct (sel a); [rewrite Hf|]; exact Ha.
Qed.

Lemma once_on_rows (b : board) (sel : application_row -> bool)
      (f : application_row -> application_row) :
  (forall a, (a_user_id (f a), a_job_id (f a)) = (a_user_id a, a_job_id a)) ->
  applied_once b ->
  applied_once (with_applications b (on_rows sel f (job_applications b))
                                  (seq_applications b)).
Proof.
  intros Hf Hb. unfold applied_once. cbn [job_applications with_applications].
  now rewrite (map_on_rows (fun a => (a_user_id a, a_job_id a)) sel f _ Hf).
Qed.

(** Each handler keeps both invariants. *)
Lemma perform_keeps (S : setting) (a : action) (req : request) (w : world) :
  (applied_once (state w) -> applied_once (state (snd (perform S a req w))))
  /\ (keyed (state w) -> keyed (state (snd (perform S a req w)))).
Proof.
  destruct (perform S a req w) as [ans w'] eqn:H. cbn [snd].
  destruct a; cbn [perform] in H.
  - destruct (submit_run S req w ans w' H)
      as [[-> _]|(u & j & _ & _ & _ & _ & Hnew & -> & _)]; [tauto|].
    split.
    + intros Hb. unfold applied_once.
      cbn [job_applications with_applications]. rewrite map_app.
      cbn [map new_application a_user_id a_job_id].
      apply nodup_snoc; [exact Hb|]. intros Hin. apply in_map_iff in Hin.
      destruct Hin as (x & Hx & Hin).
      pose proof (filter_none _ _ x Hnew Hin) as Hf. unfold applied in Hf.
      injection Hx as Hu Hj. rewrite Hu, Hj, !Z.eqb_refl in Hf. discriminate.
    + intros [Hnd Hlt]. split; cbn [job_applications seq_applications with_applications].
      * rewrite map_app. cbn [map new_application a_id].
        apply nodup_snoc; [exact Hnd|]. intros Hin. apply in_map_iff in Hin.
        destruct Hin as (x & Hx & Hin).
        rewrite Forall_forall in Hlt. specialize (Hlt x Hin). lia.
      * apply Forall_app. split.
        -- revert Hlt. apply Forall_impl. intros x Hx. lia.
        -- constructor; [cbn [new_application a_id]; lia|constructor].
  - destruct (status_run S req w ans w' H)
      as [[-> _]|(u & i & a0 & p & rest & _ & _ & _ & _ & ->)]; [tauto|].
    split; [apply once_on_rows|apply keyed_on_rows]; reflexivity.
  - destruct (withdraw_run S req w ans w' H)
      as [[-> _]|(u & i & _ & _ & _ & ->)]; [tauto|].
    split; [apply once_on_rows|apply keyed_on_rows]; reflexivity.
Qed.

Lemma strict_eq_num (p : jsval) (n : Z) : strict_eq p (JNum n) = true -> p = JNum n.
Proof.
  destruct p; cbn [strict_eq]; try discriminate.
  intros H. apply Z.eqb_eq in H. now subst.
Qed.

End ApplicationFacts.

Section ApplicationProperties.

Import Applications ApplicationFacts.

Variable S : setting.

(** X25.  No user ever has two applications for one job, and the ids of the
    applications stay distinct and below the sequence: both hold after
    any sequence of submissions, status changes and withdrawals,
    whatever is refused, if they hold before. *)
Theorem applications_stay_unique (rs : list (action * request)) (w : world) :
  (applied_once (state w) -> applied_once (state (serve S rs w)))
  /\ (keyed (state w) -> keyed (state (serve S rs w))).
Proof.
  revert w. induction rs as [|[a req] rs IH]; intros w; cbn [serve].
  - tauto.
  - destruct (perform_keeps S a req w) as [H1 H2].
    destruct (IH (snd (perform S a req w))) as [H3 H4].
    split; intros H; [apply H3, H1, H|apply H4, H2, H].
Qed.

(** X26.  A change of status touches no table but [job_applications], adds and
    removes no row, and changes only the application with the id of the
    URL, and that one only when the caller is an admin or the
    [posted_by] of the application's job; the status is stored as sent,
    whatever it says. *)
Theorem status_changes_need_the_poster_or_an_admin
        (req : request) (u : Guards.decoded) (w : world) ans w' :
  keyed (state w) ->
  caller req = Some u ->
  updateApplicationStatus S req w = (ans, w') ->
  jobs (state w') = jobs (state w)
  /\ documents (state w') = documents (state w)
  /\ Forall2
       (fun a a' =>
          a' = a
          \/ (a' = set_status (get (body req) "status")
                              (coalesce (get (body req) "feedback") JNull) a
              /\ parse S (params_id req) = Some (a_id a)
              /\ (Guards.user_type u = "admin"
                  \/ exists j, In j (jobs (state w)) /\ j_id j = a_job_id a
                               /\ posted_by j = JNum (Guards.id u))))
       (job_applications (state w)) (job_applications (state w')).
Proof.
  intros [Hnd _] Hu H.
  destruct (status_run S req w ans w' H)
    as [[-> _]|(u' & i & a0 & p & rest & Hu' & Hi & Hj & Hp & ->)].
  - split; [reflexivity|]. split; [reflexivity|].
    apply related_refl. intros a. now left.
  - rewrite Hu in Hu'. injection Hu' as <-.
    split; [reflexivity|]. split; [reflexivity|].
    cbn [job_applications with_applications].
    assert (Hin : In (a0, p) (with_poster i (state w)))
      by (rewrite Hj; now left).
    unfold with_poster in Hin. apply in_flat_map in Hin.
    destruct Hin as (a1 & Ha1 & Hin). apply filter_In in Ha1.
    destruct Ha1 as [Ha1 Hid]. apply in_map_iff in Hin.
    destruct Hin as (j & Hj' & Hjin). injection Hj' as <- <-.
    apply filter_In in Hjin. destruct Hjin as [Hjin Hjid].
    apply Z.eqb_eq in Hjid. unfold has_id in Hid. apply Z.eqb_eq in Hid.
    apply on_rows_related_in.
    + intros a. now left.
    + intros a Ha Hsel. right. unfold has_id in Hsel. apply Z.eqb_eq in Hsel.
      assert (a = a1) as ->
        by (apply (same_id_same_row _ _ _ Hnd Ha Ha1); congruence).
      split; [reflexivity|]. split; [congruence|].
      destruct Hp as [Hp|Hp]; [right|now left].
      exists j. auto.
Qed.

(** X27.  A withdrawal adds and removes no row and changes only the caller's
    own application with the id of the URL, whatever its status was:
    also an accepted or a rejected application becomes withdrawn. *)
Theorem withdrawal_touches_own_application_only
        (req : request) (u : Guards.decoded) (w : world) ans w' :
  keyed (state w) ->
  caller req = Some u ->
  withdrawApplication S req w = (ans, w') ->
  jobs (state w') = jobs (state w)
  /\ documents (state w') = documents (state w)
  /\ Forall2
       (fun a a' =>
          a' = a
          \/ (a' = set_withdrawn a /\ a_user_id a = Guards.id u
              /\ parse S (params_id req) = Some (a_id a)))
       (job_applications (state w)) (job_applications (state w')).
Proof.
  intros [Hnd _] Hu H.
  destruct (withdraw_run S req w ans w' H)
    as [[-> _]|(u' & i & Hu' & Hi & Hown & ->)].
  - split; [reflexivity|]. split; [reflexivity|].
    apply related_refl. intros a. now left.
  - rewrite Hu in Hu'. injection Hu' as <-.
    split; [reflexivity|]. split; [reflexivity|].
    cbn [job_applications with_applications].
    destruct (filter_some _ _ Hown) as (a1 & Ha1 & Hsel1).
    unfold own in Hsel1. apply andb_true_iff in Hsel1.
    destruct Hsel1 as [Hid Huid]. apply Z.eqb_eq in Hid. apply Z.eqb_eq in Huid.
    apply on_rows_related_in.
    + intros a. now left.
    + intros a Ha Hsel. right. unfold has_id in Hsel. apply Z.eqb_eq in Hsel.
      assert (a = a1) as ->
        by (apply (same_id_same_row _ _ _ Hnd Ha Ha1); congruence).
      split; [reflexivity|]. split; [exact Huid|congruence].
Qed.

(** X28.  A withdrawn application still counts as an application: after a
    withdrawal the same user cannot apply for that job again.  The new
    submission stores nothing, never replies 201, and replies 400 when
    the job exists and nothing is refused. *)
Theorem withdrawn_application_blocks_a_new_one
        (req1 req2 : request) (u : Guards.decoded) (a : application_row)
        (w : world) data w1 ans w2 :
  caller req1 = Some u -> caller req2 = Some u ->
  In a (job_applications (state w)) -> a_user_id a = Guards.id u ->
  parse S (params_id req1) = Some (a_id a) ->
  parse S (params_id req2) = Some (a_job_id a) ->
  withdrawApplication S req1 w = (Status 200 data, w1) ->
  submitApplication S req2 w1 = (ans, w2) ->
  In (set_withdrawn a) (job_applications (state w1))
  /\ state w2 = state w1
  /\ (forall d, ans <> Status 201 d)
  /\ ((forall n s, refused S n s = false) ->
      Guards.user_type u = "job_seeker" ->
      (exists j, In j (jobs (state w)) /\ j_id j = a_job_id a) ->
      ans = Status 400 []).
Proof.
  intros Hu1 Hu2 Ha Hau Hp1 Hp2 H1 H2.
  destruct (withdraw_run S req1 w _ w1 H1)
    as [[_ Hno]|(u' & i & Hu' & Hi & _ & Hw1)]; [now destruct (Hno data)|].
  rewrite Hp1 in Hi. injection Hi as <-.
  assert (Hin : In (set_withdrawn a) (job_applications (state w1))).
  { rewrite Hw1. cbn [job_applications with_applications]. unfold on_rows.
    apply in_map_iff. exists a. split; [|exact Ha].
    unfold has_id. now rewrite Z.eqb_refl. }
  assert (Happlied : applied (Guards.id u) (a_job_id a) (set_withdrawn a) = true).
  { unfold applied. cbn [set_withdrawn a_user_id a_job_id].
    now rewrite Hau, !Z.eqb_refl. }
  split; [exact Hin|].
  destruct (submit_run S req2 w1 ans w2 H2)
    as [[Hst Hno]|(u2 & j & Hu2' & _ & Hj & _ & Hnone & _)].
  - split; [exact Hst|]. split; [exact Hno|].
    intros Hquiet Htype (j & Hjin & Hjid).
    unfold submitApplication in H2. rewrite Hu2, Htype, Hp2 in H2.
    rewrite String.eqb_refl in H2. cbn [negb] in H2.
    unfold try_next, bind, selecting, query, ret in H2.
    rewrite ?Hquiet in H2. cbn [state clock] in H2.
    assert (Hjobs : jobs (state w1) = jobs (state w)) by (now rewrite Hw1).
    destruct (filter (fun j0 => j_id j0 =? a_job_id a) (jobs (state w1)))
      as [|j0 l0] eqn:Hf.
    { rewrite Hjobs in Hf. pose proof (filter_none _ _ j Hf Hjin) as Hx.
      cbn beta in Hx. rewrite Hjid, Z.eqb_refl in Hx. discriminate. }
    rewrite ?Hquiet in H2. cbn [state clock] in H2.
    destruct (filter (applied (Guards.id u) (a_job_id a))
                     (job_applications (state w1))) as [|a0 l1] eqn:Hf2.
    { pose proof (filter_none _ _ _ Hf2 Hin) as Hx. congruence. }
    now injection H2 as <- _.
  - rewrite Hu2 in Hu2'. injection Hu2' as <-.
    rewrite Hp2 in Hj. injection Hj as <-.
    pose proof (filter_none _ _ _ Hnone Hin) as Hx. congruence.
Qed.

(** X29.  The application is stored before the job's title and company are
    looked up for the reply and nothing undoes it: when only that
    lookup is refused, a valid first submission ends in [next(error)]
    with the application stored, and sending it again is answered 400,
    already applied. *)
Theorem application_is_stored_when_the_reply_fails
        (req : request) (u : Guards.decoded) (j : Z) (w : world) ans w' :
  (forall n s, refused S n s = true <-> s = SelectJobDetails) ->
  caller req = Some u -> Guards.user_type u = "job_seeker" ->
  parse S (params_id req) = Some j ->
  filter (fun x => j_id x =? j) (jobs (state w)) <> [] ->
  filter (applied (Guards.id u) j) (job_applications (state w)) = [] ->
  truthy (get (body req) "resume_id") = false ->
  submitApplication S req w = (ans, w') ->
  ans = NextError
  /\ job_applications (state w')
     = job_applications (state w)
       ++ [new_application S (Guards.id u) j (body req) (seq_applications (state w))]
  /\ forall ans2 w2, submitApplication S req w' = (ans2, w2) ->
                     ans2 = Status 400 [] /\ state w2 = state w'.
Proof.
  intros Href Hu Htype Hp Hjob Hnot Hres H.
  assert (Hgo : forall n s, s <> SelectJobDetails -> refused S n s = false).
  { intros n s Hs. destruct (refused S n s) eqn:Hr; [|reflexivity].
    now apply Href in Hr. }
  assert (Hstop : forall n, refused S n SelectJobDetails = true)
    by (intros n; now apply Href).
  assert (Hrun : ans = NextError
                 /\ state w'
                    = with_applications (state w)
                        (job_applications (state w)
                         ++ [new_application S (Guards.id u) j (body req)
                                             (seq_applications (state w))])
                        (seq_applications (state w) + 1)).
  { unfold submitApplication in H. rewrite Hu, Htype, Hp, Hres in H.
    rewrite String.eqb_refl in H. cbn [negb] in H.
    unfold try_next, bind, selecting, query, ret in H.
    rewrite (Hgo _ SelectJob) in H by discriminate. cbn [state clock] in H.
    destruct (filter (fun x => j_id x =? j) (jobs (state w))) as [|j0 l0];
      [congruence|].
    rewrite (Hgo _ SelectApplied) in H by discriminate. cbn [state clock] in H.
    rewrite Hnot in H.
    rewrite (Hgo _ InsertApplication) in H by discriminate. cbn [state clock] in H.
    rewrite Hstop in H. injection H as <- <-. split; reflexivity. }
  destruct Hrun as [-> Hst]. split; [reflexivity|].
  split; [now rewrite Hst|].
  intros ans2 w2 H2.
  unfold submitApplication in H2. rewrite Hu, Htype, Hp, Hres in H2.
  rewrite String.eqb_refl in H2. cbn [negb] in H2.
  unfold try_next, bind, selecting, query, ret in H2.
  rewrite (Hgo _ SelectJob) in H2 by discriminate. cbn [state clock] in H2.
  rewrite Hst in H2. cbn [jobs job_applications with_applications] in H2.
  destruct (filter (fun x => j_id x =? j) (jobs (state w))) as [|j0 l0];
    [congruence|].
  rewrite (Hgo _ SelectApplied) in H2 by discriminate.
  cbn [state clock job_applications with_applications] in H2.
  rewrite filter_app, Hnot in H2. cbn [app filter] in H2.
  unfold applied at 1 in H2. cbn [new_application a_user_id a_job_id] in H2.
  rewrite !Z.eqb_refl in H2. cbn [andb] in H2.
  injection H2 as <- <-. split; [reflexivity|]. cbn [state]. now rewrite Hst.
Qed.

End ApplicationProperties.

Lemma applications_stay_unique_witness :
  Applications.applied_once
    (Applications.state
       (Applications.serve Applications.smooth Applications.dealings
                           Applications.desk))
  /\ map Applications.a_status
         (Applications.job_applications
            (Applications.state
               (Applications.serve Applications.smooth Applications.dealings
                                   Applications.desk)))
     = [JStr "withdrawn"].
Proof.
  split.
  - apply (proj1 (applications_stay_unique Applications.smooth
                    Applications.dealings Applications.desk)).
    constructor.
  - vm_compute. reflexivity.
Defined.

Lemma status_changes_need_the_poster_or_an_admin_witness :
  map Applications.a_status
      (Applications.job_applications
         (Applications.state
            (snd (Applications.updateApplicationStatus Applications.smooth
                    (Applications.sent_by Applications.stranger 1
                                          [("status", JStr "rejected")])
                    Applications.applied_desk))))
  = [JStr "pending"]
  /\ Forall2
       (fun a a' =>
          a' = a
          \/ (a' = Applications.set_status (JStr "accepted") JNull a
              /\ Some 1 = Some (Applications.a_id a)
              /\ ("employer" = "admin"
                  \/ exists j, In j (Applications.jobs
                                       (Applications.state Applications.applied_desk))
                               /\ Applications.j_id j = Applications.a_job_id a
                               /\ Applications.posted_by j = JNum 9)))
       (Applications.job_applications (Applications.state Applications.applied_desk))
       (Applications.job_applications
          (Applications.state
             (snd (Applications.updateApplicationStatus Applications.smooth
                     (Applications.sent_by Applications.employer 1
                                           [("status", JStr "accepted")])
                     Applications.applied_desk)))).
Proof.
  split; [vm_compute; reflexivity|].
  apply (status_changes_need_the_poster_or_an_admin
           Applications.smooth
           (Applications.sent_by Applications.employer 1 [("status", JStr "accepted")])
           Applications.employer Applications.applied_desk
           (fst (Applications.updateApplicationStatus Applications.smooth
                   (Applications.sent_by Applications.employer 1
                                         [("status", JStr "accepted")])
                   Applications.applied_desk))
           (snd (Applications.updateApplicationStatus Applications.smooth
                   (Applications.sent_by Applications.employer 1
                                         [("status", JStr "accepted")])
                   Applications.applied_desk))).
  - split; vm_compute; repeat constructor. intros [].
  - reflexivity.
  - apply surjective_pairing.
Defined.

Lemma withdrawal_touches_own_application_only_witness :
  Forall2
    (fun a a' =>
       a' = a
       \/ (a' = Applications.set_withdrawn a /\ Applications.a_user_id a = 7
           /\ Some 1 = Some (Applications.a_id a)))
    (Applications.job_applications (Applications.state Applications.applied_desk))
    (Applications.job_applications
       (Applications.state
          (snd (Applications.withdrawApplication Applications.smooth
                  (Applications.sent_by Applications.seeker 1 [])
                  Applications.applied_desk)))).
Proof.
  apply (withdrawal_touches_own_application_only
           Applications.smooth (Applications.sent_by Applications.seeker 1 [])
           Applications.seeker Applications.applied_desk
           (fst (Applications.withdrawApplication Applications.smooth
                   (Applications.sent_by Applications.seeker 1 [])
                   Applications.applied_desk))
           (snd (Applications.withdrawApplication Applications.smooth
                   (Applications.sent_by Applications.seeker 1 [])
                   Applications.applied_desk))).
  - split; vm_compute; repeat constructor. intros [].
  - reflexivity.
  - apply surjective_pairing.
Defined.

Lemma withdrawn_application_blocks_a_new_one_witness :
  fst (Applications.submitApplication Applications.smooth
         (Applications.sent_by Applications.seeker 5 [])
         (snd (Applications.withdrawApplication Applications.smooth
                 (Applications.sent_by Applications.seeker 1 [])
                 Applications.applied_desk)))
  = Applications.Status 400 [].
Proof.
  destruct (withdrawn_application_blocks_a_new_one
              Applications.smooth
              (Applications.sent_by Applications.seeker 1 [])
              (Applications.sent_by Applications.seeker 5 [])
              Applications.seeker Applications.first_application
              Applications.applied_desk
              [Applications.set_withdrawn Applications.first_application]
              (snd (Applications.withdrawApplication Applications.smooth
                      (Applications.sent_by Applications.seeker 1 [])
                      Applications.applied_desk))
              (fst (Applications.submitApplication Applications.smooth
                      (Applications.sent_by Applications.seeker 5 [])
                      (snd (Applications.withdrawApplication Applications.smooth
                              (Applications.sent_by Applications.seeker 1 [])
                              Applications.applied_desk))))
              (snd (Applications.submitApplication Applications.smooth
                      (Applications.sent_by Applications.seeker 5 [])
                      (snd (Applications.withdrawApplication Applications.smooth
                              (Applications.sent_by Applications.seeker 1 [])
                              Applications.applied_desk)))))
    as (_ & _ & _ & H).
  - reflexivity.
  - reflexivity.
  - vm_compute. now left.
  - reflexivity.
  - reflexivity.
  - reflexivity.
  - vm_compute. reflexivity.
  - apply surjective_pairing.
  - apply H.
    + intros n s. reflexivity.
    + reflexivity.
    + exists {| Applications.j_id := 5; Applications.posted_by := JNum 9 |}.
      split; [vm_compute; now left|reflexivity].
Defined.

Lemma application_is_stored_when_the_reply_fails_witness :
  fst (Applications.submitApplication Applications.details_down
         (Applications.sent_by Applications.seeker 5 []) Applications.desk)
  = Applications.NextError
  /\ Applications.job_applications
       (Applications.state
          (snd (Applications.submitApplication Applications.details_down
                  (Applications.sent_by Applications.seeker 5 [])
                  Applications.desk)))
     = [Applications.new_application Applications.details_down 7 5 [] 1].
Proof.
  destruct (application_is_stored_when_the_reply_fails
              Applications.details_down
              (Applications.sent_by Applications.seeker 5 [])
              Applications.seeker 5 Applications.desk
              (fst (Applications.submitApplication Applications.details_down
                      (Applications.sent_by Applications.seeker 5 [])
                      Applications.desk))
              (snd (Applications.submitApplication Applications.details_down
                      (Applications.sent_by Applications.seeker 5 [])
                      Applications.desk)))
    as (H1 & H2 & _).
  - intros n s. destruct s; cbn; split; intros Hx; try reflexivity;
      discriminate Hx.
  - reflexivity.
  - reflexivity.
  - reflexivity.
  - vm_compute. discriminate.
  - reflexivity.
  - reflexivity.
  - apply surjective_pairing.
  - split; [exact H1|exact H2].
Defined.
